(** * Legacy telemetry generator (services/pascal-legacy/legacy.py)

    A shallow embedding of the periodic job: every period it reads its
    configuration from the process environment, fabricates one telemetry
    reading, writes it to a one-row CSV file and inserts it into the table
    [telemetry_legacy].

    The Python code is effectful; it is embedded as state-passing functions
    over a [World] (environment variables, clock, random source, file
    system, database, event trace) in a small state-and-exception monad.
    The answers of the outside world to the fallible calls of one iteration
    (mkdir, open, write, connect, execute, commit, close, sleep) are given
    by an [Outcomes] record.  Floating point values are IEEE binary64,
    modelled with the [spec_float] operations of the standard library. *)

From Stdlib Require Import ZArith Lia List Bool Ascii String.
From Stdlib Require Import Floats.SpecFloat.
From stdpp Require Import base gmap strings.
Import ListNotations.

Local Open Scope Z_scope.

(** ** IEEE binary64 numbers, as Python's [float] *)

Module Binary64.

Definition prec : Z := 53.
Definition emax : Z := 1024.

Definition add := SFadd prec emax.
Definition sub := SFsub prec emax.
Definition mul := SFmul prec emax.
Definition div := SFdiv prec emax.
Definition leb := SFleb.
Definition valid := valid_binary prec emax.

(** The double nearest to the rational [n / d] (ties to even).  This is
    what the parser does with a decimal literal and what [strtod] does
    with a decimal string.  [SFdiv] divides the two integer mantissas
    exactly and rounds once. *)
Definition of_ratio (n : Z) (d : positive) : spec_float :=
  match n with
  | Z0 => S754_zero false
  | Zpos p => div (S754_finite false p 0) (S754_finite false d 0)
  | Zneg p => div (S754_finite true p 0) (S754_finite false d 0)
  end.

(** The float literals of [generate_csv_row]. *)
Definition f3_2 : spec_float := of_ratio 32 10.
Definition f12_6 : spec_float := of_ratio 126 10.
Definition f50_0 : spec_float := of_ratio 50 1.
Definition f80_0 : spec_float := of_ratio 80 1.

(** [random.uniform(a, b)] is [a + (b - a) * self.random()]; [r] is the
    value returned by [random()]. *)
Definition uniform (a b r : spec_float) : spec_float :=
  add a (mul (sub b a) r).

(** [random()] returns a double in the half-open interval [0, 1). *)
Definition unit_sample (r : spec_float) : bool :=
  match r with
  | S754_zero false => true
  | S754_finite false m e =>
      bounded prec emax m e && (Zpos (digits2_pos m) + e <=? 0)
  | _ => false
  end.

(** Round the non-negative rational [num / den] to the nearest integer,
    ties to even. *)
Definition round_half_even (num den : Z) : Z :=
  let q := num / den in
  let r := num mod den in
  match 2 * r ?= den with
  | Lt => q
  | Gt => q + 1
  | Eq => if Z.even q then q else q + 1
  end.

(** The magnitude of a finite double in hundredths, rounded to the
    nearest integer: the decimal digits [dtoa] produces in mode 3 with
    two digits after the point. *)
Definition hundredths (m : positive) (e : Z) : Z :=
  match e with
  | Zneg k => round_half_even (100 * Zpos m) (2 ^ Zpos k)
  | _ => 100 * Zpos m * 2 ^ e
  end.

(** [round(x, 2)] on a float: not-a-number, infinities and zeros are
    returned as they are; a finite value is converted to the correctly
    rounded decimal string with two digits after the point, and that
    string is converted back to the nearest double.  The sign of the
    argument is kept, also when the digits are all zero. *)
Definition round2 (x : spec_float) : spec_float :=
  match x with
  | S754_finite s m e =>
      match hundredths m e with
      | Zpos n => div (S754_finite s n 0) (S754_finite false 100 0)
      | _ => S754_zero s
      end
  | _ => x
  end.

(** A float that is the double nearest to a whole number of hundredths;
    the negative zero is what a small negative value rounds to. *)
Definition two_decimals (x : spec_float) : Prop :=
  x = S754_zero true \/ exists n : Z, x = of_ratio n 100.

End Binary64.

(** ** Strings and decimal formatting *)

Definition digit_char (d : Z) : ascii := ascii_of_nat (48 + Z.to_nat d).

Fixpoint digits_fuel (fuel : nat) (n : Z) (acc : string) : string :=
  let acc' := String (digit_char (n mod 10)) acc in
  match fuel with
  | O => acc'
  | S f => if n / 10 =? 0 then acc' else digits_fuel f (n / 10) acc'
  end.

(** [str(n)] for an [int]. *)
Definition str_int (n : Z) : string :=
  let a := Z.abs n in
  let ds := digits_fuel (Z.to_nat (Z.log2 a)) a EmptyString in
  if n <? 0 then String "-" ds else ds.

Fixpoint replicate_char (n : nat) (c : ascii) : string :=
  match n with
  | O => EmptyString
  | S k => String c (replicate_char k c)
  end.

(** The ["%0wd"] formatting of a non-negative field. *)
Definition zero_padded (width : nat) (n : nat) : string :=
  let s := str_int (Z.of_nat n) in
  String.append (replicate_char (width - String.length s) "0") s.

Definition is_digit (c : ascii) : bool :=
  let n := nat_of_ascii c in (48 <=? n)%nat && (n <=? 57)%nat.

Fixpoint string_forallb (p : ascii -> bool) (s : string) : bool :=
  match s with
  | EmptyString => true
  | String c r => p c && string_forallb p r
  end.

Fixpoint string_existsb (p : ascii -> bool) (s : string) : bool :=
  match s with
  | EmptyString => false
  | String c r => p c || string_existsb p r
  end.

Fixpoint join (sep : string) (l : list string) : string :=
  match l with
  | [] => EmptyString
  | [x] => x
  | x :: r => String.append x (String.append sep (join sep r))
  end.

Definition starts_with (p s : string) : bool := String.prefix p s.

Fixpoint ends_with_char (c : ascii) (s : string) : bool :=
  match s with
  | EmptyString => false
  | String d EmptyString => Ascii.eqb c d
  | String _ r => ends_with_char c r
  end.

(** ** The clock: [datetime.now()] and [strftime] *)

Record datetime := {
  year : nat; month : nat; day : nat;
  hour : nat; minute : nat; second : nat
}.

(** The ranges of a [datetime] whose year prints with four digits. *)
Definition valid_datetime (d : datetime) : bool :=
  (1000 <=? Z.of_nat (year d)) && (Z.of_nat (year d) <=? 9999) &&
  (1 <=? month d)%nat && (month d <=? 12)%nat &&
  (1 <=? day d)%nat && (day d <=? 31)%nat &&
  (hour d <=? 23)%nat && (minute d <=? 59)%nat && (second d <=? 59)%nat.

Definition directive (d : datetime) (c : ascii) : string :=
  if Ascii.eqb c "Y" then zero_padded 4 (year d)
  else if Ascii.eqb c "m" then zero_padded 2 (month d)
  else if Ascii.eqb c "d" then zero_padded 2 (day d)
  else if Ascii.eqb c "H" then zero_padded 2 (hour d)
  else if Ascii.eqb c "M" then zero_padded 2 (minute d)
  else if Ascii.eqb c "S" then zero_padded 2 (second d)
  else String "%" (String c EmptyString).

(** [dt.strftime(fmt)] for the directives the program uses; any other
    character is copied. *)
Fixpoint strftime (d : datetime) (fmt : string) : string :=
  match fmt with
  | EmptyString => EmptyString
  | String "%" (String c r) => String.append (directive d c) (strftime d r)
  | String c r => String c (strftime d r)
  end.

(** ** Exceptions *)

(** The classes the program distinguishes.  [KeyboardInterrupt] and
    [SystemExit] derive from [BaseException] only; every other class
    derives from [Exception].  [Psycopg2Error] stands for [psycopg2.Error]
    and its subclasses, [OtherException] for any further subclass of
    [Exception]. *)
Inductive exn_class :=
  | KeyboardInterrupt
  | SystemExit
  | OSError
  | ValueError
  | OverflowError
  | KeyError
  | Psycopg2Error
  | OtherException.

Record exn := Exn { exn_cls : exn_class; exn_msg : string }.

(** [isinstance(e, Exception)] *)
Definition isinstance_Exception (e : exn) : bool :=
  match exn_cls e with
  | KeyboardInterrupt | SystemExit => false
  | _ => true
  end.

(** [isinstance(e, psycopg2.Error)] *)
Definition isinstance_psycopg2_Error (e : exn) : bool :=
  match exn_cls e with
  | Psycopg2Error => true
  | _ => false
  end.

(** ** [int(s)] and [time.sleep] *)

(** The characters [int] skips around the number: tab, line feed,
    vertical tab, form feed, carriage return and the space. *)
Definition is_space (c : ascii) : bool :=
  let n := nat_of_ascii c in
  ((9 <=? n)%nat && (n <=? 13)%nat) || (n =? 32)%nat.

(** The ASCII characters [str.isspace] holds of: those above and the
    four separators 28 to 31, which [int] does not skip. *)
Definition is_blank (c : ascii) : bool :=
  let n := nat_of_ascii c in
  ((9 <=? n)%nat && (n <=? 13)%nat) || ((28 <=? n)%nat && (n <=? 32)%nat).

Fixpoint lstrip (s : string) : string :=
  match s with
  | String c r => if is_space c then lstrip r else s
  | EmptyString => s
  end.

Definition strip (s : string) : string :=
  String.rev (lstrip (String.rev (lstrip s))).

Definition digit_val (c : ascii) : Z := Z.of_nat (nat_of_ascii c) - 48.

(** Decimal digits with single underscores between them; [seen] tells
    whether the previous character was a digit, [count] counts digits. *)
Fixpoint parse_digits (s : string) (acc : Z) (seen : bool) (count : nat)
  : option (Z * nat) :=
  match s with
  | EmptyString => if seen then Some (acc, count) else None
  | String c r =>
      if is_digit c then parse_digits r (10 * acc + digit_val c) true (S count)
      else if Ascii.eqb c "_" then
        (if seen then parse_digits r acc false count else None)
      else None
  end.

Definition max_str_digits : nat := 4300.

(** [int(s)] in base 10: surrounding white space, an optional sign, digits.
    [None] stands for the [ValueError] the call raises.  The string is
    read as ASCII: the digits and spaces of other scripts, which [int]
    takes as well, are not recognised. *)
Definition py_int (s : string) : option Z :=
  let t := strip s in
  let '(neg, body) :=
    match t with
    | String "-" r => (true, r)
    | String "+" r => (false, r)
    | _ => (false, t)
    end in
  match parse_digits body 0 false 0 with
  | Some (n, count) =>
      if (count <=? max_str_digits)%nat
      then Some (if neg then - n else n) else None
  | None => None
  end.

(** The least and the largest number of whole seconds [time.sleep]
    converts to nanoseconds in 64 bits: the quotients of the least and
    of the largest 64-bit integer by [10 ^ 9], rounded towards zero. *)
Definition min_sleep_seconds : Z := Z.quot (- 2 ^ 63) (10 ^ 9).
Definition max_sleep_seconds : Z := (2 ^ 63 - 1) / 10 ^ 9.

(** The exception [time.sleep(secs)] raises for its argument alone: the
    seconds are converted to nanoseconds first, and the sign is looked
    at only when the conversion went through. *)
Definition sleep_argument_error (secs : Z) : option exn :=
  if (secs <? min_sleep_seconds) || (max_sleep_seconds <? secs) then
    Some (Exn OverflowError "timestamp too large to convert to C PyTime_t")
  else if secs <? 0 then
    Some (Exn ValueError "sleep length must be non-negative")
  else None.

(** ** Values, events and the world *)

Inductive pyval :=
  | PyStr (s : string)
  | PyFloat (x : spec_float).

Inductive stream := Stdout | Stderr.

(** One entry per call the program makes to the outside world, recorded
    when the call is made, whether it then succeeds or raises. *)
Inductive event :=
  | EvGetenv (name : string)
  | EvNow (d : datetime)
  | EvRandom (r : spec_float)
  | EvMkdir (path : string)
  | EvOpen (path : string)
  | EvWrite (path : string) (text : string)
  | EvFileClose (path : string)
  | EvPrint (s : stream) (line : string)
  | EvConnect (host port user password database : string)
  | EvCursor (conn : nat)
  | EvExecute (conn : nat) (query : string) (args : list pyval)
  | EvCommit (conn : nat)
  | EvCursorClose (conn : nat)
  | EvClose (conn : nat)
  | EvSleep (seconds : Z).

(** A statement sent to the database with its parameters. *)
Definition statement : Type := string * list pyval.

(** A connection that was opened and on which [close()] has not been
    called, with the statements executed on it since the last commit. *)
Record connection := { pending : list statement }.

Record World := {
  environ : gmap string string;   (* os.environ *)
  clock : nat -> datetime;        (* the successive answers of now() *)
  ticks : nat;                    (* clock reads so far *)
  rng : nat -> spec_float;        (* the successive answers of random() *)
  draws : nat;                    (* random draws so far *)
  dirs : gset string;             (* directories created *)
  files : gmap string string;     (* file contents by path; of an open
                                     file, the text handed to it *)
  committed : list statement;     (* statements committed to the database *)
  conns : gmap nat connection;    (* connections on which close() was not
                                     called, by handle *)
  next_conn : nat;                (* next fresh handle *)
  trace : list event              (* calls made so far, latest first *)
}.

Definition log (ev : event) (w : World) : World :=
  {| environ := environ w; clock := clock w; ticks := ticks w;
     rng := rng w; draws := draws w; dirs := dirs w; files := files w;
     committed := committed w; conns := conns w; next_conn := next_conn w;
     trace := ev :: trace w |}.

Definition tick (w : World) : World :=
  {| environ := environ w; clock := clock w; ticks := S (ticks w);
     rng := rng w; draws := draws w; dirs := dirs w; files := files w;
     committed := committed w; conns := conns w; next_conn := next_conn w;
     trace := trace w |}.

Definition draw (w : World) : World :=
  {| environ := environ w; clock := clock w; ticks := ticks w;
     rng := rng w; draws := S (draws w); dirs := dirs w; files := files w;
     committed := committed w; conns := conns w; next_conn := next_conn w;
     trace := trace w |}.

Definition set_dirs (d : gset string) (w : World) : World :=
  {| environ := environ w; clock := clock w; ticks := ticks w;
     rng := rng w; draws := draws w; dirs := d; files := files w;
     committed := committed w; conns := conns w; next_conn := next_conn w;
     trace := trace w |}.

Definition set_files (f : gmap string string) (w : World) : World :=
  {| environ := environ w; clock := clock w; ticks := ticks w;
     rng := rng w; draws := draws w; dirs := dirs w; files := f;
     committed := committed w; conns := conns w; next_conn := next_conn w;
     trace := trace w |}.

Definition set_db (c : list statement) (cs : gmap nat connection) (n : nat)
  (w : World) : World :=
  {| environ := environ w; clock := clock w; ticks := ticks w;
     rng := rng w; draws := draws w; dirs := dirs w; files := files w;
     committed := c; conns := cs; next_conn := n;
     trace := trace w |}.

(** ** The monad: state passing with exceptions *)

Inductive result (A : Type) :=
  | Ok (a : A)
  | Raise (e : exn).
Arguments Ok {A} a.
Arguments Raise {A} e.

Definition M (A : Type) : Type := World -> result A * World.

Definition ret {A} (a : A) : M A := fun w => (Ok a, w).

Definition raise {A} (e : exn) : M A := fun w => (Raise e, w).

Definition bind {A B} (c : M A) (k : A -> M B) : M B :=
  fun w =>
    match c w with
    | (Ok a, w') => k a w'
    | (Raise e, w') => (Raise e, w')
    end.

Declare Scope py_scope.
Delimit Scope py_scope with py.
Notation "x <- c ;; k" := (bind c (fun x => k))
  (at level 100, c at next level, right associativity) : py_scope.
Notation "c ;; k" := (bind c (fun _ => k))
  (at level 100, right associativity) : py_scope.
Local Open Scope py_scope.

(** [try: body  except ...: handler].  [handler e] is [None] when no
    [except] clause matches [e], which then propagates. *)
Definition try_except {A} (body : M A) (handler : exn -> option (M A)) : M A :=
  fun w =>
    match body w with
    | (Ok a, w') => (Ok a, w')
    | (Raise e, w') =>
        match handler e with
        | Some h => h w'
        | None => (Raise e, w')
        end
    end.

(** [with resource: body]: the exit action runs whether the body returns
    or raises; an exception of the exit action replaces the body's. *)
Definition with_exit {A} (body : M A) (exit : M unit) : M A :=
  fun w =>
    match body w with
    | (r, w') =>
        match exit w' with
        | (Ok _, w'') => (r, w'')
        | (Raise e, w'') => (Raise e, w'')
        end
    end.

Definition emit (ev : event) : M unit := fun w => (Ok tt, log ev w).

(** A call to the outside world that the world may answer with an
    exception. *)
Definition external (ev : event) (answer : option exn) : M unit :=
  emit ev ;;
  match answer with
  | Some e => raise e
  | None => ret tt
  end.

Definition modify (f : World -> World) : M unit := fun w => (Ok tt, f w).

Definition print (s : stream) (line : string) : M unit := emit (EvPrint s line).

(** ** The answers of the outside world during one iteration

    [None] means the call succeeds, [Some e] that it raises [e]. *)
Record Outcomes := {
  o_mkdir : option exn;        (* Path(csv_out_dir).mkdir(...) *)
  o_open : option exn;         (* open(filepath, 'w', newline='') *)
  o_writeheader : option exn;  (* the write made by writer.writeheader() *)
  o_writerow : option exn;     (* the write made by writer.writerow(data) *)
  o_fclose : option exn;       (* closing the file when the with block ends *)
  o_flushed : nat;             (* characters on disk when that close raises *)
  o_connect : option exn;      (* psycopg2.connect(...) *)
  o_cursor : option exn;       (* conn.cursor() *)
  o_execute : option exn;      (* cursor.execute(...) *)
  o_commit : option exn;       (* conn.commit() *)
  o_close : option exn;        (* conn.close() *)
  o_sleep : option exn         (* an interruption of time.sleep(...) *)
}.

(** Every call succeeds. *)
Definition all_fine : Outcomes :=
  {| o_mkdir := None; o_open := None; o_writeheader := None;
     o_writerow := None; o_fclose := None; o_flushed := 0%nat;
     o_connect := None; o_cursor := None; o_execute := None;
     o_commit := None; o_close := None; o_sleep := None |}.

(** ** Library calls *)

Definition newline : string := String (ascii_of_nat 10) EmptyString.
Definition crlf : string :=
  String (ascii_of_nat 13) (String (ascii_of_nat 10) EmptyString).
Definition dquote : ascii := ascii_of_nat 34.

(** [os.path.join(a, b)] on POSIX. *)
Definition os_path_join (a b : string) : string :=
  if starts_with "/" b then b
  else if (String.eqb a EmptyString || ends_with_char "/" a)%bool
       then String.append a b
       else String.append a (String.append "/" b).

(** [datetime.now()] *)
Definition datetime_now : M datetime :=
  fun w => let d := clock w (ticks w) in (Ok d, log (EvNow d) (tick w)).

(** [random.random()] *)
Definition random_random : M spec_float :=
  fun w => let r := rng w (draws w) in (Ok r, log (EvRandom r) (draw w)).

(** [random.uniform(a, b)] *)
Definition random_uniform (a b : spec_float) : M spec_float :=
  r <- random_random ;; ret (Binary64.uniform a b r).

(** [Path(p).mkdir(parents=True, exist_ok=True)] *)
Definition path_mkdir (p : string) (answer : option exn) : M unit :=
  external (EvMkdir p) answer ;;
  modify (fun w => set_dirs ({[ p ]} ∪ dirs w) w).

(** [open(p, 'w', newline='')]: the file is created or truncated. *)
Definition open_w (p : string) (answer : option exn) : M unit :=
  external (EvOpen p) answer ;;
  modify (fun w => set_files (<[ p := EmptyString ]> (files w)) w).

(** [f.write(text)] on the file opened at [p]: the text goes to the
    buffer of the file object. *)
Definition file_write (p text : string) (answer : option exn) : M unit :=
  external (EvWrite p text) answer ;;
  modify (fun w =>
    set_files (<[ p := String.append (default EmptyString (files w !! p)) text ]>
                 (files w)) w).

(** [f.close()], which the [with] block calls when it ends: the buffer
    is written to the disk.  When the call raises, the first [flushed]
    characters of the buffer are all that got there. *)
Definition file_close (p : string) (answer : option exn) (flushed : nat)
  : M unit :=
  emit (EvFileClose p) ;;
  match answer with
  | Some e =>
      modify (fun w =>
        set_files (alter (String.substring 0 flushed) p (files w)) w) ;;
      raise e
  | None => ret tt
  end.

(** [data[key]] on a dict. *)
Definition dict_get (data : gmap string pyval) (key : string) : M pyval :=
  match data !! key with
  | Some v => ret v
  | None => raise (Exn KeyError key)
  end.

(** [time.sleep(secs)] *)
Definition time_sleep (secs : Z) (answer : option exn) : M unit :=
  emit (EvSleep secs) ;;
  match sleep_argument_error secs with
  | Some e => raise e
  | None => match answer with Some e => raise e | None => ret tt end
  end.

(** *** psycopg2 *)

Definition connect (host port user password database : string)
  (answer : option exn) : M nat :=
  external (EvConnect host port user password database) answer ;;
  fun w =>
    let c := next_conn w in
    (Ok c, set_db (committed w) (<[ c := {| pending := [] |} ]> (conns w)) (S c) w).

Definition conn_cursor (c : nat) (answer : option exn) : M unit :=
  external (EvCursor c) answer.

Definition cursor_execute (c : nat) (query : string) (args : list pyval)
  (answer : option exn) : M unit :=
  external (EvExecute c query args) answer ;;
  modify (fun w =>
    set_db (committed w)
           (alter (fun k => {| pending := pending k ++ [(query, args)] |}) c (conns w))
           (next_conn w) w).

Definition conn_commit (c : nat) (answer : option exn) : M unit :=
  external (EvCommit c) answer ;;
  modify (fun w =>
    set_db (committed w ++ from_option pending [] (conns w !! c))
           (alter (fun _ => {| pending := [] |}) c (conns w))
           (next_conn w) w).

Definition cursor_close (c : nat) : M unit := emit (EvCursorClose c).

(** [conn.close()].  [conns] keeps the connections on which it was not
    called; what the interpreter does with a connection that nothing
    refers to any more is outside the model. *)
Definition conn_close (c : nat) (answer : option exn) : M unit :=
  external (EvClose c) answer ;;
  modify (fun w => set_db (committed w) (delete c (conns w)) (next_conn w) w).

(** ** The program *)

Section Program.

(** [str(x)] on a float, as the csv writer and the f-strings call it. *)
Variable float_repr : spec_float -> string.

Definition str (v : pyval) : string :=
  match v with
  | PyStr s => s
  | PyFloat x => float_repr x
  end.

(** *** The csv module *)

(** A field is quoted when it holds the delimiter, the quote character
    or a character of the line terminator. *)
Definition special_char (c : ascii) : bool :=
  (Ascii.eqb c "," || Ascii.eqb c dquote
   || Ascii.eqb c (ascii_of_nat 13) || Ascii.eqb c (ascii_of_nat 10))%bool.

Fixpoint double_quotes (s : string) : string :=
  match s with
  | EmptyString => EmptyString
  | String c r =>
      if Ascii.eqb c dquote then String c (String c (double_quotes r))
      else String c (double_quotes r)
  end.

Definition csv_field (s : string) : string :=
  if string_existsb special_char s
  then String dquote (String.append (double_quotes s) (String dquote EmptyString))
  else s.

(** The line [csv.writer.writerow] hands to the file. *)
Definition csv_line (fields : list string) : string :=
  match fields with
  | [EmptyString] =>
      String dquote (String dquote crlf)
  | _ => String.append (join "," (map csv_field fields)) crlf
  end.

Definition fieldnames : list string :=
  ["recorded_at"; "voltage"; "temp"; "source_file"]%string.

(** [DictWriter.writeheader()] *)
Definition writeheader (p : string) (answer : option exn) : M unit :=
  file_write p (csv_line fieldnames) answer.

(** [DictWriter.writerow(rowdict)]: a key outside the field names is a
    [ValueError]; a missing key is written as the empty string. *)
Definition writerow (p : string) (rowdict : gmap string pyval)
  (answer : option exn) : M unit :=
  if forallb (fun k => existsb (String.eqb k) fieldnames)
             (map fst (map_to_list rowdict))
  then
    file_write p
      (csv_line (map (fun k => from_option str EmptyString (rowdict !! k))
                     fieldnames))
      answer
  else raise (Exn ValueError "dict contains fields not in fieldnames").

(** *** legacy.py *)

(** [get_env(name, default)] *)
Definition get_env (name default_value : string) : M string :=
  emit (EvGetenv name) ;;
  fun w => (Ok (default default_value (environ w !! name)), w).

(** [generate_csv_row()] *)
Definition generate_csv_row : M (gmap string pyval) :=
  now <- datetime_now ;;
  u <- random_uniform Binary64.f3_2 Binary64.f12_6 ;;
  t <- random_uniform (SFopp Binary64.f50_0) Binary64.f80_0 ;;
  ret (<[ "recorded_at"%string := PyStr (strftime now "%Y-%m-%d %H:%M:%S") ]>
       (<[ "voltage"%string := PyFloat (Binary64.round2 u) ]>
        (<[ "temp"%string := PyFloat (Binary64.round2 t) ]> ∅))).

Definition insert_query : string :=
  String.append newline
 (String.append "                INSERT INTO telemetry_legacy (recorded_at, voltage, temp, source_file)"
 (String.append newline
 (String.append "                VALUES (%s, %s, %s, %s)"
 (String.append newline "                ")))).

(** The [try] block that writes the CSV file. *)
Definition write_csv (filepath : string) (data : gmap string pyval)
  (o : Outcomes) : M unit :=
  open_w filepath (o_open o) ;;
  with_exit
    (writeheader filepath (o_writeheader o) ;;
     writerow filepath data (o_writerow o))
    (file_close filepath (o_fclose o) (o_flushed o)) ;;
  print Stdout (String.append "✓ CSV file created: " filepath).

(** The [try] block that inserts the row into PostgreSQL. *)
Definition insert_row (pg_host pg_port pg_user pg_password pg_database : string)
  (data : gmap string pyval) (o : Outcomes) : M unit :=
  conn <- connect pg_host pg_port pg_user pg_password pg_database (o_connect o) ;;
  conn_cursor conn (o_cursor o) ;;
  with_exit
    (a1 <- dict_get data "recorded_at" ;;
     a2 <- dict_get data "voltage" ;;
     a3 <- dict_get data "temp" ;;
     a4 <- dict_get data "source_file" ;;
     cursor_execute conn insert_query [a1; a2; a3; a4] (o_execute o) ;;
     conn_commit conn (o_commit o))
    (cursor_close conn) ;;
  conn_close conn (o_close o) ;;
  v <- dict_get data "voltage" ;;
  t <- dict_get data "temp" ;;
  print Stdout
    (String.append "✓ Data inserted into database: voltage="
    (String.append (str v)
    (String.append "V, temp="
    (String.append (str t) "°C")))).

(** [except Exception as e] of the CSV block; [false] is the early
    [return]. *)
Definition csv_handler (e : exn) : option (M bool) :=
  if isinstance_Exception e then
    Some (print Stderr (String.append "✗ Error writing CSV: " (exn_msg e)) ;;
          ret false)
  else None.

(** [except psycopg2.Error as e] then [except Exception as e] of the
    database block. *)
Definition db_handler (e : exn) : option (M unit) :=
  if isinstance_psycopg2_Error e then
    Some (print Stderr (String.append "✗ Database error: " (exn_msg e)))
  else if isinstance_Exception e then
    Some (print Stderr (String.append "✗ Unexpected error: " (exn_msg e)))
  else None.

(** [generate_and_insert()] *)
Definition generate_and_insert (o : Outcomes) : M unit :=
  csv_out_dir <- get_env "CSV_OUT_DIR" "/data/csv" ;;
  pg_host <- get_env "PGHOST" "db" ;;
  pg_port <- get_env "PGPORT" "5432" ;;
  pg_user <- get_env "PGUSER" "monouser" ;;
  pg_password <- get_env "PGPASSWORD" "monopass" ;;
  pg_database <- get_env "PGDATABASE" "monolith" ;;
  path_mkdir csv_out_dir (o_mkdir o) ;;
  now <- datetime_now ;;
  let timestamp := strftime now "%Y%m%d_%H%M%S" in
  let filename := String.append "telemetry_" (String.append timestamp ".csv") in
  let filepath := os_path_join csv_out_dir filename in
  row <- generate_csv_row ;;
  let data := <[ "source_file"%string := PyStr filename ]> row in
  written <- try_except (write_csv filepath data o ;; ret true) csv_handler ;;
  if written : bool then
    try_except
      (insert_row pg_host pg_port pg_user pg_password pg_database data o)
      db_handler
  else ret tt.

(** [except Exception as e] of the main loop. *)
Definition main_handler (e : exn) : option (M unit) :=
  if isinstance_Exception e then
    Some (print Stderr (String.append "✗ Legacy error: " (exn_msg e)))
  else None.

(** One turn of the [while True] loop, with the period [main] computed
    before the loop. *)
Definition loop_body (period_seconds : Z) (o : Outcomes) : M unit :=
  try_except (generate_and_insert o) main_handler ;;
  time_sleep period_seconds (o_sleep o).

(** The first [n] turns of [while True], the turn numbered [i] first.
    [Ok tt] means that the [n] turns were completed and the loop goes on;
    [Raise e] that [e] left the loop, which ends the process. *)
Fixpoint while_true (n : nat) (period_seconds : Z) (os : nat -> Outcomes)
  (i : nat) : M unit :=
  match n with
  | O => ret tt
  | S k =>
      loop_body period_seconds (os i) ;;
      while_true k period_seconds os (S i)
  end.

(** [int(get_env('GEN_PERIOD_SEC', '300'))] *)
Definition read_period : M Z :=
  s <- get_env "GEN_PERIOD_SEC" "300" ;;
  match py_int s with
  | Some p => ret p
  | None =>
      raise (Exn ValueError
               (String.append "invalid literal for int() with base 10: " s))
  end.

(** [main()], observed for the first [n] turns of its loop. *)
Definition main (n : nat) (os : nat -> Outcomes) : M unit :=
  period_seconds <- read_period ;;
  print Stdout
    (String.append "Starting telemetry generator (period: "
    (String.append (str_int period_seconds) "s)")) ;;
  out_dir <- get_env "CSV_OUT_DIR" "/data/csv" ;;
  print Stdout (String.append "Output directory: " out_dir) ;;
  host <- get_env "PGHOST" "db" ;;
  port <- get_env "PGPORT" "5432" ;;
  database <- get_env "PGDATABASE" "monolith" ;;
  print Stdout
    (String.append "Database: "
    (String.append host
    (String.append ":"
    (String.append port
    (String.append "/" database))))) ;;
  while_true n period_seconds os O.

End Program.

(** ** Observations on a run *)

(** From [w] to [w'] exactly the calls [evs] were made, in this order. *)
Definition calls (w w' : World) (evs : list event) : Prop :=
  trace w' = rev evs ++ trace w.

(** The calls that reach the database. *)
Definition is_db_event (ev : event) : bool :=
  match ev with
  | EvConnect _ _ _ _ _ | EvCursor _ | EvExecute _ _ _ | EvCommit _
  | EvCursorClose _ | EvClose _ => true
  | _ => false
  end.

(** The calls that touch a file. *)
Definition is_file_event (ev : event) : bool :=
  match ev with
  | EvOpen _ | EvWrite _ _ | EvFileClose _ => true
  | _ => false
  end.

Definition is_close_event (ev : event) : bool :=
  match ev with
  | EvClose _ => true
  | _ => false
  end.

Definition is_getenv (name : string) (ev : event) : bool :=
  match ev with
  | EvGetenv n => String.eqb n name
  | _ => false
  end.

Definition is_sleep (ev : event) : bool :=
  match ev with
  | EvSleep _ => true
  | _ => false
  end.

(** The lines printed to a stream, in order. *)
Fixpoint printed (s : stream) (evs : list event) : list string :=
  match evs with
  | [] => []
  | EvPrint Stdout l :: r =>
      match s with Stdout => l :: printed s r | Stderr => printed s r end
  | EvPrint Stderr l :: r =>
      match s with Stderr => l :: printed s r | Stdout => printed s r end
  | _ :: r => printed s r
  end.

(** *** The values one call of [generate_and_insert] works with, read off
    the world it starts in *)

Definition csv_out_dir_of (w : World) : string :=
  default "/data/csv"%string (environ w !! "CSV_OUT_DIR"%string).
Definition pg_host_of (w : World) : string :=
  default "db"%string (environ w !! "PGHOST"%string).
Definition pg_port_of (w : World) : string :=
  default "5432"%string (environ w !! "PGPORT"%string).
Definition pg_user_of (w : World) : string :=
  default "monouser"%string (environ w !! "PGUSER"%string).
Definition pg_password_of (w : World) : string :=
  default "monopass"%string (environ w !! "PGPASSWORD"%string).
Definition pg_database_of (w : World) : string :=
  default "monolith"%string (environ w !! "PGDATABASE"%string).

(** The first clock read of the call names the file, the second one dates
    the reading. *)
Definition first_now (w : World) : datetime := clock w (ticks w).
Definition second_now (w : World) : datetime := clock w (S (ticks w)).

Definition filename_of (w : World) : string :=
  String.append "telemetry_"
    (String.append (strftime (first_now w) "%Y%m%d_%H%M%S") ".csv").
Definition filepath_of (w : World) : string :=
  os_path_join (csv_out_dir_of w) (filename_of w).
Definition recorded_at_of (w : World) : string :=
  strftime (second_now w) "%Y-%m-%d %H:%M:%S".
Definition voltage_of (w : World) : spec_float :=
  Binary64.round2
    (Binary64.uniform Binary64.f3_2 Binary64.f12_6 (rng w (draws w))).
Definition temp_of (w : World) : spec_float :=
  Binary64.round2
    (Binary64.uniform (SFopp Binary64.f50_0) Binary64.f80_0 (rng w (S (draws w)))).

(** The [data] dict once [source_file] is set. *)
Definition reading_dict (ra : string) (v t : spec_float) (sf : string)
  : gmap string pyval :=
  <[ "source_file"%string := PyStr sf ]>
    (<[ "recorded_at"%string := PyStr ra ]>
      (<[ "voltage"%string := PyFloat v ]>
        (<[ "temp"%string := PyFloat t ]> ∅))).

(** The parameters of the INSERT. *)
Definition insert_args (w : World) : list pyval :=
  [PyStr (recorded_at_of w); PyFloat (voltage_of w); PyFloat (temp_of w);
   PyStr (filename_of w)].

(** The exception with which the CSV [try] block leaves, if any: a failing
    [open] first; otherwise the exception of closing the file, which
    replaces one raised inside the [with] block; otherwise the first
    failing write. *)
Definition csv_write_answer (o : Outcomes) : option exn :=
  match o_open o with
  | Some e => Some e
  | None =>
      match o_fclose o with
      | Some e => Some e
      | None =>
          match o_writeheader o with
          | Some e => Some e
          | None => o_writerow o
          end
      end
  end.

(** The exception with which the database [try] block leaves, if any: the
    first failing call. *)
Definition db_answer (o : Outcomes) : option exn :=
  match o_connect o with
  | Some e => Some e
  | None =>
      match o_cursor o with
      | Some e => Some e
      | None =>
          match o_execute o with
          | Some e => Some e
          | None =>
              match o_commit o with
              | Some e => Some e
              | None => o_close o
              end
          end
      end
  end.

(** No call of the iteration is answered with a [BaseException] that is
    not an [Exception] (an interrupt or an exit request). *)
Definition answer_ok (a : option exn) : bool :=
  match a with
  | Some e => isinstance_Exception e
  | None => true
  end.

Definition undisturbed (o : Outcomes) : bool :=
  answer_ok (o_mkdir o) && answer_ok (o_open o) && answer_ok (o_writeheader o)
  && answer_ok (o_writerow o) && answer_ok (o_fclose o)
  && answer_ok (o_connect o) && answer_ok (o_cursor o)
  && answer_ok (o_execute o) && answer_ok (o_commit o) && answer_ok (o_close o).

(** An instance of [float_repr] for concrete runs: the digits of ['%.2f']. *)
Definition fixed2 (x : spec_float) : string :=
  match x with
  | S754_zero s => if s then "-0.00"%string else "0.00"%string
  | S754_infinity s => if s then "-inf"%string else "inf"%string
  | S754_nan => "nan"%string
  | S754_finite s m e =>
      let n := Binary64.hundredths m e in
      String.append (if s then "-" else "")%string
        (String.append (str_int (n / 100))
          (String.append "." (zero_padded 2 (Z.to_nat (n mod 100)))))
  end.

(** A world for concrete runs: an empty environment, a clock that moves
    on by one second at each read, a fixed random sample. *)
Definition sample_clock (n : nat) : datetime :=
  {| year := 2024; month := 3; day := 9; hour := 7;
     minute := ((58 + n) / 60)%nat; second := ((58 + n) mod 60)%nat |}.

Definition sample_world : World :=
  {| environ := ∅; clock := sample_clock; ticks := 1;
     rng := fun _ => S754_finite false 4503599627382841 (-53); draws := 0;
     dirs := ∅; files := ∅; committed := []; conns := ∅; next_conn := 0;
     trace := [] |}.

(** *** The calls of one iteration, written out *)

Definition prelude_events (w : World) : list event :=
  [EvGetenv "CSV_OUT_DIR"; EvGetenv "PGHOST"; EvGetenv "PGPORT";
   EvGetenv "PGUSER"; EvGetenv "PGPASSWORD"; EvGetenv "PGDATABASE";
   EvMkdir (csv_out_dir_of w)].

Definition reading_events (w : World) : list event :=
  [EvNow (first_now w); EvNow (second_now w);
   EvRandom (rng w (draws w)); EvRandom (rng w (S (draws w)))].

Section Lines.

Variable float_repr : spec_float -> string.

Definition header_line : string := csv_line fieldnames.

Definition row_line (w : World) : string :=
  csv_line [recorded_at_of w; float_repr (voltage_of w);
            float_repr (temp_of w); filename_of w].

Definition csv_events (w : World) : list event :=
  [EvOpen (filepath_of w);
   EvWrite (filepath_of w) header_line;
   EvWrite (filepath_of w) (row_line w);
   EvFileClose (filepath_of w);
   EvPrint Stdout (String.append "✓ CSV file created: " (filepath_of w))].

Definition inserted_line (w : World) : string :=
  String.append "✓ Data inserted into database: voltage="
 (String.append (float_repr (voltage_of w))
 (String.append "V, temp="
 (String.append (float_repr (temp_of w)) "°C"))).

End Lines.

(** The line the database handlers print for [e]. *)
Definition db_error_line (e : exn) : string :=
  if isinstance_psycopg2_Error e
  then String.append "✗ Database error: " (exn_msg e)
  else String.append "✗ Unexpected error: " (exn_msg e).

(** What follows a database call that raised [e]: the handler's line, or
    nothing when [e] is not an [Exception] and leaves the function. *)
Definition db_caught (e : exn) : list event :=
  if isinstance_Exception e then [EvPrint Stderr (db_error_line e)] else [].

(** The calls of the database block on the connection handle [c]. *)
Definition db_events (float_repr : spec_float -> string) (o : Outcomes)
  (w : World) : list event :=
  let c := next_conn w in
  EvConnect (pg_host_of w) (pg_port_of w) (pg_user_of w) (pg_password_of w)
            (pg_database_of w) ::
  match o_connect o with
  | Some e => db_caught e
  | None =>
    EvCursor c ::
    match o_cursor o with
    | Some e => db_caught e
    | None =>
      EvExecute c insert_query (insert_args w) ::
      match o_execute o with
      | Some e => EvCursorClose c :: db_caught e
      | None =>
        EvCommit c ::
        match o_commit o with
        | Some e => EvCursorClose c :: db_caught e
        | None =>
          EvCursorClose c :: EvClose c ::
          match o_close o with
          | Some e => db_caught e
          | None => [EvPrint Stdout (inserted_line float_repr w)]
          end
        end
      end
    end
  end.

(** How a block that may leave with [a] ends once its handler has run. *)
Definition handled (a : option exn) : result unit :=
  match a with
  | None => Ok tt
  | Some e => if isinstance_Exception e then Ok tt else Raise e
  end.

(** The statements the database block commits. *)
Definition db_committed (o : Outcomes) (w : World) : list statement :=
  match o_connect o, o_cursor o, o_execute o, o_commit o with
  | None, None, None, None => [(insert_query, insert_args w)]
  | _, _, _, _ => []
  end.

(** The connection the database block leaves behind on its handle:
    [None] when [connect] failed or [close()] succeeded. *)
Definition db_connection (o : Outcomes) (w : World) : option connection :=
  match o_connect o with
  | Some _ => None
  | None =>
    match o_cursor o with
    | Some _ => Some {| pending := [] |}
    | None =>
      match o_execute o with
      | Some _ => Some {| pending := [] |}
      | None =>
        match o_commit o with
        | Some _ => Some {| pending := [(insert_query, insert_args w)] |}
        | None =>
          match o_close o with
          | Some _ => Some {| pending := [] |}
          | None => None
          end
        end
      end
    end
  end.

(** How [time.sleep] ends. *)
Definition sleep_result (secs : Z) (o : Outcomes) : result unit :=
  match sleep_argument_error secs with
  | Some e => Raise e
  | None => match o_sleep o with Some e => Raise e | None => Ok tt end
  end.

(** The line the handler of the main loop prints for [e]. *)
Definition legacy_line (e : exn) : string :=
  String.append "✗ Legacy error: " (exn_msg e).

(** The line the handler of the CSV block prints for [e]. *)
Definition csv_error_line (e : exn) : string :=
  String.append "✗ Error writing CSV: " (exn_msg e).

(** What follows a failed CSV block: the handler's line, or nothing when
    the exception is not an [Exception]. *)
Definition csv_caught (e : exn) : list event :=
  if isinstance_Exception e then [EvPrint Stderr (csv_error_line e)] else [].

(** The calls of the CSV block, whether it succeeds or fails. *)
Definition csv_block_events (float_repr : spec_float -> string) (o : Outcomes)
  (w : World) : list event :=
  let p := filepath_of w in
  EvOpen p ::
  match o_open o with
  | Some e => csv_caught e
  | None =>
      EvWrite p header_line ::
      match o_writeheader o with
      | Some _ => []
      | None => [EvWrite p (row_line float_repr w)]
      end ++
      EvFileClose p ::
      match csv_write_answer o with
      | Some e => csv_caught e
      | None => [EvPrint Stdout (String.append "✓ CSV file created: " p)]
      end
  end.

(** The text the writes of the CSV block that succeed hand to the
    file. *)
Definition csv_block_text (float_repr : spec_float -> string) (o : Outcomes)
  (w : World) : string :=
  match o_writeheader o with
  | Some _ => EmptyString
  | None =>
      match o_writerow o with
      | Some _ => header_line
      | None => String.append header_line (row_line float_repr w)
      end
  end.

(** The file system after the CSV block: the file holds that text, or
    the part of it that was flushed when the close raises. *)
Definition csv_block_files (float_repr : spec_float -> string) (o : Outcomes)
  (w : World) : gmap string string :=
  match o_open o with
  | Some _ => files w
  | None =>
      <[ filepath_of w :=
           match o_fclose o with
           | Some _ =>
               String.substring 0 (o_flushed o) (csv_block_text float_repr o w)
           | None => csv_block_text float_repr o w
           end ]> (files w)
  end.

(** *** Further observations *)

(** The calls made from [w] to [w'], in order. *)
Definition events_since (w w' : World) : list event :=
  rev (firstn (length (trace w') - length (trace w)) (trace w')).

Definition is_connect_event (ev : event) : bool :=
  match ev with EvConnect _ _ _ _ _ => true | _ => false end.

Definition is_execute_event (ev : event) : bool :=
  match ev with EvExecute _ _ _ => true | _ => false end.

Definition is_commit_event (ev : event) : bool :=
  match ev with EvCommit _ => true | _ => false end.

Definition is_now_event (ev : event) : bool :=
  match ev with EvNow _ => true | _ => false end.

Definition is_print_event (ev : event) : bool :=
  match ev with EvPrint _ _ => true | _ => false end.

(** The connection handle a call works on. *)
Definition event_conn (ev : event) : option nat :=
  match ev with
  | EvCursor c | EvExecute c _ _ | EvCommit c | EvCursorClose c | EvClose c =>
      Some c
  | _ => None
  end.

(** The calls [generate_and_insert] can make: anything but a sleep or a
    read of the period. *)
Definition iteration_event (ev : event) : bool :=
  match ev with
  | EvSleep _ => false
  | EvGetenv n => negb (String.eqb n "GEN_PERIOD_SEC")
  | _ => true
  end.

(** The calls a turn of the loop with period [p] can make. *)
Definition turn_event (p : Z) (ev : event) : bool :=
  match ev with
  | EvSleep s => s =? p
  | _ => iteration_event ev
  end.

(** The variables [generate_and_insert] reads, and all the variables of
    the configuration. *)
Definition call_config_names : list string :=
  ["CSV_OUT_DIR"; "PGHOST"; "PGPORT"; "PGUSER"; "PGPASSWORD";
   "PGDATABASE"]%string.

Definition config_names : list string :=
  call_config_names ++ ["GEN_PERIOD_SEC"%string].

(** How one call of [generate_and_insert] ends and the calls it makes,
    over its three ways through. *)
Definition iteration_result (o : Outcomes) : result unit :=
  match o_mkdir o with
  | Some e => Raise e
  | None =>
      match csv_write_answer o with
      | Some e => handled (Some e)
      | None => handled (db_answer o)
      end
  end.

Definition iteration_events (float_repr : spec_float -> string)
  (o : Outcomes) (w : World) : list event :=
  prelude_events w ++
  match o_mkdir o with
  | Some _ => []
  | None =>
      reading_events w ++
      match csv_write_answer o with
      | Some _ => csv_block_events float_repr o w
      | None => csv_events float_repr w ++ db_events float_repr o w
      end
  end.

(** How one turn of the loop ends and what it adds to the calls of
    [generate_and_insert]. *)
Definition turn_result (p : Z) (o : Outcomes) : result unit :=
  match iteration_result o with
  | Ok _ => sleep_result p o
  | Raise e => if isinstance_Exception e then sleep_result p o else Raise e
  end.

Definition turn_tail (p : Z) (o : Outcomes) : list event :=
  match iteration_result o with
  | Ok _ => [EvSleep p]
  | Raise e =>
      if isinstance_Exception e
      then [EvPrint Stderr (legacy_line e); EvSleep p]
      else []
  end.

(** The period [main] computes at startup, and the calls it makes before
    the loop. *)
Definition period_of (w : World) : option Z :=
  py_int (default "300"%string (environ w !! "GEN_PERIOD_SEC"%string)).

Definition startup_events (p : Z) (w : World) : list event :=
  [EvGetenv "GEN_PERIOD_SEC";
   EvPrint Stdout
     (String.append "Starting telemetry generator (period: "
       (String.append (str_int p) "s)"));
   EvGetenv "CSV_OUT_DIR";
   EvPrint Stdout (String.append "Output directory: " (csv_out_dir_of w));
   EvGetenv "PGHOST"; EvGetenv "PGPORT"; EvGetenv "PGDATABASE";
   EvPrint Stdout
     (String.append "Database: "
     (String.append (pg_host_of w)
     (String.append ":"
     (String.append (pg_port_of w)
     (String.append "/" (pg_database_of w))))))].

(** Answers for concrete runs: the database refuses the connection. *)
Definition refused : Outcomes :=
  {| o_mkdir := None; o_open := None; o_writeheader := None;
     o_writerow := None; o_fclose := None; o_flushed := 0%nat;
     o_connect := Some (Exn Psycopg2Error "connection refused");
     o_cursor := None; o_execute := None; o_commit := None;
     o_close := None; o_sleep := None |}.

(** *** File names *)

(** [matches pattern s]: [s] has the shape of [pattern], in which [#]
    stands for one decimal digit and any other character for itself. *)
Fixpoint matches (pattern s : string) : bool :=
  match pattern, s with
  | EmptyString, EmptyString => true
  | String a p, String c r =>
      (if Ascii.eqb a "#" then is_digit c else Ascii.eqb a c) && matches p r
  | _, _ => false
  end.


(** Further answers for concrete runs: the output directory cannot be
    created; the file cannot be opened; the INSERT is rejected. *)
Definition no_directory : Outcomes :=
  {| o_mkdir := Some (Exn OSError "[Errno 13] Permission denied");
     o_open := None; o_writeheader := None; o_writerow := None;
     o_fclose := None; o_flushed := 0%nat; o_connect := None;
     o_cursor := None; o_execute := None; o_commit := None;
     o_close := None; o_sleep := None |}.

Definition no_file : Outcomes :=
  {| o_mkdir := None;
     o_open := Some (Exn OSError "[Errno 13] Permission denied");
     o_writeheader := None; o_writerow := None;
     o_fclose := None; o_flushed := 0%nat; o_connect := None;
     o_cursor := None; o_execute := None; o_commit := None;
     o_close := None; o_sleep := None |}.

Definition insert_rejected : Outcomes :=
  {| o_mkdir := None; o_open := None; o_writeheader := None;
     o_writerow := None; o_fclose := None; o_flushed := 0%nat;
     o_connect := None; o_cursor := None;
     o_execute := Some (Exn Psycopg2Error "relation does not exist");
     o_commit := None; o_close := None; o_sleep := None |}.

(** The disk is full: closing the file raises, and nothing of what was
    handed to the file has reached the disk. *)
Definition disk_full : Outcomes :=
  {| o_mkdir := None; o_open := None; o_writeheader := None;
     o_writerow := None;
     o_fclose := Some (Exn OSError "[Errno 28] No space left on device");
     o_flushed := 0%nat; o_connect := None; o_cursor := None;
     o_execute := None; o_commit := None; o_close := None; o_sleep := None |}.

(** *** Floats as scaled integers *)

(** The value of mantissa [m] at exponent [e], as a whole number of
    units of [2 ^ -1200]: exact for every exponent a double can have. *)
Definition scaled (m e : Z) : Z := m * 2 ^ (e + 1200).

(** The float of sign [s] with a non-negative mantissa [m]. *)
Definition of_mantissa (s : bool) (m e : Z) : spec_float :=
  match m with
  | Z0 => S754_zero s
  | Zpos p => S754_finite s p e
  | Zneg _ => S754_nan
  end.

(** Equality of two floats as data: same constructor, sign, mantissa
    and exponent. *)
Definition sf_eqb (x y : spec_float) : bool :=
  match x, y with
  | S754_zero a, S754_zero b => Bool.eqb a b
  | S754_infinity a, S754_infinity b => Bool.eqb a b
  | S754_nan, S754_nan => true
  | S754_finite a m e, S754_finite b m' e' =>
      Bool.eqb a b && Pos.eqb m m' && Z.eqb e e'
  | _, _ => false
  end.

(** The double nearest to [n / 100] lies between [lo] and [hi] and is
    left as it is by [round(x, 2)]. *)
Definition hundredths_between (lo hi : spec_float) (n : Z) : bool :=
  let x := Binary64.of_ratio n 100 in
  Binary64.leb lo x && Binary64.leb x hi && sf_eqb (Binary64.round2 x) x.

(** [f] holds of [lo], [lo + 1], ..., [lo + len - 1]. *)
Fixpoint all_from (f : Z -> bool) (lo : Z) (len : nat) : bool :=
  match len with
  | O => true
  | S k => f lo && all_from f (lo + 1) k
  end.

(** *** Worlds and answers for further concrete runs *)

Definition set_environ (env : gmap string string) (w : World) : World :=
  {| environ := env; clock := clock w; ticks := ticks w;
     rng := rng w; draws := draws w; dirs := dirs w; files := files w;
     committed := committed w; conns := conns w; next_conn := next_conn w;
     trace := trace w |}.

(** The sleep of the turn is interrupted from the keyboard. *)
Definition interrupted : Outcomes :=
  {| o_mkdir := None; o_open := None; o_writeheader := None;
     o_writerow := None; o_fclose := None; o_flushed := 0%nat;
     o_connect := None; o_cursor := None; o_execute := None;
     o_commit := None; o_close := None; o_sleep := Some (Exn KeyboardInterrupt EmptyString) |}.

(** The period is set to a negative number; the period is set but empty. *)
Definition negative_period_world : World :=
  set_environ {[ "GEN_PERIOD_SEC"%string := "-5"%string ]} sample_world.

Definition empty_period_world : World :=
  set_environ {[ "GEN_PERIOD_SEC"%string := EmptyString ]} sample_world.

(** *** Further observations on the calls of an iteration *)

Definition is_file_close_event (ev : event) : bool :=
  match ev with EvFileClose _ => true | _ => false end.

Definition is_getenv_event (ev : event) : bool :=
  match ev with EvGetenv _ => true | _ => false end.

Definition is_cursor_close_event (ev : event) : bool :=
  match ev with EvCursorClose _ => true | _ => false end.

(** The line an iteration prints on stderr: the one of the first step
    that fails. *)
Definition error_line (o : Outcomes) : option string :=
  match o_mkdir o with
  | Some e => Some (legacy_line e)
  | None =>
      match csv_write_answer o with
      | Some e => Some (csv_error_line e)
      | None => option_map db_error_line (db_answer o)
      end
  end.

(** The commit succeeds and [conn.close()] raises. *)
Definition close_fails : Outcomes :=
  {| o_mkdir := None; o_open := None; o_writeheader := None;
     o_writerow := None; o_fclose := None; o_flushed := 0%nat;
     o_connect := None;
     o_cursor := None; o_execute := None; o_commit := None;
     o_close := Some (Exn Psycopg2Error "connection already closed");
     o_sleep := None |}.

(** A world whose clock stands still. *)
Definition frozen_world : World :=
  {| environ := ∅; clock := fun _ => sample_clock 0; ticks := 0;
     rng := fun _ => S754_finite false 4503599627382841 (-53); draws := 0;
     dirs := ∅; files := ∅; committed := []; conns := ∅; next_conn := 0;
     trace := [] |}.

(** The call with the password of a [connect] replaced. *)
Definition with_password (pw : string) (ev : event) : event :=
  match ev with
  | EvConnect h p u _ d => EvConnect h p u pw d
  | _ => ev
  end.

Definition recorded_at_pattern : string := "####-##-## ##:##:##".

(** The period is written with a sign, a leading zero and an underscore. *)
Definition spelled_period_world : World :=
  set_environ {[ "GEN_PERIOD_SEC"%string := " +0_300 "%string ]} sample_world.

(** [c], or [d] when [c] is [Eq]: the order of two pairs. *)
Definition then_compare (c d : comparison) : comparison :=
  match c with
  | Eq => d
  | _ => c
  end.

(** The order of two clock values: by year, then month, day, hour,
    minute and second. *)
Definition datetime_compare (a b : datetime) : comparison :=
  then_compare (Nat.compare (year a) (year b))
 (then_compare (Nat.compare (month a) (month b))
 (then_compare (Nat.compare (day a) (day b))
 (then_compare (Nat.compare (hour a) (hour b))
 (then_compare (Nat.compare (minute a) (minute b))
               (Nat.compare (second a) (second b)))))).

(** *** Three sentences of the specification, as they are written

    The code does not satisfy them; they are refuted below and proved in
    an amended form. *)

(** Every iteration that reaches the database step connects, executes
    the INSERT, commits and closes the connection. *)
Definition database_step_always_completes
  (float_repr : spec_float -> string) : Prop :=
  forall o w,
    o_mkdir o = None -> csv_write_answer o = None ->
    let evs := events_since w (snd (generate_and_insert float_repr o w)) in
    existsb is_connect_event evs && existsb is_execute_event evs
    && existsb is_commit_event evs && existsb is_close_event evs = true.


(** Every variable of the configuration, the period included, is read
    again in every turn of the loop. *)
Definition all_config_reread_every_turn
  (float_repr : spec_float -> string) : Prop :=
  forall name, In name config_names ->
  forall period o w,
    existsb (is_getenv name)
            (events_since w (snd (loop_body float_repr period o w))) = true.

(** ** Proofs *)

(** *** The dict of one reading *)

Lemma get_recorded_at ra v t sf :
  dict_get (reading_dict ra v t sf) "recorded_at" = ret (PyStr ra).
Proof. vm_compute. reflexivity. Qed.

Lemma get_voltage ra v t sf :
  dict_get (reading_dict ra v t sf) "voltage" = ret (PyFloat v).
Proof. vm_compute. reflexivity. Qed.

Lemma get_temp ra v t sf :
  dict_get (reading_dict ra v t sf) "temp" = ret (PyFloat t).
Proof. vm_compute. reflexivity. Qed.

Lemma get_source_file ra v t sf :
  dict_get (reading_dict ra v t sf) "source_file" = ret (PyStr sf).
Proof. vm_compute. reflexivity. Qed.

(** The dict holds the four field names and nothing else, so [writerow]
    writes its four values in the order of the field names. *)
Lemma writerow_reading fr p ra v t sf ans :
  writerow fr p (reading_dict ra v t sf) ans =
  file_write p (csv_line [ra; fr v; fr t; sf]) ans.
Proof. vm_compute. reflexivity. Qed.

Lemma psycopg2_is_exception e :
  isinstance_psycopg2_Error e = true -> isinstance_Exception e = true.
Proof. destruct e as [[] m]; cbv; congruence. Qed.

(** *** Symbolic execution *)

Ltac run :=
  cbv beta iota zeta delta
    [generate_and_insert loop_body bind ret raise try_except with_exit emit
     external modify print get_env path_mkdir datetime_now random_random
     random_uniform generate_csv_row write_csv open_w file_write file_close
     writeheader insert_row connect conn_cursor cursor_execute
     conn_commit cursor_close conn_close csv_handler db_handler main_handler
     time_sleep str
     log tick draw set_dirs set_files set_db
     environ clock ticks rng draws dirs files committed conns next_conn trace
     o_mkdir o_open o_writeheader o_writerow o_fclose o_flushed o_connect
     o_cursor o_execute o_commit o_close o_sleep csv_write_answer db_answer
     csv_out_dir_of pg_host_of pg_port_of pg_user_of pg_password_of
     pg_database_of first_now second_now filename_of filepath_of
     recorded_at_of voltage_of temp_of insert_args calls prelude_events
     reading_events csv_events db_events header_line row_line inserted_line
     db_caught csv_caught csv_block_events csv_block_text csv_block_files
     handled
     db_committed db_connection sleep_result db_error_line csv_error_line
     legacy_line fst snd].

Ltac fold_reading :=
  match goal with
  | |- context [ <[ "source_file"%string := PyStr ?sf ]>
                   (<[ "recorded_at"%string := PyStr ?ra ]>
                     (<[ "voltage"%string := PyFloat ?v ]>
                       (<[ "temp"%string := PyFloat ?t ]> ∅))) ] =>
      change (<[ "source_file"%string := PyStr sf ]>
                   (<[ "recorded_at"%string := PyStr ra ]>
                     (<[ "voltage"%string := PyFloat v ]>
                       (<[ "temp"%string := PyFloat t ]> ∅))))
        with (reading_dict ra v t sf)
  end.

Ltac dict :=
  repeat first
    [ rewrite writerow_reading | rewrite get_recorded_at | rewrite get_voltage
    | rewrite get_temp | rewrite get_source_file ].

Ltac go := run; repeat (fold_reading; dict; run).

Ltac maps :=
  repeat first
    [ rewrite lookup_insert_eq | rewrite insert_insert_eq
    | rewrite lookup_alter_eq | rewrite alter_insert_eq
    | rewrite delete_insert_eq | rewrite lookup_delete_eq ];
  cbn [default from_option id fmap option_fmap option_map pending String.append
       rev app].

(** Case analysis on the class of a raised exception, as the handlers
    test it. *)
Ltac split_class :=
  repeat match goal with
  | |- context [isinstance_psycopg2_Error ?e] =>
      let Hp := fresh "Hp" in
      destruct (isinstance_psycopg2_Error e) eqn:Hp;
      [ rewrite (psycopg2_is_exception e Hp) in * | ]
  | |- context [isinstance_Exception ?e] =>
      let He := fresh "He" in
      destruct (isinstance_Exception e) eqn:He
  end.

(** *** The three ways through [generate_and_insert]

    Each lemma gives the result of the call, the calls it makes in order
    and the parts of the world it changes. *)

(** The directory cannot be created: the exception leaves the function. *)
Lemma iteration_mkdir_error fr o w e :
  o_mkdir o = Some e ->
  exists w',
    generate_and_insert fr o w = (Raise e, w') /\
    calls w w' (prelude_events w) /\
    files w' = files w /\ committed w' = committed w /\
    conns w' = conns w /\ next_conn w' = next_conn w /\
    ticks w' = ticks w /\ clock w' = clock w /\ environ w' = environ w.
Proof.
  intros Hm. destruct o as [mk op wh wr fc fl cn cu ex cm cl sl].
  destruct w as [env clk tk rg dr ds fs cmt cs nc tr].
  cbn in Hm. subst mk. go.
  eexists. split; [reflexivity|]. run. maps. repeat split; reflexivity.
Qed.

(** The CSV block leaves with an exception: the database is not touched. *)
Lemma iteration_csv_error fr o w e :
  o_mkdir o = None -> csv_write_answer o = Some e ->
  exists w',
    generate_and_insert fr o w = (handled (Some e), w') /\
    calls w w' (prelude_events w ++ reading_events w
                ++ csv_block_events fr o w) /\
    files w' = csv_block_files fr o w /\ committed w' = committed w /\
    conns w' = conns w /\ next_conn w' = next_conn w /\
    ticks w' = S (S (ticks w)) /\ clock w' = clock w /\ environ w' = environ w.
Proof.
  intros Hm Hc. destruct o as [mk op wh wr fc fl cn cu ex cm cl sl].
  destruct w as [env clk tk rg dr ds fs cmt cs nc tr].
  cbn in Hm. subst mk.
  unfold csv_write_answer in Hc. cbn in Hc.
  go. maps.
  set (p := os_path_join _ _).
  set (row := csv_line (_ :: _ :: _)).
  destruct op as [e1|];
   [|destruct fc as [e2|]; [destruct wh as [e3|]; [|destruct wr as [e4|]]
                           |destruct wh as [e3|]; [|destruct wr as [e4|]]]];
   try discriminate; injection Hc as ->; go; split_class; go.
  all: eexists; (split; [reflexivity|]); run; maps.
  all: repeat split; reflexivity.
Qed.

(** The CSV file is written: the database block runs. *)
Lemma iteration_csv_ok fr o w :
  o_mkdir o = None -> csv_write_answer o = None ->
  exists w',
    generate_and_insert fr o w = (handled (db_answer o), w') /\
    calls w w' (prelude_events w ++ reading_events w ++ csv_events fr w
                ++ db_events fr o w) /\
    files w' =
      <[ filepath_of w := String.append header_line (row_line fr w) ]> (files w) /\
    committed w' = committed w ++ db_committed o w /\
    conns w' = match db_connection o w with
               | Some k => <[ next_conn w := k ]> (conns w)
               | None => match o_connect o with
                         | None => delete (next_conn w) (conns w)
                         | Some _ => conns w
                         end
               end /\
    next_conn w' = match o_connect o with
                   | None => S (next_conn w)
                   | Some _ => next_conn w
                   end /\
    ticks w' = S (S (ticks w)) /\ clock w' = clock w /\ environ w' = environ w.
Proof.
  intros Hm Hc. destruct o as [mk op wh wr fc fl cn cu ex cm cl sl].
  destruct w as [env clk tk rg dr ds fs cmt cs nc tr].
  cbn in Hm. subst mk.
  unfold csv_write_answer in Hc. cbn in Hc.
  destruct op; [discriminate|]. destruct fc; [discriminate|].
  destruct wh; [discriminate|]. subst wr.
  go. maps.
  set (p := os_path_join _ _).
  set (row := csv_line (_ :: _ :: _)).
  set (F := <[ p := _ ]> fs).
  destruct cn as [e|]; [|destruct cu as [e|]; [|destruct ex as [e|];
    [|destruct cm as [e|]; [|destruct cl as [e|]]]]];
  go; split_class; go.
  all: eexists; (split; [reflexivity|]); run; maps.
  all: rewrite ?app_nil_r; repeat split; reflexivity.
Qed.

(** *** Calls made between two worlds *)

Lemma calls_refl w : calls w w [].
Proof. reflexivity. Qed.

Lemma calls_trans w1 w2 w3 a b :
  calls w1 w2 a -> calls w2 w3 b -> calls w1 w3 (a ++ b).
Proof.
  unfold calls. intros H1 H2. rewrite H2, H1, rev_app_distr, app_assoc.
  reflexivity.
Qed.

Lemma calls_unique w w' a b : calls w w' a -> calls w w' b -> a = b.
Proof.
  unfold calls. intros Ha Hb. rewrite Ha in Hb.
  apply app_inv_tail in Hb.
  rewrite <- (rev_involutive a), <- (rev_involutive b). congruence.
Qed.

Lemma calls_log w ev : calls w (log ev w) [ev].
Proof. reflexivity. Qed.

(** *** One turn of the loop *)

Lemma time_sleep_run secs o w :
  time_sleep secs (o_sleep o) w = (sleep_result secs o, log (EvSleep secs) w).
Proof.
  unfold time_sleep, sleep_result, bind, emit.
  destruct (sleep_argument_error secs); [reflexivity|].
  destruct (o_sleep o); reflexivity.
Qed.

Lemma loop_body_run fr period o w :
  loop_body fr period o w =
  match generate_and_insert fr o w with
  | (Ok _, w1) => (sleep_result period o, log (EvSleep period) w1)
  | (Raise e, w1) =>
      if isinstance_Exception e
      then (sleep_result period o,
            log (EvSleep period) (log (EvPrint Stderr (legacy_line e)) w1))
      else (Raise e, w1)
  end.
Proof.
  unfold loop_body, bind, try_except, main_handler.
  destruct (generate_and_insert fr o w) as [[[]|e] w1].
  - apply time_sleep_run.
  - destruct (isinstance_Exception e); [|reflexivity].
    unfold print, emit. apply time_sleep_run.
Qed.

(** C10: when creating the output directory fails, the exception leaves
    [generate_and_insert] (the call is made before the CSV [try] block),
    the handler of the main loop catches and logs it (the only line on the
    error stream is the one of the main loop, not the one of the CSV
    block), and in that iteration no file is opened or written and the
    database is not called: the only calls are the six environment reads,
    the [mkdir], the log line and the sleep. *)
Theorem mkdir_error_reaches_main_handler fr period o w e :
  o_mkdir o = Some e -> isinstance_Exception e = true ->
  exists w1 w2,
    generate_and_insert fr o w = (Raise e, w1) /\
    loop_body fr period o w = (sleep_result period o, w2) /\
    calls w w2 (prelude_events w
                ++ [EvPrint Stderr (legacy_line e); EvSleep period]) /\
    forallb (fun ev => negb (is_file_event ev || is_db_event ev))
            (prelude_events w) = true /\
    files w2 = files w /\ committed w2 = committed w /\ conns w2 = conns w.
Proof.
  intros Hm He.
  destruct (iteration_mkdir_error fr o w e Hm)
    as (w1 & Hrun & Hcalls & Hf & Hc & Hn & _).
  exists w1. eexists. split; [exact Hrun|].
  rewrite loop_body_run, Hrun, He. split; [reflexivity|].
  split.
  - apply (calls_trans w w1); [exact Hcalls|]. reflexivity.
  - repeat split; assumption || reflexivity.
Qed.

(** *** The shape of the calls of a failing block *)

Lemma csv_block_events_error fr o w e :
  csv_write_answer o = Some e -> isinstance_Exception e = true ->
  exists evs,
    csv_block_events fr o w = evs ++ [EvPrint Stderr (csv_error_line e)] /\
    forallb is_file_event evs = true.
Proof.
  intros Hc He. destruct o as [mk op wh wr fc fl cn cu ex cm cl sl].
  unfold csv_block_events, csv_write_answer in *. cbn in *.
  destruct op as [e1|].
  - injection Hc as ->. unfold csv_caught. rewrite He.
    exists [EvOpen (filepath_of w)]. split; reflexivity.
  - rewrite Hc. unfold csv_caught. rewrite He.
    destruct wh.
    + exists [EvOpen (filepath_of w); EvWrite (filepath_of w) header_line;
              EvFileClose (filepath_of w)].
      split; reflexivity.
    + exists [EvOpen (filepath_of w); EvWrite (filepath_of w) header_line;
              EvWrite (filepath_of w) (row_line fr w);
              EvFileClose (filepath_of w)].
      split; reflexivity.
Qed.

Lemma db_events_error fr o w e :
  db_answer o = Some e -> isinstance_Exception e = true ->
  exists evs,
    db_events fr o w = evs ++ [EvPrint Stderr (db_error_line e)] /\
    forallb is_db_event evs = true.
Proof.
  intros Hd He. destruct o as [mk op wh wr fc fl cn cu ex cm cl sl].
  unfold db_events, db_answer in *. cbn in *.
  destruct cn as [e1|]; [injection Hd as ->|
  destruct cu as [e1|]; [injection Hd as ->|
  destruct ex as [e1|]; [injection Hd as ->|
  destruct cm as [e1|]; [injection Hd as ->|
  destruct cl as [e1|]; [injection Hd as ->|discriminate]]]]];
  unfold db_caught; rewrite He;
  match goal with
  | |- exists evs, ?l = _ /\ _ =>
      exists (removelast l); split; reflexivity
  end.
Qed.

Lemma forallb_impl {A} (p q : A -> bool) l :
  (forall x, p x = true -> q x = true) ->
  forallb p l = true -> forallb q l = true.
Proof.
  intros Hpq. induction l as [|x l IH]; cbn; [reflexivity|].
  intros H. apply andb_prop in H. destruct H as [Hx Hl].
  rewrite (Hpq x Hx), (IH Hl). reflexivity.
Qed.

(** C1: when the CSV write step raises an error (any [Exception], in
    particular an [OSError]), [generate_and_insert] returns normally, the
    last thing it does is to print the error on the error stream, and
    before that it has made no call to the database: no connection is
    opened, nothing is executed, and the database is as it was. *)
Theorem csv_write_error_skips_database fr o w e :
  o_mkdir o = None -> csv_write_answer o = Some e ->
  isinstance_Exception e = true ->
  exists w' evs,
    generate_and_insert fr o w = (Ok tt, w') /\
    calls w w' (evs ++ [EvPrint Stderr (csv_error_line e)]) /\
    forallb (fun ev => negb (is_db_event ev)) evs = true /\
    committed w' = committed w /\ conns w' = conns w /\
    next_conn w' = next_conn w.
Proof.
  intros Hm Hc He.
  destruct (iteration_csv_error fr o w e Hm Hc)
    as (w' & Hrun & Hcalls & _ & Hcm & Hcs & Hn & _).
  destruct (csv_block_events_error fr o w e Hc He) as (evs & Hev & Hfile).
  exists w', (prelude_events w ++ reading_events w ++ evs).
  unfold handled in Hrun. rewrite He in Hrun.
  split; [exact Hrun|]. split.
  - rewrite Hev in Hcalls. rewrite <- !app_assoc. exact Hcalls.
  - split; [|auto].
    rewrite !forallb_app. rewrite (forallb_impl is_file_event _ evs); auto.
    intros [] H; try discriminate; reflexivity.
Qed.

(** C2: when the CSV file has been written and a database call then
    raises (the connection, the cursor, the query, the commit or the close,
    with any [Exception]), the file written in this iteration is on disk
    with its header and its row, the last thing [generate_and_insert] does
    is to print the error on the error stream, it returns normally, and
    the loop goes on to sleep; the file is still there after the sleep,
    and when the sleep returns the next turn of the loop runs. *)
Theorem database_error_keeps_csv_and_loop fr period o w e :
  o_mkdir o = None -> csv_write_answer o = None ->
  db_answer o = Some e -> isinstance_Exception e = true ->
  exists w1 w2 evs,
    generate_and_insert fr o w = (Ok tt, w1) /\
    calls w w1 (evs ++ [EvPrint Stderr (db_error_line e)]) /\
    files w1 =
      <[ filepath_of w := String.append header_line (row_line fr w) ]> (files w) /\
    loop_body fr period o w = (sleep_result period o, w2) /\
    calls w1 w2 [EvSleep period] /\
    files w2 !! filepath_of w
      = Some (String.append header_line (row_line fr w)) /\
    (sleep_result period o = Ok tt ->
     forall n os i, os i = o ->
       while_true fr (S n) period os i w = while_true fr n period os (S i) w2).
Proof.
  intros Hm Hc Hd He.
  destruct (iteration_csv_ok fr o w Hm Hc)
    as (w1 & Hrun & Hcalls & Hf & _).
  destruct (db_events_error fr o w e Hd He) as (evs & Hev & _).
  rewrite Hd in Hrun. unfold handled in Hrun. rewrite He in Hrun.
  exists w1, (log (EvSleep period) w1),
    (prelude_events w ++ reading_events w ++ csv_events fr w ++ evs).
  split; [exact Hrun|]. split.
  { rewrite Hev in Hcalls. rewrite <- !app_assoc. exact Hcalls. }
  split; [exact Hf|].
  assert (Hloop : loop_body fr period o w
                  = (sleep_result period o, log (EvSleep period) w1)).
  { rewrite loop_body_run, Hrun. reflexivity. }
  split; [exact Hloop|]. split; [reflexivity|]. split.
  { change (files (log (EvSleep period) w1)) with (files w1).
    rewrite Hf. apply lookup_insert_eq. }
  intros Hs n os i Hos. cbn [while_true]. unfold bind at 1.
  rewrite Hos, Hloop, Hs. reflexivity.
Qed.

(** *** Where [close()] appears *)

Lemma close_before_database fr w l :
  existsb is_close_event
    (prelude_events w ++ reading_events w ++ csv_events fr w ++ l)
  = existsb is_close_event l.
Proof. reflexivity. Qed.

Lemma close_in_db_events fr o w :
  existsb is_close_event (db_events fr o w) =
  match o_connect o, o_cursor o, o_execute o, o_commit o with
  | None, None, None, None => true
  | _, _, _, _ => false
  end.
Proof.
  destruct o as [mk op wh wr fc fl cn cu ex cm cl sl].
  unfold db_events, db_caught.
  cbv [o_connect o_cursor o_execute o_commit o_close].
  destruct cn as [e|]; [|destruct cu as [e|]; [|destruct ex as [e|];
    [|destruct cm as [e|]]]];
  try destruct (isinstance_Exception e); reflexivity.
Qed.

Lemma last_before_database fr w l x :
  last l = Some x ->
  last (prelude_events w ++ reading_events w ++ csv_events fr w ++ l) = Some x.
Proof.
  intros H. rewrite !app_assoc. rewrite last_app, H. reflexivity.
Qed.

(** C8: when the connection has been opened and the insert or the commit
    then raises, [conn.close()] is not called: the function prints the
    error and returns with the connection still open.  Among the ways
    through the database block, [close()] is called exactly when the
    cursor, the insert and the commit all succeeded. *)
Theorem close_only_on_success fr o w :
  o_mkdir o = None -> csv_write_answer o = None -> o_connect o = None ->
  exists w' evs,
    generate_and_insert fr o w = (handled (db_answer o), w') /\
    calls w w' evs /\
    (forall e,
       o_cursor o = None ->
       o_execute o = Some e \/ (o_execute o = None /\ o_commit o = Some e) ->
       isinstance_Exception e = true ->
       handled (db_answer o) = Ok tt /\
       existsb is_close_event evs = false /\
       last evs = Some (EvPrint Stderr (db_error_line e)) /\
       is_Some (conns w' !! next_conn w)) /\
    (existsb is_close_event evs = true <->
     o_cursor o = None /\ o_execute o = None /\ o_commit o = None).
Proof.
  intros Hm Hc Hn.
  destruct (iteration_csv_ok fr o w Hm Hc)
    as (w' & Hrun & Hcalls & _ & _ & Hcs & _).
  exists w', (prelude_events w ++ reading_events w ++ csv_events fr w
              ++ db_events fr o w).
  split; [exact Hrun|]. split; [exact Hcalls|].
  rewrite close_before_database, close_in_db_events, Hn.
  split.
  - intros e Hcu Hfail He.
    assert (Hd : db_answer o = Some e).
    { unfold db_answer. rewrite Hn, Hcu.
      destruct Hfail as [-> | [-> ->]]; reflexivity. }
    rewrite Hd. unfold handled. rewrite He. split; [reflexivity|].
    split; [rewrite Hcu; destruct Hfail as [-> | [-> ->]]; reflexivity|].
    split.
    + destruct (db_events_error fr o w e Hd He) as (evs & -> & _).
      apply last_before_database. rewrite last_app. reflexivity.
    + rewrite Hcs. unfold db_connection. rewrite Hn, Hcu.
      destruct Hfail as [-> | [-> ->]]; rewrite lookup_insert_eq; eauto.
  - destruct (o_cursor o), (o_execute o), (o_commit o);
      split; try discriminate; try tauto;
      intros (? & ? & ?); discriminate.
Qed.

(** *** Reading the calls off the trace *)

Lemma events_since_calls w w' evs : calls w w' evs -> events_since w w' = evs.
Proof.
  unfold calls, events_since. intros ->.
  rewrite length_app, Nat.add_sub, firstn_app, Nat.sub_diag, firstn_all.
  cbn [firstn]. rewrite app_nil_r. apply rev_involutive.
Qed.

Lemma filter_none {A} (p q : A -> bool) l :
  (forall x, q x = true -> p x = false) ->
  forallb q l = true -> filter p l = [].
Proof.
  intros Hqp. induction l as [|x l IH]; cbn; [reflexivity|].
  intros H. apply andb_prop in H. destruct H as [Hx Hl].
  rewrite (Hqp x Hx). exact (IH Hl).
Qed.

(** The database block makes database calls and prints, nothing else;
    its calls all work on the handle this iteration obtained. *)
Lemma db_events_kind fr o w :
  forallb (fun ev => is_db_event ev || is_print_event ev)
          (db_events fr o w) = true /\
  forallb (fun ev => match event_conn ev with
                     | Some c => Nat.eqb c (next_conn w)
                     | None => true
                     end) (db_events fr o w) = true /\
  filter is_connect_event (db_events fr o w) =
    [EvConnect (pg_host_of w) (pg_port_of w) (pg_user_of w)
               (pg_password_of w) (pg_database_of w)].
Proof.
  destruct o as [mk op wh wr fc fl cn cu ex cm cl sl].
  unfold db_events, db_caught.
  cbv [o_connect o_cursor o_execute o_commit o_close].
  destruct cn as [e|]; [|destruct cu as [e|]; [|destruct ex as [e|];
    [|destruct cm as [e|]; [|destruct cl as [e|]]]]];
  try destruct (isinstance_Exception e);
  cbn [forallb filter is_db_event is_print_event is_connect_event event_conn
       orb andb];
  rewrite ?Nat.eqb_refl; repeat split; reflexivity.
Qed.

(** C7, as it is written, fails: with a database that refuses the
    connection the iteration reaches the database step and calls
    [connect], but executes nothing, commits nothing and closes nothing. *)
Lemma database_step_cut_short :
  let evs := events_since sample_world
               (snd (generate_and_insert fixed2 refused sample_world)) in
  existsb is_connect_event evs = true /\
  existsb is_execute_event evs = false /\
  existsb is_commit_event evs = false /\
  existsb is_close_event evs = false /\
  ~ database_step_always_completes fixed2.
Proof.
  cbv zeta.
  destruct (iteration_csv_ok fixed2 refused sample_world eq_refl eq_refl)
    as (w' & Hrun & Hcalls & _).
  assert (Hev : events_since sample_world
                  (snd (generate_and_insert fixed2 refused sample_world))
                = prelude_events sample_world ++ reading_events sample_world
                  ++ csv_events fixed2 sample_world
                  ++ db_events fixed2 refused sample_world).
  { rewrite Hrun. apply events_since_calls. exact Hcalls. }
  rewrite Hev.
  repeat (split; [reflexivity|]).
  intros H. specialize (H refused sample_world eq_refl eq_refl).
  cbv zeta in H. rewrite Hev in H. discriminate H.
Qed.

(** C7, amended: an iteration that reaches the database step asks for one
    connection, with the parameters read from the environment in this
    call, and works on a handle of its own (the next fresh one; nothing
    is pooled or reused).  When no database call raises, it executes one
    parameterized INSERT into [telemetry_legacy] with the four fields of
    the reading as parameters, commits, closes the cursor and closes the
    connection, which is then gone from the open connections, and the
    statement is committed. *)
Theorem database_step_when_calls_succeed fr o w :
  o_mkdir o = None -> csv_write_answer o = None ->
  exists w' evs,
    generate_and_insert fr o w = (handled (db_answer o), w') /\
    calls w w' (evs ++ db_events fr o w) /\
    forallb (fun ev => negb (is_db_event ev)) evs = true /\
    filter is_connect_event (db_events fr o w) =
      [EvConnect (pg_host_of w) (pg_port_of w) (pg_user_of w)
                 (pg_password_of w) (pg_database_of w)] /\
    forallb (fun ev => match event_conn ev with
                       | Some c => Nat.eqb c (next_conn w)
                       | None => true
                       end) (db_events fr o w) = true /\
    (o_connect o = None -> next_conn w' = S (next_conn w)) /\
    (db_answer o = None ->
       db_events fr o w =
         [EvConnect (pg_host_of w) (pg_port_of w) (pg_user_of w)
                    (pg_password_of w) (pg_database_of w);
          EvCursor (next_conn w);
          EvExecute (next_conn w) insert_query
            [PyStr (recorded_at_of w); PyFloat (voltage_of w);
             PyFloat (temp_of w); PyStr (filename_of w)];
          EvCommit (next_conn w);
          EvCursorClose (next_conn w);
          EvClose (next_conn w);
          EvPrint Stdout (inserted_line fr w)] /\
       String.index 0
         "INSERT INTO telemetry_legacy (recorded_at, voltage, temp, source_file)"
         insert_query <> None /\
       String.index 0 "VALUES (%s, %s, %s, %s)" insert_query <> None /\
       committed w' = committed w ++ [(insert_query, insert_args w)] /\
       conns w' = delete (next_conn w) (conns w)).
Proof.
  intros Hm Hc.
  destruct (iteration_csv_ok fr o w Hm Hc)
    as (w' & Hrun & Hcalls & _ & Hcm & Hcs & Hn & _).
  destruct (db_events_kind fr o w) as (_ & Hconn & Hone).
  exists w', (prelude_events w ++ reading_events w ++ csv_events fr w).
  split; [exact Hrun|]. split; [rewrite <- !app_assoc; exact Hcalls|].
  split; [reflexivity|]. split; [exact Hone|]. split; [exact Hconn|].
  split; [intros Ho; rewrite Hn, Ho; reflexivity|].
  intros Hd. rewrite Hcm, Hcs.
  destruct o as [mk op wh wr fc fl cn cu ex cm cl sl].
  unfold db_answer, db_events, db_committed, db_connection in *.
  cbv [o_connect o_cursor o_execute o_commit o_close] in *.
  destruct cn; [discriminate|]. destruct cu; [discriminate|].
  destruct ex; [discriminate|]. destruct cm; [discriminate|]. subst cl.
  split; [reflexivity|].
  split; [vm_compute; discriminate|].
  split; [vm_compute; discriminate|].
  split; reflexivity.
Qed.

(** C9: the time in the file name and [recorded_at] come from two clock
    reads of the same call, the one for the file name first: the call
    reads the clock exactly twice, the name of the file it opens is
    formatted from the first value and the first field of the row it
    writes from the second.  The two need not fall in the same second: in
    the sample world the file is named for 07:00:59 and its row is dated
    07:01:00. *)
Theorem filename_and_recorded_at_from_two_clock_reads fr :
  (forall o w,
     o_mkdir o = None -> csv_write_answer o = None ->
     exists w' evs,
       snd (generate_and_insert fr o w) = w' /\
       calls w w' evs /\
       filter is_now_event evs
         = [EvNow (clock w (ticks w)); EvNow (clock w (S (ticks w)))] /\
       ticks w' = S (S (ticks w)) /\
       In (EvOpen
             (os_path_join (csv_out_dir_of w)
                (String.append "telemetry_"
                  (String.append
                     (strftime (clock w (ticks w)) "%Y%m%d_%H%M%S") ".csv"))))
          evs /\
       In (EvWrite (filepath_of w)
             (csv_line [strftime (clock w (S (ticks w))) "%Y-%m-%d %H:%M:%S";
                        fr (voltage_of w); fr (temp_of w); filename_of w]))
          evs) /\
  (exists w,
     second (clock w (ticks w)) <> second (clock w (S (ticks w))) /\
     filename_of w = "telemetry_20240309_070059.csv"%string /\
     recorded_at_of w = "2024-03-09 07:01:00"%string).
Proof.
  split.
  - intros o w Hm Hc.
    destruct (iteration_csv_ok fr o w Hm Hc)
      as (w' & Hrun & Hcalls & _ & _ & _ & _ & Ht & _).
    exists w', (prelude_events w ++ reading_events w ++ csv_events fr w
                ++ db_events fr o w).
    rewrite Hrun. split; [reflexivity|]. split; [exact Hcalls|].
    split.
    { assert (Hnone : filter is_now_event (db_events fr o w) = []).
      { apply (filter_none _ (fun ev => is_db_event ev || is_print_event ev));
          [|apply db_events_kind].
        intros [] H; (discriminate H || reflexivity). }
      rewrite !filter_app, Hnone. reflexivity. }
    split; [exact Ht|].
    split; apply in_or_app; right; apply in_or_app; right;
      apply in_or_app; left; cbn; auto.
  - exists sample_world.
    split; [cbn; discriminate|]. split; vm_compute; reflexivity.
Qed.

(** *** Every call of [generate_and_insert] and every turn of the loop *)

Lemma generate_and_insert_run fr o w :
  exists w',
    generate_and_insert fr o w = (iteration_result o, w') /\
    calls w w' (iteration_events fr o w) /\
    environ w' = environ w.
Proof.
  unfold iteration_result, iteration_events.
  destruct (o_mkdir o) as [e|] eqn:Hm.
  - destruct (iteration_mkdir_error fr o w e Hm) as (w' & Hrun & Hcalls & H).
    exists w'. rewrite app_nil_r. repeat split; try assumption. apply H.
  - destruct (csv_write_answer o) as [e|] eqn:Hc.
    + destruct (iteration_csv_error fr o w e Hm Hc)
        as (w' & Hrun & Hcalls & H).
      exists w'. repeat split; try assumption. apply H.
    + destruct (iteration_csv_ok fr o w Hm Hc) as (w' & Hrun & Hcalls & H).
      exists w'. repeat split; try assumption. apply H.
Qed.

Lemma csv_block_events_kind fr o w :
  forallb (fun ev => is_file_event ev || is_print_event ev)
          (csv_block_events fr o w) = true.
Proof.
  destruct o as [mk op wh wr fc fl cn cu ex cm cl sl].
  unfold csv_block_events, csv_caught, csv_write_answer.
  cbv [o_open o_writeheader o_writerow o_fclose].
  destruct op as [e|]; [destruct (isinstance_Exception e); reflexivity|].
  destruct wh as [e1|]; destruct fc as [e2|];
    try destruct wr as [e3|];
    repeat match goal with
           | |- context [isinstance_Exception ?e] =>
               destruct (isinstance_Exception e)
           end; reflexivity.
Qed.

Lemma iteration_events_kind fr o w :
  forallb iteration_event (iteration_events fr o w) = true.
Proof.
  unfold iteration_events.
  rewrite forallb_app. apply andb_true_intro. split; [reflexivity|].
  destruct (o_mkdir o); [reflexivity|].
  rewrite forallb_app. apply andb_true_intro. split; [reflexivity|].
  destruct (csv_write_answer o).
  - apply (forallb_impl (fun ev => is_file_event ev || is_print_event ev));
      [|apply csv_block_events_kind].
    intros [] H; (discriminate H || reflexivity).
  - rewrite forallb_app. apply andb_true_intro. split; [reflexivity|].
    apply (forallb_impl (fun ev => is_db_event ev || is_print_event ev));
      [|apply db_events_kind].
    intros [] H; (discriminate H || reflexivity).
Qed.

(** The six variables are read first, in every call, whatever happens
    next. *)
Lemma iteration_events_start fr o w :
  exists evs,
    iteration_events fr o w
      = map EvGetenv call_config_names ++ EvMkdir (csv_out_dir_of w) :: evs.
Proof.
  unfold iteration_events. eexists. reflexivity.
Qed.

Lemma handled_undisturbed a :
  answer_ok a = true -> handled a = Ok tt.
Proof.
  destruct a as [e|]; [|reflexivity]. cbn. intros ->. reflexivity.
Qed.

Lemma csv_write_answer_ok o :
  undisturbed o = true -> answer_ok (csv_write_answer o) = true.
Proof.
  unfold undisturbed, csv_write_answer. intros H.
  repeat (apply andb_prop in H; destruct H as [H ?]).
  destruct (o_open o); [assumption|]. destruct (o_fclose o); [assumption|].
  destruct (o_writeheader o); assumption.
Qed.

Lemma db_answer_ok o :
  undisturbed o = true -> answer_ok (db_answer o) = true.
Proof.
  unfold undisturbed, db_answer. intros H.
  repeat (apply andb_prop in H; destruct H as [H ?]).
  destruct (o_connect o); [assumption|]. destruct (o_cursor o); [assumption|].
  destruct (o_execute o); [assumption|]. destruct (o_commit o); assumption.
Qed.

(** Without an interrupt, a call returns or raises an [Exception]. *)
Lemma iteration_result_undisturbed o :
  undisturbed o = true ->
  iteration_result o = Ok tt \/
  exists e, iteration_result o = Raise e /\ isinstance_Exception e = true.
Proof.
  intros H. unfold iteration_result.
  destruct (o_mkdir o) as [e|] eqn:Hm.
  - right. exists e. split; [reflexivity|].
    unfold undisturbed in H. rewrite Hm in H.
    repeat (apply andb_prop in H; destruct H as [H ?]). exact H.
  - left. destruct (csv_write_answer o) eqn:Hc.
    + apply handled_undisturbed. rewrite <- Hc. apply csv_write_answer_ok, H.
    + apply handled_undisturbed, db_answer_ok, H.
Qed.

Lemma loop_body_total fr p o w :
  exists w',
    loop_body fr p o w = (turn_result p o, w') /\
    calls w w' (iteration_events fr o w ++ turn_tail p o) /\
    environ w' = environ w.
Proof.
  destruct (generate_and_insert_run fr o w) as (w1 & Hrun & Hcalls & He).
  rewrite loop_body_run, Hrun. unfold turn_result, turn_tail.
  destruct (iteration_result o) as [[]|e].
  - eexists. split; [reflexivity|]. split; [|exact He].
    apply (calls_trans w w1); [exact Hcalls|reflexivity].
  - destruct (isinstance_Exception e).
    + eexists. split; [reflexivity|]. split; [|exact He].
      apply (calls_trans w w1); [exact Hcalls|reflexivity].
    + exists w1. split; [reflexivity|]. split; [|exact He].
      rewrite app_nil_r. exact Hcalls.
Qed.

Lemma turn_events_kind fr p o w :
  forallb (turn_event p) (iteration_events fr o w ++ turn_tail p o) = true.
Proof.
  rewrite forallb_app. apply andb_true_intro. split.
  - apply (forallb_impl iteration_event); [|apply iteration_events_kind].
    intros [] H; (discriminate H || exact H || reflexivity).
  - unfold turn_tail. destruct (iteration_result o) as [[]|e];
      [|destruct (isinstance_Exception e)]; cbn; rewrite ?Z.eqb_refl;
      reflexivity.
Qed.

(** All the calls of the loop are calls of a turn with the period the
    loop was started with, however the loop ends. *)
Lemma while_true_calls fr p os n :
  forall i w, exists w' evs,
    snd (while_true fr n p os i w) = w' /\
    calls w w' evs /\ forallb (turn_event p) evs = true /\
    environ w' = environ w.
Proof.
  induction n as [|n IH]; intros i w.
  - exists w, []. repeat split; reflexivity.
  - destruct (loop_body_total fr p (os i) w) as (w1 & Hrun & Hcalls & He).
    cbn [while_true]. unfold bind at 1. rewrite Hrun.
    destruct (turn_result p (os i)) as [[]|e].
    + destruct (IH (S i) w1) as (w2 & evs & H2 & Hc2 & Hk & He2).
      exists w2, ((iteration_events fr (os i) w ++ turn_tail p (os i)) ++ evs).
      split; [exact H2|]. split; [exact (calls_trans _ _ _ _ _ Hcalls Hc2)|].
      split; [|congruence].
      rewrite forallb_app, Hk, turn_events_kind. reflexivity.
    + exists w1, (iteration_events fr (os i) w ++ turn_tail p (os i)).
      split; [reflexivity|]. split; [exact Hcalls|].
      split; [apply turn_events_kind|exact He].
Qed.

Lemma sleeps_of_turn fr p o w :
  undisturbed o = true ->
  length (filter is_sleep (iteration_events fr o w ++ turn_tail p o)) = 1%nat.
Proof.
  intros H. rewrite filter_app, length_app.
  rewrite (filter_none is_sleep iteration_event);
    [|intros [] Hx; (discriminate Hx || reflexivity)
     |apply iteration_events_kind].
  unfold turn_tail.
  destruct (iteration_result_undisturbed o H) as [-> | (e & -> & ->)];
    reflexivity.
Qed.

(** Without interrupts and with a period [time.sleep] accepts, the loop
    completes any number of turns. *)
Lemma while_true_runs fr p os :
  sleep_argument_error p = None ->
  (forall i, undisturbed (os i) = true /\ o_sleep (os i) = None) ->
  forall n i w, exists w' evs,
    while_true fr n p os i w = (Ok tt, w') /\
    calls w w' evs /\ length (filter is_sleep evs) = n.
Proof.
  intros Hp Hos. induction n as [|n IH]; intros i w.
  - exists w, []. repeat split; reflexivity.
  - destruct (Hos i) as [Hu Hs].
    destruct (loop_body_total fr p (os i) w) as (w1 & Hrun & Hcalls & _).
    assert (Hturn : turn_result p (os i) = Ok tt).
    { unfold turn_result, sleep_result. rewrite Hp, Hs.
      destruct (iteration_result_undisturbed (os i) Hu)
        as [-> | (e & -> & ->)]; reflexivity. }
    destruct (IH (S i) w1) as (w2 & evs & H2 & Hc2 & Hn).
    exists w2, ((iteration_events fr (os i) w ++ turn_tail p (os i)) ++ evs).
    cbn [while_true]. unfold bind at 1. rewrite Hrun, Hturn.
    split; [exact H2|]. split; [exact (calls_trans _ _ _ _ _ Hcalls Hc2)|].
    rewrite filter_app, length_app, Hn, (sleeps_of_turn fr p (os i) w Hu).
    reflexivity.
Qed.

(** [main] before its loop. *)
Lemma main_run fr n os w :
  main fr n os w =
  match period_of w with
  | None =>
      (Raise (Exn ValueError
                (String.append "invalid literal for int() with base 10: "
                   (default "300"%string (environ w !! "GEN_PERIOD_SEC"%string)))),
       log (EvGetenv "GEN_PERIOD_SEC") w)
  | Some p =>
      while_true fr n p os O
        (fold_left (fun w ev => log ev w) (startup_events p w) w)
  end.
Proof.
  destruct w as [env clk tk rg dr ds fs cmt cs nc tr].
  cbv beta iota zeta delta
    [main read_period period_of bind get_env emit print ret raise log
     environ clock ticks rng draws dirs files committed conns next_conn trace
     fold_left startup_events csv_out_dir_of pg_host_of pg_port_of
     pg_database_of].
  destruct (py_int (default "300"%string (env !! "GEN_PERIOD_SEC"%string)));
    reflexivity.
Qed.

Lemma calls_startup p w :
  calls w (fold_left (fun w ev => log ev w) (startup_events p w) w)
        (startup_events p w).
Proof. reflexivity. Qed.

Lemma existsb_none {A} (p q : A -> bool) l :
  (forall x, q x = true -> p x = false) ->
  forallb q l = true -> existsb p l = false.
Proof.
  intros Hqp. induction l as [|x l IH]; cbn; [reflexivity|].
  intros H. apply andb_prop in H. destruct H as [Hx Hl].
  rewrite (Hqp x Hx). exact (IH Hl).
Qed.

Lemma turn_event_sleep p l s :
  forallb (turn_event p) l = true -> In (EvSleep s) l -> s = p.
Proof.
  intros H Hin. rewrite forallb_forall in H. specialize (H _ Hin).
  cbn in H. apply Z.eqb_eq. exact H.
Qed.

(** C5: an [Exception] that leaves [generate_and_insert] is caught by the
    loop, which prints it on the error stream, sleeps and, when the sleep
    returns, runs the next turn.  Under normal operation (the period
    parses as an integer that [time.sleep] accepts, and no call is
    answered with an interrupt or an exit request) [main] completes any
    number of turns without leaving its loop, sleeping once per turn.  A
    period that does not parse ends [main] with a [ValueError] before the
    loop. *)
Theorem main_loop_never_exits fr :
  (forall period o w e w1,
     generate_and_insert fr o w = (Raise e, w1) ->
     isinstance_Exception e = true ->
     exists w2,
       loop_body fr period o w = (sleep_result period o, w2) /\
       calls w1 w2 [EvPrint Stderr (legacy_line e); EvSleep period] /\
       (sleep_result period o = Ok tt ->
        forall n os i, os i = o ->
          while_true fr (S n) period os i w
          = while_true fr n period os (S i) w2)) /\
  (forall n os w p,
     period_of w = Some p -> sleep_argument_error p = None ->
     (forall i, undisturbed (os i) = true /\ o_sleep (os i) = None) ->
     exists w' evs,
       main fr n os w = (Ok tt, w') /\ calls w w' evs /\
       length (filter is_sleep evs) = n) /\
  (forall n os w,
     period_of w = None ->
     exists e w',
       main fr n os w = (Raise e, w') /\ exn_cls e = ValueError /\
       calls w w' [EvGetenv "GEN_PERIOD_SEC"]).
Proof.
  split; [|split].
  - intros period o w e w1 Hrun He.
    assert (Hloop : loop_body fr period o w
                    = (sleep_result period o,
                       log (EvSleep period)
                         (log (EvPrint Stderr (legacy_line e)) w1))).
    { rewrite loop_body_run, Hrun, He. reflexivity. }
    eexists. split; [exact Hloop|]. split; [reflexivity|].
    intros Hs n os i Hos. cbn [while_true]. unfold bind at 1.
    rewrite Hos, Hloop, Hs. reflexivity.
  - intros n os w p Hp Hsl Hos.
    rewrite main_run, Hp.
    destruct (while_true_runs fr p os Hsl Hos n O
                (fold_left (fun w ev => log ev w) (startup_events p w) w))
      as (w' & evs & Hrun & Hcalls & Hn).
    exists w', (startup_events p w ++ evs).
    split; [exact Hrun|].
    split; [exact (calls_trans _ _ _ _ _ (calls_startup p w) Hcalls)|].
    rewrite filter_app, length_app, Hn. reflexivity.
  - intros n os w Hp. rewrite main_run, Hp.
    eexists _, _. split; [reflexivity|]. split; reflexivity.
Qed.

(** C6, as it is written, fails: a turn of the loop does not read
    [GEN_PERIOD_SEC]. *)
Lemma period_not_read_in_turn :
  existsb (is_getenv "GEN_PERIOD_SEC")
    (events_since sample_world
       (snd (loop_body fixed2 300 all_fine sample_world))) = false /\
  ~ all_config_reread_every_turn fixed2.
Proof.
  assert (H : existsb (is_getenv "GEN_PERIOD_SEC")
                (events_since sample_world
                   (snd (loop_body fixed2 300 all_fine sample_world)))
              = false) by (vm_compute; reflexivity).
  split; [exact H|].
  intros Hall.
  specialize (Hall "GEN_PERIOD_SEC"%string).
  rewrite Hall in H; [discriminate H|].
  unfold config_names, call_config_names. cbn. tauto.
Qed.

(** C6, amended: the output directory and the five connection parameters
    are read from the environment again in every turn of the loop, at the
    start of [generate_and_insert], and the directory created and the
    connection requested are the ones of the environment of that moment.
    The period is not: a turn never reads [GEN_PERIOD_SEC] and sleeps for
    the period it was given; [main] reads the variable once, before the
    loop, and every sleep of the run lasts the period computed then. *)
Theorem config_read_each_turn_period_once fr :
  (forall name, In name call_config_names ->
   forall period o w,
     existsb (is_getenv name)
       (events_since w (snd (loop_body fr period o w))) = true) /\
  (forall o w, exists w' evs,
     snd (generate_and_insert fr o w) = w' /\
     calls w w'
       (map EvGetenv call_config_names
        ++ EvMkdir (default "/data/csv"%string
                      (environ w !! "CSV_OUT_DIR"%string)) :: evs) /\
     (o_mkdir o = None -> csv_write_answer o = None ->
      filter is_connect_event evs =
        [EvConnect
           (default "db"%string (environ w !! "PGHOST"%string))
           (default "5432"%string (environ w !! "PGPORT"%string))
           (default "monouser"%string (environ w !! "PGUSER"%string))
           (default "monopass"%string (environ w !! "PGPASSWORD"%string))
           (default "monolith"%string (environ w !! "PGDATABASE"%string))])) /\
  (forall period o w,
     let evs := events_since w (snd (loop_body fr period o w)) in
     existsb (is_getenv "GEN_PERIOD_SEC") evs = false /\
     forall s, In (EvSleep s) evs -> s = period) /\
  (forall n os w,
     let evs := events_since w (snd (main fr n os w)) in
     length (filter (is_getenv "GEN_PERIOD_SEC") evs) = 1%nat /\
     forall s, In (EvSleep s) evs -> period_of w = Some s).
Proof.
  split; [|split; [|split]].
  - intros name Hin period o w.
    destruct (loop_body_total fr period o w) as (w' & Hrun & Hcalls & _).
    rewrite Hrun. cbn [snd]. rewrite (events_since_calls _ _ _ Hcalls).
    rewrite existsb_app.
    destruct (iteration_events_start fr o w) as (evs & ->).
    rewrite existsb_app. apply orb_true_intro. left.
    apply orb_true_intro. left.
    cbn in Hin.
    repeat (destruct Hin as [<- | Hin]; [reflexivity|]). contradiction.
  - intros o w.
    destruct (generate_and_insert_run fr o w) as (w' & Hrun & Hcalls & _).
    exists w'. unfold iteration_events in Hcalls.
    destruct (o_mkdir o) eqn:Hm.
    + exists []. rewrite Hrun. split; [reflexivity|]. split; [exact Hcalls|].
      discriminate.
    + destruct (csv_write_answer o) eqn:Hc.
      * eexists. rewrite Hrun. split; [reflexivity|].
        split; [exact Hcalls|]. discriminate.
      * eexists. rewrite Hrun. split; [reflexivity|].
        split; [exact Hcalls|]. intros _ _.
        rewrite 2!filter_app. exact (proj2 (proj2 (db_events_kind fr o w))).
  - intros period o w. cbv zeta.
    destruct (loop_body_total fr period o w) as (w' & Hrun & Hcalls & _).
    rewrite Hrun. cbn [snd]. rewrite (events_since_calls _ _ _ Hcalls).
    split.
    + apply (existsb_none _ (turn_event period));
        [|apply turn_events_kind].
      intros [] H; try reflexivity. cbn in H |- *.
      apply negb_true_iff in H. exact H.
    + intros s. apply turn_event_sleep, turn_events_kind.
  - intros n os w. cbv zeta. rewrite main_run.
    destruct (period_of w) as [p|] eqn:Hp.
    + destruct (while_true_calls fr p os n O
                  (fold_left (fun w ev => log ev w) (startup_events p w) w))
        as (w' & evs & Hw & Hcalls & Hk & _).
      rewrite Hw.
      rewrite (events_since_calls _ _ _
                 (calls_trans _ _ _ _ _ (calls_startup p w) Hcalls)).
      split.
      * rewrite filter_app, length_app.
        rewrite (filter_none _ (turn_event p) evs); [reflexivity| |exact Hk].
        intros [] H; try reflexivity. cbn in H |- *.
        apply negb_true_iff in H. exact H.
      * intros s Hin. apply in_app_or in Hin. destruct Hin as [Hin|Hin].
        -- cbn in Hin. repeat (destruct Hin as [Hin|Hin]; [discriminate|]).
           contradiction.
        -- rewrite (turn_event_sleep p evs s Hk Hin). reflexivity.
    + cbn [snd].
      rewrite (events_since_calls _ _ [EvGetenv "GEN_PERIOD_SEC"]);
        [|reflexivity].
      split; [reflexivity|]. intros s [H|[]]. discriminate.
Qed.

(** *** The name and the text of the CSV file *)

Lemma matches_app p1 s1 p2 s2 :
  matches p1 s1 = true -> matches p2 s2 = true ->
  matches (String.append p1 p2) (String.append s1 s2) = true.
Proof.
  revert s1. induction p1 as [|a p1 IH]; intros [|c s1] H1 H2;
    try discriminate H1; [exact H2|].
  cbn [String.append matches] in *.
  apply andb_prop in H1. destruct H1 as [Hc H1].
  apply andb_true_intro. split; [exact Hc|exact (IH s1 H1 H2)].
Qed.

(** *** The digits of [str] on small numbers *)

Lemma digits_fuel_stop f n acc :
  n / 10 = 0 -> digits_fuel f n acc = String (digit_char (n mod 10)) acc.
Proof.
  intros H. destruct f as [|f]; cbn [digits_fuel]; [reflexivity|].
  rewrite H. reflexivity.
Qed.

Lemma digits_fuel_step f n acc :
  n / 10 <> 0 ->
  digits_fuel (S f) n acc
  = digits_fuel f (n / 10) (String (digit_char (n mod 10)) acc).
Proof.
  intros H. cbn [digits_fuel]. destruct (Z.eqb_spec (n / 10) 0); [tauto|].
  reflexivity.
Qed.

Lemma fuel_of_log2 n k :
  2 ^ Z.of_nat k <= n -> exists f, Z.to_nat (Z.log2 n) = (k + f)%nat.
Proof.
  intros H. exists (Z.to_nat (Z.log2 n) - k)%nat.
  assert (Z.of_nat k <= Z.log2 n).
  { apply Z.log2_le_pow2; [|exact H].
    pose proof (Z.pow_pos_nonneg 2 (Z.of_nat k)). lia. }
  lia.
Qed.

Lemma str_int_one n :
  0 <= n <= 9 -> str_int n = String (digit_char n) EmptyString.
Proof.
  intros H. unfold str_int. rewrite Z.abs_eq by lia.
  destruct (Z.ltb_spec n 0); [lia|].
  rewrite digits_fuel_stop by (apply Z.div_small; lia).
  rewrite Z.mod_small by lia. reflexivity.
Qed.

Lemma str_int_two n :
  10 <= n <= 99 ->
  str_int n
  = String (digit_char (n / 10)) (String (digit_char (n mod 10)) EmptyString).
Proof.
  intros H. unfold str_int. rewrite Z.abs_eq by lia.
  destruct (Z.ltb_spec n 0); [lia|].
  destruct (fuel_of_log2 n 1 ltac:(cbn; lia)) as [f ->]. cbn [Nat.add].
  assert (H1 : 1 <= n / 10 <= 9)
    by (Z.div_mod_to_equations; lia).
  rewrite digits_fuel_step by lia.
  rewrite digits_fuel_stop by (apply Z.div_small; lia).
  rewrite (Z.mod_small (n / 10)) by lia. reflexivity.
Qed.

Lemma str_int_four n :
  1000 <= n <= 9999 ->
  str_int n
  = String (digit_char (n / 1000))
     (String (digit_char (n / 100 mod 10))
       (String (digit_char (n / 10 mod 10))
         (String (digit_char (n mod 10)) EmptyString))).
Proof.
  intros H. unfold str_int. rewrite Z.abs_eq by lia.
  destruct (Z.ltb_spec n 0); [lia|].
  destruct (fuel_of_log2 n 3 ltac:(cbn; lia)) as [f ->]. cbn [Nat.add].
  assert (H1 : 100 <= n / 10 <= 999)
    by (Z.div_mod_to_equations; lia).
  assert (H2 : 10 <= n / 10 / 10 <= 99)
    by (Z.div_mod_to_equations; lia).
  assert (H3 : 1 <= n / 10 / 10 / 10 <= 9)
    by (Z.div_mod_to_equations; lia).
  rewrite 3 digits_fuel_step by lia.
  rewrite digits_fuel_stop by (apply Z.div_small; lia).
  rewrite (Z.mod_small (n / 10 / 10 / 10)) by lia.
  rewrite !Z.div_div by lia. reflexivity.
Qed.

Lemma digit_char_cases d :
  0 <= d <= 9 ->
  d = 0 \/ d = 1 \/ d = 2 \/ d = 3 \/ d = 4 \/ d = 5 \/ d = 6 \/ d = 7 \/
  d = 8 \/ d = 9.
Proof. lia. Qed.

Lemma is_digit_digit_char d : 0 <= d <= 9 -> is_digit (digit_char d) = true.
Proof.
  intros H. destruct (digit_char_cases d H)
    as [->|[->|[->|[->|[->|[->|[->|[->|[->| ->]]]]]]]]]; reflexivity.
Qed.

Lemma digit_val_digit_char d : 0 <= d <= 9 -> digit_val (digit_char d) = d.
Proof.
  intros H. destruct (digit_char_cases d H)
    as [->|[->|[->|[->|[->|[->|[->|[->|[->| ->]]]]]]]]]; reflexivity.
Qed.

(** The two characters of a field of width two, the four of a year. *)
Lemma zero_padded_two n :
  (n <= 99)%nat ->
  zero_padded 2 n
  = String (digit_char (Z.of_nat n / 10))
      (String (digit_char (Z.of_nat n mod 10)) EmptyString).
Proof.
  intros H. unfold zero_padded.
  destruct (Z.le_gt_cases 10 (Z.of_nat n)) as [Hge|Hlt].
  - rewrite str_int_two by lia. reflexivity.
  - rewrite str_int_one by lia.
    rewrite Z.div_small, Z.mod_small by lia. reflexivity.
Qed.

Lemma zero_padded_four n :
  1000 <= Z.of_nat n <= 9999 ->
  zero_padded 4 n
  = String (digit_char (Z.of_nat n / 1000))
     (String (digit_char (Z.of_nat n / 100 mod 10))
       (String (digit_char (Z.of_nat n / 10 mod 10))
         (String (digit_char (Z.of_nat n mod 10)) EmptyString))).
Proof.
  intros H. unfold zero_padded. rewrite str_int_four by lia. reflexivity.
Qed.

Lemma two_digits n :
  (n <= 99)%nat -> matches "##" (zero_padded 2 n) = true.
Proof.
  intros H.
  assert (Hall : forallb (fun n => matches "##" (zero_padded 2 n))
                         (seq 0 100) = true) by (vm_compute; reflexivity).
  rewrite forallb_forall in Hall. apply Hall, in_seq. lia.
Qed.

Lemma four_digits n :
  1000 <= Z.of_nat n <= 9999 -> matches "####" (zero_padded 4 n) = true.
Proof.
  intros H. rewrite zero_padded_four by exact H. cbn [matches Ascii.eqb Bool.eqb].
  assert (H3 : 0 <= Z.of_nat n / 1000 <= 9)
    by (Z.div_mod_to_equations; lia).
  pose proof (Z.mod_pos_bound (Z.of_nat n / 100) 10 ltac:(lia)).
  pose proof (Z.mod_pos_bound (Z.of_nat n / 10) 10 ltac:(lia)).
  pose proof (Z.mod_pos_bound (Z.of_nat n) 10 ltac:(lia)).
  rewrite !is_digit_digit_char by lia. reflexivity.
Qed.

Lemma strftime_file_stamp d :
  strftime d "%Y%m%d_%H%M%S" =
  String.append (zero_padded 4 (year d))
 (String.append (zero_padded 2 (month d))
 (String.append (zero_padded 2 (day d))
 (String "_"
 (String.append (zero_padded 2 (hour d))
 (String.append (zero_padded 2 (minute d))
 (String.append (zero_padded 2 (second d)) EmptyString)))))).
Proof. reflexivity. Qed.


Lemma digit_not_special c : is_digit c = true -> special_char c = false.
Proof.
  intros H. unfold special_char.
  destruct (Ascii.eqb_spec c ","); [subst; discriminate H|].
  destruct (Ascii.eqb_spec c dquote); [subst; discriminate H|].
  destruct (Ascii.eqb_spec c (ascii_of_nat 13)); [subst; discriminate H|].
  destruct (Ascii.eqb_spec c (ascii_of_nat 10)); [subst; discriminate H|].
  reflexivity.
Qed.

(** A string of the shape of a pattern without special characters has no
    special character, so the csv writer does not quote it. *)
Lemma matches_plain p s :
  string_existsb special_char p = false -> matches p s = true ->
  string_existsb special_char s = false.
Proof.
  revert s. induction p as [|a p IH]; intros [|c s] Hp H;
    try discriminate H; [reflexivity|].
  cbn [matches string_existsb] in *.
  apply orb_false_elim in Hp. destruct Hp as [Ha Hp].
  apply andb_prop in H. destruct H as [Hc H].
  rewrite (IH s Hp H), orb_false_r.
  destruct (Ascii.eqb a "#").
  - apply digit_not_special, Hc.
  - apply Ascii.eqb_eq in Hc. subst c. exact Ha.
Qed.

Lemma csv_field_plain s :
  string_existsb special_char s = false -> csv_field s = s.
Proof. unfold csv_field. intros ->. reflexivity. Qed.


Lemma os_path_join_relative dir name :
  starts_with "/" name = false ->
  os_path_join dir name =
  String.append dir
    (String.append
       (if (String.eqb dir EmptyString || ends_with_char "/" dir)%bool
        then EmptyString else "/"%string) name).
Proof.
  unfold os_path_join. intros ->.
  destruct (String.eqb dir EmptyString || ends_with_char "/" dir)%bool;
    reflexivity.
Qed.



(** *** Rounding in binary64 *)

Lemma digits2_pos_bounds m :
  2 ^ (Zpos (digits2_pos m) - 1) <= Zpos m < 2 ^ Zpos (digits2_pos m).
Proof.
  induction m as [m IH|m IH|]; cbn [digits2_pos].
  - rewrite Pos2Z.inj_succ.
    replace (Z.succ (Zpos (digits2_pos m)) - 1)
      with (Z.succ (Zpos (digits2_pos m) - 1)) by lia.
    rewrite !Z.pow_succ_r by lia. lia.
  - rewrite Pos2Z.inj_succ.
    replace (Z.succ (Zpos (digits2_pos m)) - 1)
      with (Z.succ (Zpos (digits2_pos m) - 1)) by lia.
    rewrite !Z.pow_succ_r by lia. lia.
  - cbn. lia.
Qed.

Lemma Zdigits2_le m k : 0 <= m < 2 ^ k -> 0 <= k -> Zdigits2 m <= k.
Proof.
  intros [H0 H] Hk. destruct m as [|p|p]; cbn [Zdigits2]; [lia| |lia].
  destruct (Z.le_gt_cases (Zpos (digits2_pos p)) k) as [|Hgt]; [assumption|].
  exfalso. pose proof (digits2_pos_bounds p) as [Hlo _].
  assert (2 ^ k <= 2 ^ (Zpos (digits2_pos p) - 1))
    by (apply Z.pow_le_mono_r; lia).
  lia.
Qed.

Lemma shr_1_m r : 0 <= shr_m r -> shr_m (shr_1 r) = shr_m r / 2.
Proof.
  destruct r as [m rr ss]. cbn [shr_m]. intros H.
  destruct m as [|[p|p|]|p]; cbn [shr_1 shr_m].
  - reflexivity.
  - rewrite Pos2Z.inj_xI, (Z.mul_comm 2), Z.div_add_l by lia.
    change (1 / 2) with 0. lia.
  - rewrite Pos2Z.inj_xO, (Z.mul_comm 2), Z.div_mul by lia. reflexivity.
  - reflexivity.
  - exfalso. apply H. reflexivity.
Qed.

Lemma iter_pos_shr_1 p : forall r, 0 <= shr_m r ->
  shr_m (SpecFloat.iter_pos shr_1 p r) = shr_m r / 2 ^ Zpos p.
Proof.
  assert (Hpow : forall q, 0 < 2 ^ Zpos q)
    by (intros q; apply Z.pow_pos_nonneg; lia).
  induction p as [p IH|p IH|]; intros r H; cbn [SpecFloat.iter_pos].
  - assert (H1 : 0 <= shr_m (shr_1 r))
      by (rewrite shr_1_m by assumption; apply Z.div_pos; lia).
    assert (H2 : 0 <= shr_m (SpecFloat.iter_pos shr_1 p (shr_1 r)))
      by (rewrite IH by assumption; apply Z.div_pos; [lia|apply Hpow]).
    rewrite IH, IH, shr_1_m by assumption.
    pose proof (Hpow p) as Hp.
    rewrite !Z.div_div by lia.
    f_equal. rewrite <- Z.pow_add_r by lia.
    change 2 with (2 ^ 1) at 1. rewrite <- Z.pow_add_r by lia. f_equal. lia.
  - assert (H2 : 0 <= shr_m (SpecFloat.iter_pos shr_1 p r))
      by (rewrite IH by assumption; apply Z.div_pos; [lia|apply Hpow]).
    rewrite IH, IH by assumption.
    pose proof (Hpow p) as Hp.
    rewrite Z.div_div by lia.
    f_equal. rewrite <- Z.pow_add_r by lia. f_equal. lia.
  - rewrite shr_1_m by assumption. reflexivity.
Qed.

Lemma shr_m_of_loc m l : shr_m (shr_record_of_loc m l) = m.
Proof. destruct l as [|[]]; reflexivity. Qed.

(** Shifting right by [n] places divides the mantissa by [2 ^ n]. *)
Lemma shr_floor m l e n :
  0 <= m ->
  shr_m (fst (shr (shr_record_of_loc m l) e n)) = m / 2 ^ Z.max 0 n /\
  snd (shr (shr_record_of_loc m l) e n) = e + Z.max 0 n.
Proof.
  intros H. destruct n as [|p|p]; cbn [shr fst snd].
  - rewrite shr_m_of_loc. change (Z.max 0 0) with 0.
    rewrite Z.pow_0_r, Z.div_1_r. lia.
  - rewrite iter_pos_shr_1 by (rewrite shr_m_of_loc; assumption).
    rewrite shr_m_of_loc. change (Z.max 0 (Zpos p)) with (Zpos p).
    split; reflexivity.
  - rewrite shr_m_of_loc. change (Z.max 0 (Zneg p)) with 0.
    rewrite Z.pow_0_r, Z.div_1_r. lia.
Qed.

Lemma round_nearest_even_bounds m l :
  m <= round_nearest_even m l <= m + 1.
Proof.
  destruct l as [|[]]; cbn [round_nearest_even]; try lia.
  destruct (Z.even m); lia.
Qed.

Lemma floor_bounds a b : 0 < b -> b * (a / b) <= a < b * (a / b) + b.
Proof.
  intros H. pose proof (Z.div_mod a b ltac:(lia)).
  pose proof (Z.mod_pos_bound a b H). lia.
Qed.

Lemma pow2_gt0 k : 0 <= k -> 0 < 2 ^ k.
Proof. intros H. apply Z.pow_pos_nonneg; lia. Qed.

Lemma pow2_le a b : 0 <= a <= b -> 2 ^ a <= 2 ^ b.
Proof. intros H. apply Z.pow_le_mono_r; lia. Qed.

Lemma pow2_split a b : 0 <= a -> 0 <= b -> 2 ^ (a + b) = 2 ^ a * 2 ^ b.
Proof. intros; apply Z.pow_add_r; assumption. Qed.

(** A mantissa whose scaled value is below [2 ^ B] has at most [B - e]
    binary digits. *)
Lemma digits_of_scaled m e B :
  0 <= m -> -1200 <= e -> -1200 <= B ->
  scaled m e < 2 ^ (B + 1200) -> Zdigits2 m + e <= B \/ m = 0.
Proof.
  unfold scaled. intros Hm He HB H.
  destruct (Z.eq_dec m 0) as [->|Hne]; [right; reflexivity|left].
  destruct (Z.le_gt_cases e B) as [HeB|HeB].
  - assert (Hlt : m < 2 ^ (B - e)).
    { apply (Z.mul_lt_mono_pos_r (2 ^ (e + 1200))); [apply pow2_gt0; lia|].
      rewrite <- pow2_split by lia.
      replace (B - e + (e + 1200)) with (B + 1200) by lia. assumption. }
    pose proof (Zdigits2_le m (B - e) ltac:(lia) ltac:(lia)). lia.
  - exfalso.
    pose proof (pow2_le (B + 1200) (e + 1200) ltac:(lia)).
    pose proof (pow2_gt0 (e + 1200) ltac:(lia)).
    assert (1 * 2 ^ (e + 1200) <= m * 2 ^ (e + 1200))
      by (apply Z.mul_le_mono_nonneg_r; lia).
    lia.
Qed.

(** One right shift of the rounding procedure: the mantissa is divided
    with truncation, the value moves down by less than one unit of the
    new exponent. *)
Lemma shr_step m l e n :
  0 <= m -> -1200 <= e ->
  snd (shr (shr_record_of_loc m l) e n) = e + Z.max 0 n /\
  0 <= shr_m (fst (shr (shr_record_of_loc m l) e n)) /\
  scaled (shr_m (fst (shr (shr_record_of_loc m l) e n))) (e + Z.max 0 n)
    <= scaled m e
    < scaled (shr_m (fst (shr (shr_record_of_loc m l) e n))) (e + Z.max 0 n)
      + 2 ^ (e + Z.max 0 n + 1200).
Proof.
  intros Hm He. destruct (shr_floor m l e n Hm) as [-> ->].
  set (N := Z.max 0 n). assert (HN : 0 <= N) by (unfold N; lia).
  unfold scaled.
  replace (e + N + 1200) with (N + (e + 1200)) by lia.
  rewrite pow2_split by lia.
  pose proof (pow2_gt0 N HN) as HQ.
  pose proof (pow2_gt0 (e + 1200) ltac:(lia)) as HP.
  pose proof (floor_bounds m (2 ^ N) HQ) as [Hlo Hhi].
  set (Q := 2 ^ N) in *. set (P := 2 ^ (e + 1200)) in *.
  set (a := m / Q) in *.
  split; [reflexivity|]. split.
  - apply Z.div_pos; lia.
  - split.
    + rewrite Z.mul_assoc. apply Z.mul_le_mono_nonneg_r; lia.
    + rewrite Z.mul_assoc, <- Z.mul_add_distr_r.
      apply Z.mul_lt_mono_pos_r; lia.
Qed.

(** The rounding step shared by the arithmetic operations: the result is
    a zero or a finite number, never an infinity, and it is within one
    unit in the last place of the exact value. *)
Lemma round_aux_bounds s mx ex B :
  -1000 <= B <= 1000 -> -1200 <= ex <= Z.max (B - 53) (-1074) ->
  scaled (Zpos mx) ex < 2 ^ (B + 1200) ->
  exists m2 e2,
    binary_round_aux 53 1024 s (Zpos mx) ex loc_Exact = of_mantissa s m2 e2 /\
    0 <= m2 /\ -1074 <= e2 <= Z.max (B - 53) (-1074) + 1 /\
    scaled m2 e2 <= scaled (Zpos mx) ex + 2 ^ (Z.max (B - 53) (-1074) + 1200) /\
    scaled (Zpos mx) ex < scaled m2 e2 + 3 * 2 ^ (Z.max (B - 53) (-1074) + 1200).
Proof.
  intros HB Hex Hv. set (E := Z.max (B - 53) (-1074)) in *.
  unfold binary_round_aux, shr_fexp. cbv [fexp emin].
  change (3 - 1024 - 53) with (-1074).
  set (n1 := Z.max (Zdigits2 (Zpos mx) + ex - 53) (-1074) - ex).
  destruct (shr_step (Zpos mx) loc_Exact ex n1 ltac:(lia) ltac:(lia))
    as (He1 & Hm1 & Hlo1 & Hhi1).
  destruct (shr (shr_record_of_loc (Zpos mx) loc_Exact) ex n1)
    as [mrs1 e1] eqn:E1.
  cbn [fst snd] in *. subst e1.
  destruct (digits_of_scaled (Zpos mx) ex B ltac:(lia) ltac:(lia) ltac:(lia) Hv)
    as [Hd|Hd]; [|discriminate Hd].
  set (e1 := ex + Z.max 0 n1) in *.
  assert (He1 : ex <= e1 <= E /\ -1074 <= e1) by (unfold e1, n1, E in *; lia).
  pose proof (round_nearest_even_bounds (shr_m mrs1) (loc_of_shr_record mrs1))
    as Hr.
  set (m1 := round_nearest_even (shr_m mrs1) (loc_of_shr_record mrs1)) in *.
  pose proof (pow2_gt0 (e1 + 1200) ltac:(lia)) as HP1.
  pose proof (pow2_le (e1 + 1200) (E + 1200) ltac:(lia)) as HPE.
  pose proof (pow2_le (E + 1200) (B + 1200) ltac:(unfold E; lia)) as HEB.
  assert (Hs1 : scaled (shr_m mrs1) e1 <= scaled m1 e1
                <= scaled (shr_m mrs1) e1 + 2 ^ (e1 + 1200)).
  { unfold scaled. split.
    - apply Z.mul_le_mono_nonneg_r; lia.
    - replace (shr_m mrs1 * 2 ^ (e1 + 1200) + 2 ^ (e1 + 1200))
        with ((shr_m mrs1 + 1) * 2 ^ (e1 + 1200)) by ring.
      apply Z.mul_le_mono_nonneg_r; lia. }
  assert (Hv1 : scaled m1 e1 < 2 ^ (B + 1 + 1200)).
  { replace (B + 1 + 1200) with (1 + (B + 1200)) by lia.
    rewrite pow2_split by lia. change (2 ^ 1) with 2. lia. }
  set (n2 := Z.max (Zdigits2 m1 + e1 - 53) (-1074) - e1).
  destruct (shr_step m1 loc_Exact e1 n2 ltac:(lia) ltac:(lia))
    as (He2 & Hm2 & Hlo2 & Hhi2).
  destruct (shr (shr_record_of_loc m1 loc_Exact) e1 n2) as [mrs2 e2] eqn:E2.
  cbn [fst snd] in *. subst e2.
  set (e2 := e1 + Z.max 0 n2) in *.
  assert (He2 : e1 <= e2 <= E + 1).
  { destruct (digits_of_scaled m1 e1 (B + 1) ltac:(lia) ltac:(lia) ltac:(lia) Hv1)
      as [Hd1|Hd1].
    - unfold e2, n2, E in *. lia.
    - assert (Hz : Zdigits2 m1 = 0) by (rewrite Hd1; reflexivity).
      unfold e2, n2, E in *. lia. }
  pose proof (pow2_le (e2 + 1200) (E + 1 + 1200) ltac:(lia)) as HP2.
  replace (E + 1 + 1200) with (1 + (E + 1200)) in HP2 by lia.
  rewrite (pow2_split 1 (E + 1200)) in HP2 by (unfold E; lia).
  change (2 ^ 1) with 2 in HP2.
  exists (shr_m mrs2), e2. split; [|split; [|split; [|split]]].
  - unfold of_mantissa. destruct (shr_m mrs2); try reflexivity.
    change (1024 - 53) with 971.
    destruct (Z.leb_spec e2 971) as [_|Hbad]; [reflexivity|].
    exfalso. unfold E in *. lia.
  - assumption.
  - lia.
  - lia.
  - lia.
Qed.

Lemma iter_xO m d : Zpos (Pos.iter xO m d) = Zpos m * 2 ^ Zpos d.
Proof.
  change (Pos.iter xO m d) with (shift_pos d m).
  rewrite shift_pos_correct, Z.pow_pos_fold. apply Z.mul_comm.
Qed.

(** Aligning a mantissa to a smaller exponent keeps the value. *)
Lemma shl_align_scaled mx ex ex' :
  -1200 <= ex -> -1200 <= ex' ->
  snd (shl_align mx ex ex') = Z.min ex ex' /\
  scaled (Zpos (fst (shl_align mx ex ex'))) (Z.min ex ex')
    = scaled (Zpos mx) ex.
Proof.
  intros Hex Hex'. unfold shl_align.
  destruct (ex' - ex) as [|d|d] eqn:Hd; cbn [fst snd].
  - replace (Z.min ex ex') with ex by lia. split; reflexivity.
  - replace (Z.min ex ex') with ex by lia. split; reflexivity.
  - replace (Z.min ex ex') with ex' by lia. split; [reflexivity|].
    unfold scaled. rewrite iter_xO, <- Z.mul_assoc, <- pow2_split by lia.
    f_equal. f_equal. lia.
Qed.

Lemma binary_round_bounds s mx ex B :
  -1000 <= B <= 1000 -> -1074 <= ex ->
  scaled (Zpos mx) ex < 2 ^ (B + 1200) ->
  exists m2 e2,
    binary_round 53 1024 s mx ex = of_mantissa s m2 e2 /\
    0 <= m2 /\ -1074 <= e2 <= Z.max (B - 53) (-1074) + 1 /\
    scaled m2 e2 <= scaled (Zpos mx) ex + 2 ^ (Z.max (B - 53) (-1074) + 1200) /\
    scaled (Zpos mx) ex < scaled m2 e2 + 3 * 2 ^ (Z.max (B - 53) (-1074) + 1200).
Proof.
  intros HB Hex Hv. unfold binary_round. cbv [fexp emin].
  change (3 - 1024 - 53) with (-1074).
  set (f := Z.max (Zpos (digits2_pos mx) + ex - 53) (-1074)).
  destruct (shl_align_scaled mx ex f ltac:(lia) ltac:(unfold f; lia))
    as [He Hs].
  destruct (shl_align mx ex f) as [mz ez]. cbn [fst snd] in *. subst ez.
  destruct (digits_of_scaled (Zpos mx) ex B ltac:(lia) ltac:(lia) ltac:(lia) Hv)
    as [Hd|Hd]; [|discriminate Hd].
  cbn [Zdigits2] in Hd.
  rewrite <- Hs in *.
  apply round_aux_bounds; [assumption| unfold f; lia |assumption].
Qed.

Lemma scaled_pos m e : -1200 <= e -> 0 < scaled (Zpos m) e.
Proof.
  intros He. unfold scaled. apply Z.mul_pos_pos; [lia|apply pow2_gt0; lia].
Qed.

Lemma scaled_add a b e : scaled (a + b) e = scaled a e + scaled b e.
Proof. unfold scaled. ring. Qed.

Lemma scaled_opp a e : scaled (- a) e = - scaled a e.
Proof. unfold scaled. ring. Qed.

Lemma scaled_cond_Zopp s a e :
  scaled (cond_Zopp s a) e = cond_Zopp s (scaled a e).
Proof. destruct s; cbn [cond_Zopp]; [apply scaled_opp|reflexivity]. Qed.

(** A sample of [random()] has a canonical mantissa below [2 ^ - e]. *)
Lemma unit_sample_finite m e :
  Binary64.unit_sample (S754_finite false m e) = true ->
  -1074 <= e <= -1 /\ Zpos m < 2 ^ (- e).
Proof.
  cbn [Binary64.unit_sample]. unfold bounded, canonical_mantissa.
  cbv [fexp emin Binary64.prec Binary64.emax].
  change (3 - 1024 - 53) with (-1074).
  intros H. apply andb_prop in H as [H Hd]. apply andb_prop in H as [Hc _].
  apply Z.eqb_eq in Hc. apply Z.leb_le in Hd.
  pose proof (digits2_pos_bounds m) as [_ Hm].
  pose proof (pow2_le (Zpos (digits2_pos m)) (- e) ltac:(lia)).
  lia.
Qed.

(** The product of a positive double below [2 ^ B] and a sample of
    [random()]. *)
Lemma mul_unit_sample s md ed B r :
  Binary64.unit_sample r = true ->
  -1000 <= B <= 1000 -> -100 <= ed <= B - 52 ->
  scaled (Zpos md) ed < 2 ^ (B + 1200) ->
  exists m e,
    Binary64.mul (S754_finite s md ed) r = of_mantissa s m e /\
    0 <= m /\ -1074 <= e <= Z.max (B - 53) (-1074) + 1 /\
    scaled m e <= scaled (Zpos md) ed + 2 ^ (Z.max (B - 53) (-1074) + 1200).
Proof.
  intros Hr HB Hed Hv.
  pose proof (scaled_pos md ed ltac:(lia)) as Hpos.
  pose proof (pow2_gt0 (Z.max (B - 53) (-1074) + 1200) ltac:(lia)) as HE.
  destruct r as [[|]|[|]| |[|] mr er]; try discriminate Hr.
  - exists 0, (-1074). cbn [Binary64.mul SFmul of_mantissa].
    split; [destruct s; reflexivity|]. change (scaled 0 (-1074)) with 0. lia.
  - apply unit_sample_finite in Hr as [Her Hmr].
    assert (Hlt : scaled (Zpos (md * mr)) (ed + er) < scaled (Zpos md) ed).
    { unfold scaled. rewrite Pos2Z.inj_mul, <- Z.mul_assoc.
      apply Z.mul_lt_mono_pos_l; [lia|].
      replace (ed + 1200) with (- er + (ed + er + 1200)) by lia.
      rewrite (pow2_split (- er) (ed + er + 1200)) by lia.
      apply Z.mul_lt_mono_pos_r; [apply pow2_gt0; lia|assumption]. }
    destruct (round_aux_bounds (xorb s false) (md * mr) (ed + er) B HB
                ltac:(lia) ltac:(lia)) as (m2 & e2 & Heq & Hm2 & He2 & Hhi & _).
    exists m2, e2. unfold Binary64.mul, Binary64.prec, Binary64.emax.
    cbn [SFmul]. rewrite Heq.
    split; [destruct s; reflexivity|]. lia.
Qed.

(** The sum of a double and a non-negative double: the result has the
    sign of the exact sum [V] and is within one unit in the last place
    of it. *)
Lemma add_bounds sa ma ea mp ep B :
  0 <= mp -> -1074 <= ep ->
  -1074 <= ea <= Z.max (B - 53) (-1074) + 1 -> -1000 <= B <= 1000 ->
  Z.abs (cond_Zopp sa (scaled (Zpos ma) ea) + scaled mp ep)
    < 2 ^ (B + 1200) ->
  exists s m e,
    Binary64.add (S754_finite sa ma ea) (of_mantissa false mp ep)
      = of_mantissa s m e /\
    0 <= m /\ -1074 <= e <= Z.max (B - 53) (-1074) + 1 /\
    (m = 0 \/ s = (cond_Zopp sa (scaled (Zpos ma) ea) + scaled mp ep <? 0)) /\
    scaled m e
      <= Z.abs (cond_Zopp sa (scaled (Zpos ma) ea) + scaled mp ep)
         + 2 ^ (Z.max (B - 53) (-1074) + 1200) /\
    Z.abs (cond_Zopp sa (scaled (Zpos ma) ea) + scaled mp ep)
      < scaled m e + 3 * 2 ^ (Z.max (B - 53) (-1074) + 1200).
Proof.
  intros Hmp Hep Hea HB.
  set (E := Z.max (B - 53) (-1074)) in *.
  pose proof (pow2_gt0 (E + 1200) ltac:(unfold E; lia)) as HE.
  pose proof (scaled_pos ma ea ltac:(lia)) as Hpa.
  destruct mp as [|p|p]; [| |lia].
  - change (scaled 0 ep) with 0. rewrite Z.add_0_r. intros HV.
    exists sa, (Zpos ma), ea. cbn [of_mantissa].
    split; [reflexivity|]. split; [lia|]. split; [lia|].
    split; [right|]; destruct sa; cbn [cond_Zopp] in *.
    + symmetry. apply Z.ltb_lt. lia.
    + symmetry. apply Z.ltb_ge. lia.
    + lia.
    + lia.
  - cbn [of_mantissa].
    unfold Binary64.add, Binary64.prec, Binary64.emax. cbn [SFadd].
    cbv zeta.
    destruct (shl_align_scaled ma ea (Z.min ea ep) ltac:(lia) ltac:(lia))
      as [_ Ha].
    destruct (shl_align_scaled p ep (Z.min ea ep) ltac:(lia) ltac:(lia))
      as [_ Hp].
    replace (Z.min ea (Z.min ea ep)) with (Z.min ea ep) in Ha by lia.
    replace (Z.min ep (Z.min ea ep)) with (Z.min ea ep) in Hp by lia.
    set (ez := Z.min ea ep) in *.
    set (ma' := fst (shl_align ma ea ez)) in *.
    set (mp' := fst (shl_align p ep ez)) in *.
    change (cond_Zopp false (Zpos mp')) with (Zpos mp').
    rewrite <- Ha, <- Hp, <- scaled_cond_Zopp, <- scaled_add.
    set (S := cond_Zopp sa (Zpos ma') + Zpos mp').
    assert (Hez : -1074 <= ez) by (unfold ez; lia).
    destruct S as [|q|q]; cbn [binary_normalize]; intros HV.
    + exists false, 0, (-1074). cbn [of_mantissa].
      change (scaled 0 ez) with 0. change (scaled 0 (-1074)) with 0.
      cbn [Z.abs]. split; [reflexivity|]. split; [lia|]. split; [lia|].
      split; [left; reflexivity|]. lia.
    + pose proof (scaled_pos q ez ltac:(lia)) as Hq.
      rewrite Z.abs_eq in * by lia.
      destruct (binary_round_bounds false q ez B HB Hez HV)
        as (m2 & e2 & Heq & Hm2 & He2 & Hhi & Hlo).
      exists false, m2, e2. split; [assumption|]. split; [assumption|].
      split; [assumption|]. split; [right; symmetry; apply Z.ltb_ge; lia|].
      split; assumption.
    + pose proof (scaled_pos q ez ltac:(lia)) as Hq.
      assert (Hn : scaled (Zneg q) ez = - scaled (Zpos q) ez)
        by (rewrite <- scaled_opp; reflexivity).
      rewrite Hn in *. rewrite Z.abs_neq in * by lia.
      rewrite Z.opp_involutive in *.
      destruct (binary_round_bounds true q ez B HB Hez HV)
        as (m2 & e2 & Heq & Hm2 & He2 & Hhi & Hlo).
      exists true, m2, e2. split; [assumption|]. split; [assumption|].
      split; [assumption|]. split; [right; symmetry; apply Z.ltb_lt; lia|].
      split; assumption.
Qed.

(** *** Rounding to hundredths *)

Lemma round_half_even_le num den U :
  0 < den -> 2 * num < (2 * U + 1) * den ->
  Binary64.round_half_even num den <= U.
Proof.
  intros Hden H. unfold Binary64.round_half_even.
  pose proof (Z.div_mod num den ltac:(lia)) as Hdm.
  pose proof (Z.mod_pos_bound num den Hden) as Hr.
  set (q := num / den) in *. set (r := num mod den) in *.
  assert (Hq : q <= U) by nia.
  destruct (Z.compare_spec (2 * r) den) as [Heq|Hlt|Hgt].
  - destruct (Z.even q); [assumption|]. nia.
  - assumption.
  - nia.
Qed.

Lemma round_half_even_ge num den L :
  0 < den -> (2 * L - 1) * den < 2 * num ->
  L <= Binary64.round_half_even num den.
Proof.
  intros Hden H. unfold Binary64.round_half_even.
  pose proof (Z.div_mod num den ltac:(lia)) as Hdm.
  pose proof (Z.mod_pos_bound num den Hden) as Hr.
  set (q := num / den) in *. set (r := num mod den) in *.
  assert (Hq : L <= q + 1) by nia.
  destruct (Z.compare_spec (2 * r) den) as [Heq|Hlt|Hgt].
  - destruct (Z.even q); [|assumption]. nia.
  - nia.
  - assumption.
Qed.

Lemma hundredths_le m e U :
  -1200 <= e < 0 -> 200 * scaled (Zpos m) e < (2 * U + 1) * 2 ^ 1200 ->
  Binary64.hundredths m e <= U.
Proof.
  intros He H. destruct e as [|k|k]; try lia. cbn [Binary64.hundredths].
  pose proof (pow2_gt0 (Zpos k) ltac:(lia)) as Hk.
  pose proof (pow2_gt0 (Zneg k + 1200) ltac:(lia)) as HP.
  apply round_half_even_le; [assumption|].
  apply (Z.mul_lt_mono_pos_r (2 ^ (Zneg k + 1200))); [assumption|].
  rewrite <- !Z.mul_assoc, <- (pow2_split (Zpos k) (Zneg k + 1200)) by lia.
  replace (Zpos k + (Zneg k + 1200)) with 1200 by lia.
  unfold scaled in H. lia.
Qed.

Lemma hundredths_ge m e L :
  -1200 <= e < 0 -> (2 * L - 1) * 2 ^ 1200 < 200 * scaled (Zpos m) e ->
  L <= Binary64.hundredths m e.
Proof.
  intros He H. destruct e as [|k|k]; try lia. cbn [Binary64.hundredths].
  pose proof (pow2_gt0 (Zpos k) ltac:(lia)) as Hk.
  pose proof (pow2_gt0 (Zneg k + 1200) ltac:(lia)) as HP.
  apply round_half_even_ge; [assumption|].
  apply (Z.mul_lt_mono_pos_r (2 ^ (Zneg k + 1200))); [assumption|].
  rewrite <- !Z.mul_assoc, <- (pow2_split (Zpos k) (Zneg k + 1200)) by lia.
  replace (Zpos k + (Zneg k + 1200)) with 1200 by lia.
  unfold scaled in H. lia.
Qed.

Lemma round2_finite_eq s m e :
  Binary64.round2 (S754_finite s m e)
  = match Binary64.hundredths m e with
    | Zpos p => Binary64.of_ratio (cond_Zopp s (Zpos p)) 100
    | _ => S754_zero s
    end.
Proof.
  cbn [Binary64.round2]. destruct (Binary64.hundredths m e); try reflexivity.
  destruct s; reflexivity.
Qed.

Lemma scaled_nonneg m e : 0 <= m -> 0 <= scaled m e.
Proof.
  intros H. unfold scaled. apply Z.mul_nonneg_nonneg; [assumption|].
  apply Z.pow_nonneg. lia.
Qed.

Lemma f3_2_eq : Binary64.f3_2 = S754_finite false 7205759403792794 (-51).
Proof. vm_compute. reflexivity. Qed.

Lemma voltage_span :
  Binary64.sub Binary64.f12_6 Binary64.f3_2
  = S754_finite false 5291729562160332 (-49).
Proof. vm_compute. reflexivity. Qed.

Lemma f50_0_eq : SFopp Binary64.f50_0 = S754_finite true 7036874417766400 (-47).
Proof. vm_compute. reflexivity. Qed.

Lemma temp_span :
  Binary64.sub Binary64.f80_0 (SFopp Binary64.f50_0)
  = S754_finite false 4573968371548160 (-45).
Proof. vm_compute. reflexivity. Qed.

Ltac evalZ t :=
  let v := eval vm_compute in t in
  replace t with v in * by (vm_compute; reflexivity).

(** The voltage before rounding is within a unit in the last place of
    the interval, so that its hundredths lie between 320 and 1260. *)
Lemma voltage_range r :
  Binary64.unit_sample r = true ->
  exists p, 320 <= Zpos p <= 1260 /\
    Binary64.round2 (Binary64.uniform Binary64.f3_2 Binary64.f12_6 r)
    = Binary64.of_ratio (Zpos p) 100.
Proof.
  intros Hr. unfold Binary64.uniform. rewrite voltage_span, f3_2_eq.
  destruct (mul_unit_sample false 5291729562160332 (-49) 4 r Hr
              ltac:(lia) ltac:(lia) ltac:(vm_compute; reflexivity))
    as (mp & ep & -> & Hmp & Hep & Hhi).
  change (Z.max (4 - 53) (-1074)) with (-49) in *.
  pose proof (scaled_nonneg mp ep Hmp) as Hp0.
  evalZ (scaled 5291729562160332 (-49)).
  evalZ (2 ^ (-49 + 1200)).
  assert (HV : Z.abs (cond_Zopp false (scaled 7205759403792794 (-51))
                      + scaled mp ep) < 2 ^ (4 + 1200)).
  { cbn [cond_Zopp]. evalZ (scaled 7205759403792794 (-51)).
    evalZ (2 ^ (4 + 1200)). lia. }
  destruct (add_bounds false 7205759403792794 (-51) mp ep 4 Hmp
              ltac:(lia) ltac:(lia) ltac:(lia) HV)
    as (s & m & e & -> & Hm & He & Hs & Hhi2 & Hlo2).
  change (Z.max (4 - 53) (-1074)) with (-49) in *.
  cbn [cond_Zopp] in *.
  evalZ (scaled 7205759403792794 (-51)).
  evalZ (2 ^ (-49 + 1200)).
  rewrite Z.abs_eq in * by lia.
  destruct m as [|q|q]; [change (scaled 0 e) with 0 in *; lia| |lia].
  cbn [of_mantissa]. rewrite round2_finite_eq.
  assert (Hsf : s = false) by (destruct Hs as [Hs|Hs]; [discriminate Hs|];
    rewrite Hs; apply Z.ltb_ge; lia).
  subst s. cbn [cond_Zopp].
  pose proof (hundredths_le q e 1260 ltac:(lia)) as Hle.
  pose proof (hundredths_ge q e 320 ltac:(lia)) as Hge.
  evalZ (2 ^ 1200).
  specialize (Hle ltac:(lia)). specialize (Hge ltac:(lia)).
  destruct (Binary64.hundredths q e) as [|p|p]; try lia.
  exists p. split; [lia|reflexivity].
Qed.

(** The temperature before rounding: its hundredths lie between -5000
    and 8000; a value that rounds to zero keeps its sign. *)
Lemma temp_range r :
  Binary64.unit_sample r = true ->
  Binary64.round2 (Binary64.uniform (SFopp Binary64.f50_0) Binary64.f80_0 r)
    = S754_zero true \/
  exists n, -5000 <= n <= 8000 /\
    Binary64.round2 (Binary64.uniform (SFopp Binary64.f50_0) Binary64.f80_0 r)
    = Binary64.of_ratio n 100.
Proof.
  intros Hr. unfold Binary64.uniform. rewrite temp_span, f50_0_eq.
  destruct (mul_unit_sample false 4573968371548160 (-45) 8 r Hr
              ltac:(lia) ltac:(lia) ltac:(vm_compute; reflexivity))
    as (mp & ep & -> & Hmp & Hep & Hhi).
  change (Z.max (8 - 53) (-1074)) with (-45) in *.
  pose proof (scaled_nonneg mp ep Hmp) as Hp0.
  evalZ (scaled 4573968371548160 (-45)).
  evalZ (2 ^ (-45 + 1200)).
  assert (HV : Z.abs (cond_Zopp true (scaled 7036874417766400 (-47))
                      + scaled mp ep) < 2 ^ (8 + 1200)).
  { cbn [cond_Zopp]. evalZ (scaled 7036874417766400 (-47)).
    evalZ (2 ^ (8 + 1200)). lia. }
  destruct (add_bounds true 7036874417766400 (-47) mp ep 8 Hmp
              ltac:(lia) ltac:(lia) ltac:(lia) HV)
    as (s & m & e & -> & Hm & He & Hs & Hhi2 & Hlo2).
  change (Z.max (8 - 53) (-1074)) with (-45) in *.
  cbn [cond_Zopp] in *.
  evalZ (scaled 7036874417766400 (-47)).
  evalZ (2 ^ (-45 + 1200)).
  destruct m as [|q|q]; [| |lia].
  - cbn [of_mantissa Binary64.round2].
    destruct s; [left; reflexivity|right].
    exists 0. split; [lia|reflexivity].
  - cbn [of_mantissa]. rewrite round2_finite_eq.
    pose proof (scaled_pos q e ltac:(lia)) as Hq.
    pose proof (hundredths_ge q e 0 ltac:(lia)) as Hge.
    pose proof (hundredths_le q e 5000 ltac:(lia)) as Hneg.
    pose proof (hundredths_le q e 8000 ltac:(lia)) as Hpos.
    evalZ (2 ^ 1200).
    specialize (Hge ltac:(lia)).
    destruct Hs as [Hs|Hs]; [discriminate Hs|].
    match type of Hs with _ = (?V <? 0) =>
      destruct (Z.ltb_spec V 0) as [Hlt|Hnlt] end; subst s; cbn [cond_Zopp].
    + rewrite Z.abs_neq in * by lia. specialize (Hneg ltac:(lia)).
      destruct (Binary64.hundredths q e) as [|p|p]; [left; reflexivity| |lia].
      right. exists (Zneg p). split; [lia|reflexivity].
    + rewrite Z.abs_eq in * by lia. specialize (Hpos ltac:(lia)).
      right. destruct (Binary64.hundredths q e) as [|p|p]; [| |lia].
      * exists 0. split; [lia|reflexivity].
      * exists (Zpos p). split; [lia|reflexivity].
Qed.

Lemma sf_eqb_eq x y : sf_eqb x y = true -> x = y.
Proof.
  destruct x as [a|a| |a m e], y as [b|b| |b m' e']; cbn [sf_eqb];
    try discriminate; intros H.
  - apply Bool.eqb_prop in H. congruence.
  - apply Bool.eqb_prop in H. congruence.
  - reflexivity.
  - apply andb_prop in H as [H He]. apply andb_prop in H as [Hs Hm].
    apply Bool.eqb_prop in Hs. apply Pos.eqb_eq in Hm. apply Z.eqb_eq in He.
    congruence.
Qed.

Lemma all_from_spec f len : forall lo n,
  all_from f lo len = true -> lo <= n < lo + Z.of_nat len -> f n = true.
Proof.
  induction len as [|k IH]; intros lo n H Hn; [lia|].
  cbn [all_from] in H. apply andb_prop in H as [H0 H].
  destruct (Z.eq_dec n lo) as [->|Hne]; [exact H0|].
  apply (IH (lo + 1)); [exact H|lia].
Qed.

Lemma voltage_hundredths :
  all_from (hundredths_between Binary64.f3_2 Binary64.f12_6)
    320 (Z.to_nat 941) = true.
Proof. vm_compute. reflexivity. Qed.

Lemma temp_hundredths :
  all_from (hundredths_between (SFopp Binary64.f50_0) Binary64.f80_0)
    (-5000) (Z.to_nat 13001) = true.
Proof. vm_compute. reflexivity. Qed.

Lemma generate_csv_row_run w :
  exists w',
    generate_csv_row w
    = (Ok (<[ "recorded_at"%string :=
                PyStr (strftime (first_now w) "%Y-%m-%d %H:%M:%S") ]>
           (<[ "voltage"%string := PyFloat (voltage_of w) ]>
            (<[ "temp"%string := PyFloat (temp_of w) ]> ∅))), w').
Proof. destruct w. eexists. reflexivity. Qed.

Lemma reading_lookup ra v t :
  (<[ "recorded_at"%string := PyStr ra ]>
     (<[ "voltage"%string := PyFloat v ]>
        (<[ "temp"%string := PyFloat t ]> (∅ : gmap string pyval))))
    !! "voltage"%string = Some (PyFloat v) /\
  (<[ "recorded_at"%string := PyStr ra ]>
     (<[ "voltage"%string := PyFloat v ]>
        (<[ "temp"%string := PyFloat t ]> (∅ : gmap string pyval))))
    !! "temp"%string = Some (PyFloat t).
Proof. split; vm_compute; reflexivity. Qed.

Lemma hundredths_between_spec lo hi n :
  hundredths_between lo hi n = true ->
  Binary64.leb lo (Binary64.of_ratio n 100) = true /\
  Binary64.leb (Binary64.of_ratio n 100) hi = true /\
  Binary64.round2 (Binary64.of_ratio n 100) = Binary64.of_ratio n 100.
Proof.
  unfold hundredths_between. cbv zeta. intros H.
  apply andb_prop in H as [H He]. apply andb_prop in H as [Hlo Hhi].
  apply sf_eqb_eq in He. repeat split; assumption.
Qed.

(** C3: for every pair of samples that [random()] can return, the reading
    built by [generate_csv_row] has a voltage between 3.2 and 12.6 and a
    temperature between -50.0 and 80.0 (bounds included), and each of the two
    is a double nearest to a whole number of hundredths, which rounding to
    two decimals again leaves as it is. *)
Theorem reading_in_range_two_decimals (w : World) :
  Binary64.unit_sample (rng w (draws w)) = true ->
  Binary64.unit_sample (rng w (S (draws w))) = true ->
  exists row w' v t,
    generate_csv_row w = (Ok row, w') /\
    row !! "voltage"%string = Some (PyFloat v) /\
    row !! "temp"%string = Some (PyFloat t) /\
    Binary64.leb Binary64.f3_2 v = true /\
    Binary64.leb v Binary64.f12_6 = true /\
    Binary64.leb (SFopp Binary64.f50_0) t = true /\
    Binary64.leb t Binary64.f80_0 = true /\
    Binary64.two_decimals v /\ Binary64.two_decimals t /\
    Binary64.round2 v = v /\ Binary64.round2 t = t.
Proof.
  intros Hu Ht. destruct (generate_csv_row_run w) as [w' Hrun].
  destruct (reading_lookup (strftime (first_now w) "%Y-%m-%d %H:%M:%S")
              (voltage_of w) (temp_of w)) as [Hv Htp].
  eexists _, w', (voltage_of w), (temp_of w).
  split; [exact Hrun|]. split; [exact Hv|]. split; [exact Htp|].
  unfold voltage_of, temp_of.
  destruct (voltage_range _ Hu) as (p & Hp & ->).
  destruct (hundredths_between_spec _ _ _
              (all_from_spec _ _ _ (Zpos p) voltage_hundredths ltac:(lia)))
    as (Hlo & Hhi & Hfix).
  destruct (temp_range _ Ht) as [->|(n & Hn & ->)].
  - repeat split; try assumption; try reflexivity.
    + right. exists (Zpos p). reflexivity.
    + left. reflexivity.
  - destruct (hundredths_between_spec _ _ _
                (all_from_spec _ _ _ n temp_hundredths ltac:(lia)))
      as (Hlot & Hhit & Hfixt).
    repeat split; try assumption.
    + right. exists (Zpos p). reflexivity.
    + right. exists n. reflexivity.
Qed.

(** *** What leaves [generate_and_insert] and what ends the loop *)

Lemma handled_raise a e :
  handled a = Raise e -> a = Some e /\ isinstance_Exception e = false.
Proof.
  destruct a as [e0|]; cbn [handled]; [|discriminate].
  destruct (isinstance_Exception e0) eqn:He; [discriminate|].
  intros [= ->]. split; [reflexivity|assumption].
Qed.

(** X1: An [Exception] leaves [generate_and_insert] only when it was raised
    by the creation of the output directory: those of the CSV block and
    of the database block are handled inside the function. *)
Theorem only_mkdir_exception_escapes fr o w e w' :
  generate_and_insert fr o w = (Raise e, w') ->
  isinstance_Exception e = true ->
  o_mkdir o = Some e /\ calls w w' (prelude_events w) /\
  files w' = files w /\ committed w' = committed w.
Proof.
  intros Hrun He.
  destruct (o_mkdir o) as [e0|] eqn:Hmk.
  - destruct (iteration_mkdir_error fr o w e0 Hmk)
      as (w1 & Hrun1 & Hcalls & Hf & Hc & _).
    rewrite Hrun1 in Hrun. injection Hrun as -> ->.
    repeat split; assumption.
  - exfalso. destruct (csv_write_answer o) as [e1|] eqn:Hcsv.
    + destruct (iteration_csv_error fr o w e1 Hmk Hcsv) as (w1 & Hrun1 & _).
      rewrite Hrun1 in Hrun. apply (f_equal fst) in Hrun. cbn [fst] in Hrun.
      apply handled_raise in Hrun as [[= ->] Hne]. congruence.
    + destruct (iteration_csv_ok fr o w Hmk Hcsv) as (w1 & Hrun1 & _).
      rewrite Hrun1 in Hrun. apply (f_equal fst) in Hrun. cbn [fst] in Hrun.
      apply handled_raise in Hrun as [_ Hne]. congruence.
Qed.

Lemma turn_result_raise p o e :
  turn_result p o = Raise e ->
  sleep_result p o = Raise e \/
  (isinstance_Exception e = false /\ iteration_result o = Raise e).
Proof.
  unfold turn_result. destruct (iteration_result o) as [[]|e0].
  - intros H. left. exact H.
  - destruct (isinstance_Exception e0) eqn:He0.
    + intros H. left. exact H.
    + intros [= ->]. right. split; [assumption|reflexivity].
Qed.

(** X2: The loop ends only when [time.sleep] raises, or when a call of the
    iteration is answered with an exception outside [Exception]: the
    turn [k] in which this happens is the last one. *)
Theorem loop_ends_only_by_sleep_or_interrupt fr p os n :
  forall i w e w',
  while_true fr n p os i w = (Raise e, w') ->
  exists k, (i <= k < i + n)%nat /\
    (sleep_result p (os k) = Raise e \/
     (isinstance_Exception e = false /\ iteration_result (os k) = Raise e)).
Proof.
  induction n as [|n IH]; intros i w e w' Hrun.
  - discriminate Hrun.
  - cbn [while_true] in Hrun. unfold bind at 1 in Hrun.
    destruct (loop_body_total fr p (os i) w) as (w1 & Hbody & _).
    rewrite Hbody in Hrun.
    destruct (turn_result p (os i)) as [[]|e0] eqn:Hturn.
    + destruct (IH _ _ _ _ Hrun) as (k & Hk & Hwhy).
      exists k. split; [lia|exact Hwhy].
    + injection Hrun as -> ->. exists i. split; [lia|].
      apply turn_result_raise. exact Hturn.
Qed.

(** *** The period [main] starts with *)

(** X3: A period [time.sleep] refuses (a negative number, or one whose
    nanoseconds do not fit in 64 bits) is found out only at the end of
    the first turn: [main] prints its start-up lines, runs one whole
    iteration, calls [time.sleep], and the exception of that call ends
    the program: [OverflowError] when the period is out of the range of
    the conversion, on either side, and [ValueError] when it is negative
    and within that range. *)
Theorem unsleepable_period_stops_after_first_turn fr n os w p e :
  period_of w = Some p -> sleep_argument_error p = Some e ->
  undisturbed (os O) = true ->
  exists w0 w',
    main fr (S n) os w = (Raise e, w') /\
    calls w w0 (startup_events p w) /\
    calls w0 w' (iteration_events fr (os O) w0 ++ turn_tail p (os O)) /\
    last (turn_tail p (os O)) = Some (EvSleep p) /\
    (min_sleep_seconds <= p < 0 ->
     e = Exn ValueError "sleep length must be non-negative") /\
    (p < min_sleep_seconds \/ max_sleep_seconds < p ->
     exn_cls e = OverflowError).
Proof.
  intros Hp Hs Hu. rewrite main_run, Hp.
  set (w0 := fold_left (fun w ev => log ev w) (startup_events p w) w).
  cbn [while_true]. unfold bind at 1.
  destruct (loop_body_total fr p (os O) w0) as (w1 & Hbody & Hcalls & _).
  rewrite Hbody.
  assert (Hsleep : sleep_result p (os O) = Raise e)
    by (unfold sleep_result; rewrite Hs; reflexivity).
  assert (Hturn : turn_result p (os O) = Raise e /\
                  last (turn_tail p (os O)) = Some (EvSleep p)).
  { unfold turn_result, turn_tail.
    destruct (iteration_result_undisturbed (os O) Hu) as [->|(e0 & -> & ->)];
      split; assumption || reflexivity. }
  destruct Hturn as [-> Hlast].
  exists w0, w1. split; [reflexivity|]. split; [apply calls_startup|].
  split; [exact Hcalls|]. split; [exact Hlast|].
  unfold sleep_argument_error in Hs.
  assert (Hmin : min_sleep_seconds = -9223372036) by reflexivity.
  assert (Hmax : max_sleep_seconds = 9223372036) by reflexivity.
  destruct (Z.ltb_spec p min_sleep_seconds), (Z.ltb_spec max_sleep_seconds p),
    (Z.ltb_spec p 0); cbn [orb] in Hs; try discriminate Hs;
    injection Hs as <-; split; intros; try lia; reflexivity.
Qed.

Lemma forallb_lstrip p s :
  string_forallb p s = true -> string_forallb p (lstrip s) = true.
Proof.
  induction s as [|c s IH]; [reflexivity|]. intros H. cbn [lstrip].
  destruct (is_space c); [|exact H].
  cbn [string_forallb] in H. apply andb_prop in H as [_ H]. apply IH, H.
Qed.

Lemma forallb_rev_app p s : forall acc,
  string_forallb p s = true -> string_forallb p acc = true ->
  string_forallb p (String.rev_app s acc) = true.
Proof.
  induction s as [|c s IH]; intros acc Hs Hacc; [exact Hacc|].
  cbn [string_forallb] in Hs. apply andb_prop in Hs as [Hc Hs].
  cbn [String.rev_app]. apply IH; [exact Hs|].
  cbn [string_forallb]. rewrite Hc. exact Hacc.
Qed.

Lemma forallb_rev p s :
  string_forallb p s = true -> string_forallb p (String.rev s) = true.
Proof. intros H. apply forallb_rev_app; [exact H|reflexivity]. Qed.

(** A string that does not start with a sign, a digit or an underscore
    is no number. *)
Lemma py_int_body_blank t :
  string_forallb is_blank t = true ->
  match parse_digits
          (snd match t with
               | String "-" r => (true, r)
               | String "+" r => (false, r)
               | _ => (false, t)
               end) 0 false 0 with
  | Some _ => False
  | None => True
  end.
Proof.
  destruct t as [|c r]; [exact (fun _ => I)|]. cbn [string_forallb].
  intros H. apply andb_prop in H as [Hc _].
  destruct c as [[] [] [] [] [] [] [] []]; try discriminate Hc; exact I.
Qed.

Lemma py_int_blank s : string_forallb is_blank s = true -> py_int s = None.
Proof.
  intros H. unfold py_int.
  pose proof (py_int_body_blank (strip s)
                (forallb_rev _ _ (forallb_lstrip _ _
                   (forallb_rev _ _ (forallb_lstrip _ _ H))))) as Hb.
  destruct (strip s) as [|c r]; [reflexivity|].
  destruct c as [[] [] [] [] [] [] [] []]; cbn [snd] in Hb;
    match goal with
    | |- context [parse_digits ?b 0 false 0] =>
        destruct (parse_digits b 0 false 0) as [[]|]; [contradiction|reflexivity]
    end.
Qed.

(** X4: The default of 300 seconds is used only when [GEN_PERIOD_SEC] is
    absent.  When the variable is set to an empty or blank string (of
    characters [str.isspace] holds of), its value is used as it is:
    [int] raises [ValueError] and [main] ends before it prints a line or
    starts an iteration. *)
Theorem blank_period_is_not_defaulted fr n os :
  (forall w, environ w !! "GEN_PERIOD_SEC"%string = None ->
     period_of w = Some 300) /\
  (forall w s,
     environ w !! "GEN_PERIOD_SEC"%string = Some s ->
     string_forallb is_blank s = true ->
     exists e w',
       main fr n os w = (Raise e, w') /\ exn_cls e = ValueError /\
       calls w w' [EvGetenv "GEN_PERIOD_SEC"] /\
       files w' = files w /\ committed w' = committed w /\ dirs w' = dirs w).
Proof.
  split.
  - intros w H. unfold period_of. rewrite H. vm_compute. reflexivity.
  - intros w s Hs Hblank.
    assert (Hp : period_of w = None)
      by (unfold period_of; rewrite Hs; apply py_int_blank; exact Hblank).
    rewrite main_run, Hp. eexists _, _. split; [reflexivity|].
    repeat split.
Qed.

(** *** What an iteration prints and stores *)

Lemma printed_app s a b : printed s (a ++ b) = printed s a ++ printed s b.
Proof.
  induction a as [|ev a IH]; [reflexivity|].
  destruct ev as [| | | | | | |[] l| | | | | | |], s; cbn [printed app];
    rewrite ?IH; reflexivity.
Qed.

Lemma printed_db_events fr o w s :
  printed s (db_events fr o w) =
  match db_answer o with
  | None => match s with Stdout => [inserted_line fr w] | Stderr => [] end
  | Some e =>
      if isinstance_Exception e
      then match s with Stdout => [] | Stderr => [db_error_line e] end
      else []
  end.
Proof.
  unfold db_events, db_answer, db_caught.
  destruct (o_connect o) as [e|];
    [destruct (isinstance_Exception e), s; reflexivity|].
  destruct (o_cursor o) as [e|];
    [destruct (isinstance_Exception e), s; reflexivity|].
  destruct (o_execute o) as [e|];
    [destruct (isinstance_Exception e), s; reflexivity|].
  destruct (o_commit o) as [e|];
    [destruct (isinstance_Exception e), s; reflexivity|].
  destruct (o_close o) as [e|];
    [destruct (isinstance_Exception e), s; reflexivity|].
  destruct s; reflexivity.
Qed.

(** X5: Once the CSV file is written, the row is committed exactly when
    [connect], [cursor], [execute] and [commit] all succeed, whatever
    [conn.close()] does; the line that reports the insertion is printed
    only when [close()] succeeded too.  A failing [close()] therefore
    reports a database error for a row that is stored. *)
Theorem row_stored_exactly_when_commit_succeeds fr o w :
  o_mkdir o = None -> csv_write_answer o = None ->
  exists w' evs,
    generate_and_insert fr o w = (handled (db_answer o), w') /\
    calls w w' evs /\
    committed w' =
      committed w ++
      match o_connect o, o_cursor o, o_execute o, o_commit o with
      | None, None, None, None => [(insert_query, insert_args w)]
      | _, _, _, _ => []
      end /\
    printed Stdout evs =
      String.append "✓ CSV file created: " (filepath_of w) ::
      match db_answer o with
      | None => [inserted_line fr w]
      | Some _ => []
      end /\
    printed Stderr evs =
      match db_answer o with
      | Some e => if isinstance_Exception e then [db_error_line e] else []
      | None => []
      end.
Proof.
  intros Hmk Hcsv.
  destruct (iteration_csv_ok fr o w Hmk Hcsv)
    as (w' & Hrun & Hcalls & _ & Hc & _).
  exists w', (prelude_events w ++ reading_events w ++ csv_events fr w
              ++ db_events fr o w).
  split; [exact Hrun|]. split; [exact Hcalls|]. split; [exact Hc|].
  rewrite !printed_app, !printed_db_events.
  split.
  - cbn [prelude_events reading_events csv_events printed app].
    destruct (db_answer o) as [e|]; [|reflexivity].
    destruct (isinstance_Exception e); reflexivity.
  - cbn [prelude_events reading_events csv_events printed app].
    reflexivity.
Qed.

Lemma printed_csv_block_events fr o w e :
  csv_write_answer o = Some e ->
  printed Stderr (csv_block_events fr o w)
  = if isinstance_Exception e then [csv_error_line e] else [].
Proof.
  unfold csv_block_events, csv_write_answer, csv_caught.
  destruct (o_open o) as [e0|].
  - intros [= ->]. destruct (isinstance_Exception e); reflexivity.
  - destruct (o_fclose o) as [e1|].
    + intros [= ->].
      destruct (o_writeheader o), (isinstance_Exception e); reflexivity.
    + destruct (o_writeheader o) as [e2|].
      * intros [= ->]. destruct (isinstance_Exception e); reflexivity.
      * intros ->. destruct (isinstance_Exception e); reflexivity.
Qed.

(** X6: A turn of the loop in which a step fails with an [Exception] prints
    exactly one line on stderr, the one of the first step that failed
    (the directory, the CSV file or the database); a turn in which every
    call succeeds prints none. *)
Theorem one_error_line_per_failed_turn fr p o w :
  undisturbed o = true ->
  exists w' evs,
    loop_body fr p o w = (sleep_result p o, w') /\
    calls w w' evs /\
    printed Stderr evs = match error_line o with
                         | Some line => [line]
                         | None => []
                         end.
Proof.
  intros Hu.
  destruct (loop_body_total fr p o w) as (w' & Hbody & Hcalls & _).
  exists w', (iteration_events fr o w ++ turn_tail p o).
  pose proof (csv_write_answer_ok o Hu) as Hcsv.
  pose proof (db_answer_ok o Hu) as Hdb.
  assert (Hmk : answer_ok (o_mkdir o) = true).
  { unfold undisturbed in Hu. repeat (apply andb_prop in Hu as [Hu _]).
    exact Hu. }
  assert (Hres : turn_result p o = sleep_result p o).
  { unfold turn_result.
    destruct (iteration_result_undisturbed o Hu) as [->|(e & -> & ->)];
      reflexivity. }
  rewrite Hres in Hbody. split; [exact Hbody|]. split; [exact Hcalls|].
  unfold iteration_events, turn_tail, iteration_result, error_line.
  rewrite !printed_app.
  destruct (o_mkdir o) as [e|].
  - cbn [answer_ok] in Hmk. rewrite Hmk. reflexivity.
  - rewrite printed_app.
    destruct (csv_write_answer o) as [e|] eqn:Hans.
    + cbn [answer_ok] in Hcsv. rewrite (printed_csv_block_events fr o w e Hans).
      cbn [handled]. rewrite Hcsv. reflexivity.
    + rewrite printed_app, printed_db_events.
      destruct (db_answer o) as [e|].
      * cbn [answer_ok] in Hdb. cbn [handled]. rewrite Hdb. reflexivity.
      * reflexivity.
Qed.

(** *** The two [with] blocks *)

Lemma filter_csv_block_events fr o w :
  filter is_file_close_event (csv_block_events fr o w) =
  match o_open o with
  | Some _ => []
  | None => [EvFileClose (filepath_of w)]
  end /\
  filter is_cursor_close_event (csv_block_events fr o w) = [].
Proof.
  unfold csv_block_events, csv_caught.
  destruct (o_open o) as [e|];
    [destruct (isinstance_Exception e); split; reflexivity|].
  destruct (o_writeheader o) as [e0|], (csv_write_answer o) as [e|];
    try destruct (isinstance_Exception e); split; reflexivity.
Qed.

Lemma filter_db_events fr o w :
  filter is_file_close_event (db_events fr o w) = [] /\
  filter is_cursor_close_event (db_events fr o w) =
  match o_connect o, o_cursor o with
  | None, None => [EvCursorClose (next_conn w)]
  | _, _ => []
  end.
Proof.
  unfold db_events, db_caught.
  destruct (o_connect o) as [e|];
    [destruct (isinstance_Exception e); split; reflexivity|].
  destruct (o_cursor o) as [e|];
    [destruct (isinstance_Exception e); split; reflexivity|].
  destruct (o_execute o) as [e|];
    [destruct (isinstance_Exception e); split; reflexivity|].
  destruct (o_commit o) as [e|];
    [destruct (isinstance_Exception e); split; reflexivity|].
  destruct (o_close o) as [e|];
    [destruct (isinstance_Exception e); split; reflexivity|].
  split; reflexivity.
Qed.

(** X7: Whatever the calls answer, a file that [open] returned is closed
    exactly once, also when a write raises, and a cursor that
    [conn.cursor()] returned is closed exactly once, also when [execute]
    or [commit] raises; nothing is closed that was not obtained. *)
Theorem with_blocks_close_file_and_cursor fr o w :
  exists w' evs,
    snd (generate_and_insert fr o w) = w' /\
    calls w w' evs /\
    filter is_file_close_event evs =
      match o_mkdir o, o_open o with
      | None, None => [EvFileClose (filepath_of w)]
      | _, _ => []
      end /\
    filter is_cursor_close_event evs =
      match o_mkdir o, csv_write_answer o, o_connect o, o_cursor o with
      | None, None, None, None => [EvCursorClose (next_conn w)]
      | _, _, _, _ => []
      end.
Proof.
  destruct (generate_and_insert_run fr o w) as (w' & Hrun & Hcalls & _).
  exists w', (iteration_events fr o w).
  split; [rewrite Hrun; reflexivity|]. split; [exact Hcalls|].
  unfold iteration_events. rewrite !filter_app.
  destruct (o_mkdir o) as [e|]; [split; reflexivity|].
  rewrite !filter_app.
  destruct (csv_write_answer o) as [e|] eqn:Hcsv.
  - destruct (filter_csv_block_events fr o w) as [-> ->].
    split; [|reflexivity]. destruct (o_open o); reflexivity.
  - rewrite !filter_app.
    destruct (filter_db_events fr o w) as [-> ->].
    assert (Hopen : o_open o = None)
      by (unfold csv_write_answer in Hcsv; destruct (o_open o);
          [discriminate|reflexivity]).
    rewrite Hopen. split; reflexivity.
Qed.

(** X8: When the file was opened and a write or the close then raises, the
    file is not removed and what the path held before is lost.  The path
    holds the text of the writes that succeeded (nothing, the header, or
    the header and the row) when the close succeeds, and only the first
    characters of that text, as many as were flushed, when the close
    raises.  Nothing is sent to the database. *)
Theorem failed_write_leaves_partial_file fr o w e :
  o_mkdir o = None -> o_open o = None -> csv_write_answer o = Some e ->
  exists w' handed,
    generate_and_insert fr o w = (handled (Some e), w') /\
    handed =
      match o_writeheader o with
      | Some _ => EmptyString
      | None =>
          match o_writerow o with
          | Some _ => csv_line fieldnames
          | None =>
              String.append (csv_line fieldnames)
                (csv_line [recorded_at_of w; fr (voltage_of w);
                           fr (temp_of w); filename_of w])
          end
      end /\
    files w' !! filepath_of w =
      Some match o_fclose o with
           | Some _ => String.substring 0 (o_flushed o) handed
           | None => handed
           end /\
    committed w' = committed w /\ conns w' = conns w.
Proof.
  intros Hmk Hopen Hcsv.
  destruct (iteration_csv_error fr o w e Hmk Hcsv)
    as (w' & Hrun & _ & Hf & Hc & Hcs & _).
  exists w', (csv_block_text fr o w). split; [exact Hrun|].
  split; [reflexivity|]. split; [|split; assumption].
  rewrite Hf. unfold csv_block_files. rewrite Hopen.
  apply lookup_insert_eq.
Qed.

(** *** Two iterations and their files *)

Lemma db_answer_none o :
  db_answer o = None ->
  o_connect o = None /\ o_cursor o = None /\ o_execute o = None /\
  o_commit o = None /\ o_close o = None.
Proof.
  unfold db_answer.
  destruct (o_connect o), (o_cursor o), (o_execute o), (o_commit o),
    (o_close o); try discriminate.
  repeat split.
Qed.

Lemma db_committed_ok o w :
  db_answer o = None -> db_committed o w = [(insert_query, insert_args w)].
Proof.
  intros H. destruct (db_answer_none o H) as (H1 & H2 & H3 & H4 & _).
  unfold db_committed. rewrite H1, H2, H3, H4. reflexivity.
Qed.

(** The values of the second of two consecutive iterations, in terms of
    the world the first one started in. *)
Lemma next_iteration_values w w1 :
  ticks w1 = S (S (ticks w)) -> clock w1 = clock w -> environ w1 = environ w ->
  csv_out_dir_of w1 = csv_out_dir_of w /\
  filename_of w1 =
    String.append "telemetry_"
      (String.append
         (strftime (clock w (S (S (ticks w)))) "%Y%m%d_%H%M%S") ".csv").
Proof.
  intros Ht Hc He. unfold csv_out_dir_of, filename_of, first_now.
  rewrite Ht, Hc, He. split; reflexivity.
Qed.

(** X9: Two consecutive iterations whose first clock reads show the same
    second write to the same path: the second one truncates the file, so
    that it holds the second reading only, while the database has
    received both rows. *)
Theorem same_second_overwrites_file fr o1 o2 w :
  o_mkdir o1 = None -> csv_write_answer o1 = None -> db_answer o1 = None ->
  o_mkdir o2 = None -> csv_write_answer o2 = None -> db_answer o2 = None ->
  strftime (clock w (S (S (ticks w)))) "%Y%m%d_%H%M%S"
    = strftime (clock w (ticks w)) "%Y%m%d_%H%M%S" ->
  exists w1 w2,
    generate_and_insert fr o1 w = (Ok tt, w1) /\
    generate_and_insert fr o2 w1 = (Ok tt, w2) /\
    filepath_of w1 = filepath_of w /\
    files w2 =
      <[ filepath_of w := String.append header_line (row_line fr w1) ]>
        (files w) /\
    committed w2 =
      committed w ++ [(insert_query, insert_args w);
                      (insert_query, insert_args w1)].
Proof.
  intros Hmk1 Hcsv1 Hdb1 Hmk2 Hcsv2 Hdb2 Hsame.
  destruct (iteration_csv_ok fr o1 w Hmk1 Hcsv1)
    as (w1 & Hrun1 & _ & Hf1 & Hc1 & _ & _ & Ht1 & Hck1 & He1).
  destruct (iteration_csv_ok fr o2 w1 Hmk2 Hcsv2)
    as (w2 & Hrun2 & _ & Hf2 & Hc2 & _).
  rewrite Hdb1 in Hrun1. rewrite Hdb2 in Hrun2.
  destruct (next_iteration_values w w1 Ht1 Hck1 He1) as [Hdir Hname].
  assert (Hpath : filepath_of w1 = filepath_of w).
  { unfold filepath_of. rewrite Hdir, Hname, Hsame. reflexivity. }
  exists w1, w2. split; [exact Hrun1|]. split; [exact Hrun2|].
  split; [exact Hpath|]. split.
  - rewrite Hf2, Hf1, Hpath. apply insert_insert_eq.
  - rewrite Hc2, Hc1, !db_committed_ok by assumption.
    rewrite <- app_assoc. reflexivity.
Qed.

Lemma digit_char_inj a b :
  0 <= a <= 9 -> 0 <= b <= 9 -> digit_char a = digit_char b -> a = b.
Proof.
  intros Ha Hb H. apply (f_equal digit_val) in H.
  rewrite !digit_val_digit_char in H by assumption. exact H.
Qed.

Lemma zero_padded_two_inj n m :
  (n <= 99)%nat -> (m <= 99)%nat -> zero_padded 2 n = zero_padded 2 m -> n = m.
Proof.
  intros Hn Hm H. rewrite !zero_padded_two in H by assumption.
  injection H as H1 H0.
  apply digit_char_inj in H1; [|Z.div_mod_to_equations; lia..].
  apply digit_char_inj in H0; [|Z.div_mod_to_equations; lia..].
  Z.div_mod_to_equations. lia.
Qed.

Lemma zero_padded_four_inj n m :
  1000 <= Z.of_nat n <= 9999 -> 1000 <= Z.of_nat m <= 9999 ->
  zero_padded 4 n = zero_padded 4 m -> n = m.
Proof.
  intros Hn Hm H. rewrite !zero_padded_four in H by assumption.
  injection H as H3 H2 H1 H0.
  apply digit_char_inj in H3; [|Z.div_mod_to_equations; lia..].
  apply digit_char_inj in H2; [|Z.div_mod_to_equations; lia..].
  apply digit_char_inj in H1; [|Z.div_mod_to_equations; lia..].
  apply digit_char_inj in H0; [|Z.div_mod_to_equations; lia..].
  Z.div_mod_to_equations. lia.
Qed.

Lemma append_inj_l a b c : String.append a b = String.append a c -> b = c.
Proof.
  induction a as [|x a IH]; cbn [String.append]; [tauto|].
  intros [= H]. apply IH. exact H.
Qed.

Lemma append_inj a a' b b' :
  String.length a = String.length a' ->
  String.append a b = String.append a' b' -> a = a' /\ b = b'.
Proof.
  revert a'. induction a as [|x a IH]; intros [|x' a'];
    cbn [String.length String.append]; try discriminate.
  - intros _ H. split; [reflexivity|exact H].
  - intros [= Hl] [= -> H]. destruct (IH a' Hl H) as [-> ->].
    split; reflexivity.
Qed.

Lemma valid_datetime_bounds d :
  valid_datetime d = true ->
  1000 <= Z.of_nat (year d) <= 9999 /\
  (month d <= 99)%nat /\ (day d <= 99)%nat /\ (hour d <= 99)%nat /\
  (minute d <= 99)%nat /\ (second d <= 99)%nat.
Proof.
  unfold valid_datetime. intros H.
  repeat (apply andb_prop in H as [H ?]).
  repeat match goal with
  | H : (_ <=? _) = true |- _ => apply Z.leb_le in H
  | H : (_ <=? _)%nat = true |- _ => apply Nat.leb_le in H
  end.
  lia.
Qed.

Lemma length_zero_padded_two n :
  (n <= 99)%nat -> String.length (zero_padded 2 n) = 2%nat.
Proof. intros H. rewrite zero_padded_two by exact H. reflexivity. Qed.

Lemma length_zero_padded_four n :
  1000 <= Z.of_nat n <= 9999 -> String.length (zero_padded 4 n) = 4%nat.
Proof. intros H. rewrite zero_padded_four by exact H. reflexivity. Qed.

(** The stamp in the file name determines the second it was made in. *)
Lemma file_stamp_injective d1 d2 :
  valid_datetime d1 = true -> valid_datetime d2 = true ->
  strftime d1 "%Y%m%d_%H%M%S" = strftime d2 "%Y%m%d_%H%M%S" -> d1 = d2.
Proof.
  intros H1 H2 H. rewrite !strftime_file_stamp in H.
  destruct (valid_datetime_bounds d1 H1) as (Hy1 & Hm1 & Hd1 & Hh1 & Hi1 & Hs1).
  destruct (valid_datetime_bounds d2 H2) as (Hy2 & Hm2 & Hd2 & Hh2 & Hi2 & Hs2).
  apply append_inj in H as [Hy H];
    [|rewrite !length_zero_padded_four by assumption; reflexivity].
  apply append_inj in H as [Hm H];
    [|rewrite !length_zero_padded_two by assumption; reflexivity].
  apply append_inj in H as [Hd H];
    [|rewrite !length_zero_padded_two by assumption; reflexivity].
  injection H as H.
  apply append_inj in H as [Hh H];
    [|rewrite !length_zero_padded_two by assumption; reflexivity].
  apply append_inj in H as [Hi H];
    [|rewrite !length_zero_padded_two by assumption; reflexivity].
  apply append_inj in H as [Hs _];
    [|rewrite !length_zero_padded_two by assumption; reflexivity].
  apply zero_padded_four_inj in Hy; [|assumption..].
  apply zero_padded_two_inj in Hm; [|assumption..].
  apply zero_padded_two_inj in Hd; [|assumption..].
  apply zero_padded_two_inj in Hh; [|assumption..].
  apply zero_padded_two_inj in Hi; [|assumption..].
  apply zero_padded_two_inj in Hs; [|assumption..].
  destruct d1, d2. cbn in *. congruence.
Qed.

Lemma length_file_stamp d :
  valid_datetime d = true ->
  String.length (strftime d "%Y%m%d_%H%M%S") = 15%nat.
Proof.
  intros H. destruct (valid_datetime_bounds d H) as (Hy & Hm & Hd & Hh & Hi & Hs).
  rewrite strftime_file_stamp, zero_padded_four by assumption.
  rewrite !zero_padded_two by assumption. reflexivity.
Qed.

(** X10: Two consecutive iterations whose first clock reads differ write to
    two different paths (the directory being the same), so that both
    files are there afterwards, each with its own reading. *)
Theorem distinct_seconds_keep_both_files fr o1 o2 w :
  o_mkdir o1 = None -> csv_write_answer o1 = None ->
  o_mkdir o2 = None -> csv_write_answer o2 = None ->
  valid_datetime (clock w (ticks w)) = true ->
  valid_datetime (clock w (S (S (ticks w)))) = true ->
  clock w (S (S (ticks w))) <> clock w (ticks w) ->
  exists w1 w2,
    snd (generate_and_insert fr o1 w) = w1 /\
    snd (generate_and_insert fr o2 w1) = w2 /\
    filepath_of w1 <> filepath_of w /\
    files w2 !! filepath_of w
      = Some (String.append header_line (row_line fr w)) /\
    files w2 !! filepath_of w1
      = Some (String.append header_line (row_line fr w1)).
Proof.
  intros Hmk1 Hcsv1 Hmk2 Hcsv2 Hv0 Hv1 Hne.
  destruct (iteration_csv_ok fr o1 w Hmk1 Hcsv1)
    as (w1 & Hrun1 & _ & Hf1 & _ & _ & _ & Ht1 & Hck1 & He1).
  destruct (iteration_csv_ok fr o2 w1 Hmk2 Hcsv2)
    as (w2 & Hrun2 & _ & Hf2 & _).
  destruct (next_iteration_values w w1 Ht1 Hck1 He1) as [Hdir Hname].
  assert (Hpath : filepath_of w1 <> filepath_of w).
  { unfold filepath_of. rewrite Hdir, Hname. unfold filename_of, first_now.
    rewrite !os_path_join_relative by reflexivity.
    intros H. apply append_inj_l, append_inj_l, append_inj_l in H.
    apply append_inj in H as [H _];
      [|rewrite !length_file_stamp by assumption; reflexivity].
    apply Hne. apply file_stamp_injective; assumption. }
  exists w1, w2. split; [rewrite Hrun1; reflexivity|].
  split; [rewrite Hrun2; reflexivity|]. split; [exact Hpath|].
  rewrite Hf2, Hf1. split.
  - rewrite lookup_insert_ne by exact Hpath. apply lookup_insert_eq.
  - apply lookup_insert_eq.
Qed.

(** *** The reading in the file and in the database *)

(** X11: When the file is written and the cursor obtained, the parameters of
    the INSERT are the four values of the row written to the file, in
    the order of the header, and the last of them is the name of that
    file. *)
Theorem csv_row_and_inserted_row_agree fr o w :
  o_mkdir o = None -> csv_write_answer o = None ->
  o_connect o = None -> o_cursor o = None ->
  exists w' evs args name,
    snd (generate_and_insert fr o w) = w' /\
    calls w w' evs /\
    In (EvOpen (os_path_join (csv_out_dir_of w) name)) evs /\
    In (EvWrite (os_path_join (csv_out_dir_of w) name)
          (csv_line (map (str fr) args))) evs /\
    In (EvExecute (next_conn w) insert_query args) evs /\
    length args = 4%nat /\ args !! 3%nat = Some (PyStr name).
Proof.
  intros Hmk Hcsv Hcn Hcu.
  destruct (iteration_csv_ok fr o w Hmk Hcsv) as (w' & Hrun & Hcalls & _).
  exists w', (prelude_events w ++ reading_events w ++ csv_events fr w
              ++ db_events fr o w), (insert_args w), (filename_of w).
  split; [rewrite Hrun; reflexivity|]. split; [exact Hcalls|].
  split; [|split; [|split; [|split; reflexivity]]].
  - apply in_or_app; right. apply in_or_app; right. apply in_or_app; left.
    left. reflexivity.
  - apply in_or_app; right. apply in_or_app; right. apply in_or_app; left.
    right; right; left. reflexivity.
  - apply in_or_app; right. apply in_or_app; right. apply in_or_app; right.
    unfold db_events. rewrite Hcn, Hcu. right; right; left. reflexivity.
Qed.

Lemma strftime_recorded_at d :
  strftime d "%Y-%m-%d %H:%M:%S" =
  String.append (zero_padded 4 (year d))
 (String "-"
 (String.append (zero_padded 2 (month d))
 (String "-"
 (String.append (zero_padded 2 (day d))
 (String " "
 (String.append (zero_padded 2 (hour d))
 (String ":"
 (String.append (zero_padded 2 (minute d))
 (String ":"
 (String.append (zero_padded 2 (second d)) EmptyString)))))))))).
Proof. reflexivity. Qed.

Lemma recorded_at_matches d :
  valid_datetime d = true ->
  matches recorded_at_pattern (strftime d "%Y-%m-%d %H:%M:%S") = true.
Proof.
  intros H. destruct (valid_datetime_bounds d H) as (Hy & Hm & Hd & Hh & Hi & Hs).
  rewrite strftime_recorded_at.
  apply (matches_app "####" _ "-##-## ##:##:##"); [apply four_digits, Hy|].
  apply (matches_app "-" "-" "##-## ##:##:##"); [reflexivity|].
  apply (matches_app "##" _ "-## ##:##:##"); [apply two_digits, Hm|].
  apply (matches_app "-" "-" "## ##:##:##"); [reflexivity|].
  apply (matches_app "##" _ " ##:##:##"); [apply two_digits, Hd|].
  apply (matches_app " " " " "##:##:##"); [reflexivity|].
  apply (matches_app "##" _ ":##:##"); [apply two_digits, Hh|].
  apply (matches_app ":" ":" "##:##"); [reflexivity|].
  apply (matches_app "##" _ ":##"); [apply two_digits, Hi|].
  apply (matches_app ":" ":" "##"); [reflexivity|].
  apply (matches_app "##" _ ""); [apply two_digits, Hs|reflexivity].
Qed.

Lemma matches_length p s :
  matches p s = true -> String.length s = String.length p.
Proof.
  revert s. induction p as [|a p IH]; intros [|c s]; cbn [matches String.length];
    try discriminate; [reflexivity|].
  intros H. apply andb_prop in H as [_ H]. rewrite (IH s H). reflexivity.
Qed.

Lemma generate_csv_row_world w :
  generate_csv_row w
  = (Ok (<[ "recorded_at"%string :=
              PyStr (strftime (clock w (ticks w)) "%Y-%m-%d %H:%M:%S") ]>
         (<[ "voltage"%string := PyFloat (voltage_of w) ]>
          (<[ "temp"%string := PyFloat (temp_of w) ]> ∅))),
     log (EvRandom (rng w (S (draws w))))
       (draw (log (EvRandom (rng w (draws w)))
          (draw (log (EvNow (clock w (ticks w))) (tick w)))))).
Proof. destruct w. reflexivity. Qed.

Lemma reading_lookup_recorded_at ra v t :
  (<[ "recorded_at"%string := PyStr ra ]>
     (<[ "voltage"%string := PyFloat v ]>
        (<[ "temp"%string := PyFloat t ]> (∅ : gmap string pyval))))
    !! "recorded_at"%string = Some (PyStr ra).
Proof. vm_compute. reflexivity. Qed.

(** X12: For a clock value whose year has four digits, [generate_csv_row]
    makes one clock read and its [recorded_at] has the shape
    [YYYY-MM-DD HH:MM:SS]: nineteen characters, none of which makes the
    csv writer quote the field. *)
Theorem recorded_at_has_fixed_shape w :
  valid_datetime (clock w (ticks w)) = true ->
  exists row w' s,
    generate_csv_row w = (Ok row, w') /\
    row !! "recorded_at"%string = Some (PyStr s) /\
    s = strftime (clock w (ticks w)) "%Y-%m-%d %H:%M:%S" /\
    matches recorded_at_pattern s = true /\
    String.length s = 19%nat /\ csv_field s = s /\
    ticks w' = S (ticks w).
Proof.
  intros Hv. pose proof (recorded_at_matches _ Hv) as Hm.
  pose proof (reading_lookup_recorded_at
                (strftime (clock w (ticks w)) "%Y-%m-%d %H:%M:%S")
                (voltage_of w) (temp_of w)) as Hra.
  eexists _, _, _. split; [apply generate_csv_row_world|].
  split; [exact Hra|]. split; [reflexivity|]. split; [exact Hm|].
  split; [exact (matches_length _ _ Hm)|]. split; [|reflexivity].
  apply csv_field_plain. apply (matches_plain recorded_at_pattern); [reflexivity|].
  exact Hm.
Qed.

(** *** Where the password goes *)

Lemma iteration_events_password fr o w pw :
  iteration_events fr o
    (set_environ (<[ "PGPASSWORD"%string := pw ]> (environ w)) w)
  = map (with_password pw) (iteration_events fr o w).
Proof.
  unfold iteration_events, prelude_events, reading_events, csv_block_events,
    csv_events, db_events, csv_caught, db_caught, row_line, inserted_line,
    insert_args, filepath_of, filename_of, recorded_at_of, voltage_of, temp_of,
    first_now, second_now, csv_out_dir_of, pg_host_of, pg_port_of, pg_user_of,
    pg_password_of, pg_database_of, set_environ.
  cbn [environ clock ticks rng draws next_conn].
  rewrite lookup_insert_eq.
  rewrite !lookup_insert_ne by discriminate.
  destruct (o_mkdir o) as [e|]; [reflexivity|].
  rewrite !map_app.
  destruct (csv_write_answer o) as [e|].
  - cbn [map app]. do 11 f_equal.
    destruct (o_open o) as [e0|];
      [destruct (isinstance_Exception e0); reflexivity|].
    destruct (o_writeheader o) as [e1|];
      destruct (isinstance_Exception e); reflexivity.
  - rewrite !map_app. cbn [map app]. do 16 f_equal.
    destruct (o_connect o) as [e0|];
      [destruct (isinstance_Exception e0); reflexivity|].
    destruct (o_cursor o) as [e0|];
      [destruct (isinstance_Exception e0); reflexivity|].
    destruct (o_execute o) as [e0|];
      [destruct (isinstance_Exception e0); reflexivity|].
    destruct (o_commit o) as [e0|];
      [destruct (isinstance_Exception e0); reflexivity|].
    destruct (o_close o) as [e0|];
      [destruct (isinstance_Exception e0); reflexivity|].
    reflexivity.
Qed.

(** X13: The value of [PGPASSWORD] reaches [psycopg2.connect] and nothing
    else: with another password and the same answers, an iteration makes
    the same calls with the same arguments (the lines printed, the text
    written to the file and the parameters of the INSERT among them),
    but for the password given to [connect]; the start-up lines of [main]
    do not change either. *)
Theorem password_only_reaches_connect fr o w pw p :
  exists w1 w2 evs,
    snd (generate_and_insert fr o w) = w1 /\
    snd (generate_and_insert fr o
           (set_environ (<[ "PGPASSWORD"%string := pw ]> (environ w)) w)) = w2 /\
    calls w w1 evs /\
    calls (set_environ (<[ "PGPASSWORD"%string := pw ]> (environ w)) w) w2
          (map (with_password pw) evs) /\
    startup_events p (set_environ (<[ "PGPASSWORD"%string := pw ]> (environ w)) w)
      = startup_events p w.
Proof.
  destruct (generate_and_insert_run fr o w) as (w1 & Hrun1 & Hc1 & _).
  destruct (generate_and_insert_run fr o
              (set_environ (<[ "PGPASSWORD"%string := pw ]> (environ w)) w))
    as (w2 & Hrun2 & Hc2 & _).
  exists w1, w2, (iteration_events fr o w).
  split; [rewrite Hrun1; reflexivity|]. split; [rewrite Hrun2; reflexivity|].
  split; [exact Hc1|]. split.
  - rewrite <- iteration_events_password. exact Hc2.
  - unfold startup_events, csv_out_dir_of, pg_host_of, pg_port_of,
      pg_database_of, set_environ. cbn [environ].
    rewrite !lookup_insert_ne by discriminate. reflexivity.
Qed.

(** *** Connections that are not closed *)

Lemma connect_before_database fr w l :
  filter is_connect_event
    (prelude_events w ++ reading_events w ++ csv_events fr w ++ l)
  = filter is_connect_event l.
Proof. reflexivity. Qed.

(** X14: In a turn where the connection is obtained and the cursor, the
    INSERT or the commit then raises, [conn.close()] is not called.  Over
    [n] such turns in a row the program asks for [n] connections, each on
    a handle of its own, and calls [close()] on none of them: what
    becomes of them is left to the interpreter. *)
Theorem failed_inserts_never_call_close fr p os n :
  sleep_argument_error p = None ->
  (forall i, o_mkdir (os i) = None /\ csv_write_answer (os i) = None /\
             o_connect (os i) = None /\
             (exists e, isinstance_Exception e = true /\
                (o_cursor (os i) = Some e \/
                 (o_cursor (os i) = None /\ o_execute (os i) = Some e) \/
                 (o_cursor (os i) = None /\ o_execute (os i) = None /\
                  o_commit (os i) = Some e))) /\
             o_sleep (os i) = None) ->
  forall i w, exists w' evs,
    while_true fr n p os i w = (Ok tt, w') /\
    calls w w' evs /\
    length (filter is_connect_event evs) = n /\
    existsb is_close_event evs = false /\
    next_conn w' = (next_conn w + n)%nat.
Proof.
  intros Hp Hos. induction n as [|n IH]; intros i w.
  - exists w, []. split; [reflexivity|]. split; [apply calls_refl|].
    split; [reflexivity|]. split; [reflexivity|lia].
  - destruct (Hos i) as (Hmk & Hcsv & Hcn & (e & He & Hwhich) & Hsl).
    assert (Hdb : db_answer (os i) = Some e).
    { unfold db_answer. rewrite Hcn.
      destruct Hwhich as [->|[[-> ->]|(-> & -> & ->)]]; reflexivity. }
    assert (Hclose : existsb is_close_event (db_events fr (os i) w) = false).
    { rewrite close_in_db_events, Hcn.
      destruct Hwhich as [->|[[-> ->]|(-> & -> & ->)]]; reflexivity. }
    destruct (iteration_csv_ok fr (os i) w Hmk Hcsv)
      as (w1 & Hrun & Hcalls & _ & _ & _ & Hnc & _).
    rewrite Hdb in Hrun. cbn [handled] in Hrun. rewrite He in Hrun.
    rewrite Hcn in Hnc.
    destruct (db_events_kind fr (os i) w) as (_ & _ & Hconnect).
    assert (Hsleep : sleep_result p (os i) = Ok tt)
      by (unfold sleep_result; rewrite Hp, Hsl; reflexivity).
    destruct (IH (S i) (log (EvSleep p) w1))
      as (w' & evs & Hloop & Hcalls' & Hn & Hnone & Hnext).
    change (next_conn (log (EvSleep p) w1)) with (next_conn w1) in Hnext.
    exists w', ((prelude_events w ++ reading_events w ++ csv_events fr w
                 ++ db_events fr (os i) w) ++ [EvSleep p] ++ evs).
    split; [|split; [|split; [|split]]].
    + cbn [while_true]. unfold bind at 1.
      rewrite loop_body_run, Hrun, Hsleep. exact Hloop.
    + apply (calls_trans w w1 w'); [exact Hcalls|].
      apply (calls_trans w1 (log (EvSleep p) w1) w');
        [apply calls_log|exact Hcalls'].
    + rewrite filter_app, connect_before_database, Hconnect, filter_app.
      rewrite !length_app, Hn. reflexivity.
    + rewrite existsb_app, close_before_database, Hclose, existsb_app, Hnone.
      reflexivity.
    + lia.
Qed.

(** *** The start of [main] *)

(** X15: Before the loop, [main] reads the period, the output directory and
    the host, port and name of the database, in this order, and prints
    three lines on stdout; the period is shown as the integer [int]
    returned, not as the text of the variable.  The user and the password
    are not read at this point. *)
Theorem main_startup_lines fr n os w p :
  period_of w = Some p ->
  exists w0,
    calls w w0 (startup_events p w) /\
    main fr n os w = while_true fr n p os O w0 /\
    printed Stdout (startup_events p w) =
      [String.append "Starting telemetry generator (period: "
         (String.append (str_int p) "s)");
       String.append "Output directory: " (csv_out_dir_of w);
       String.append "Database: "
         (String.append (pg_host_of w)
         (String.append ":"
         (String.append (pg_port_of w)
         (String.append "/" (pg_database_of w)))))] /\
    printed Stderr (startup_events p w) = [] /\
    List.filter is_getenv_event (startup_events p w)
      = map EvGetenv ["GEN_PERIOD_SEC"; "CSV_OUT_DIR"; "PGHOST"; "PGPORT";
                      "PGDATABASE"]%string.
Proof.
  intros Hp.
  exists (fold_left (fun w ev => log ev w) (startup_events p w) w).
  split; [apply calls_startup|]. split; [rewrite main_run, Hp; reflexivity|].
  repeat split.
Qed.

(** *** File names in the order of time *)

Lemma append_cons x a b :
  String.append (String x a) b = String x (String.append a b).
Proof. reflexivity. Qed.

Lemma compare_app a a' b b' :
  String.length a = String.length a' ->
  String.compare (String.append a b) (String.append a' b')
  = then_compare (String.compare a a') (String.compare b b').
Proof.
  revert a'. induction a as [|x a IH]; intros [|x' a'];
    rewrite ?append_cons; cbn [String.length String.compare];
    try discriminate.
  - reflexivity.
  - intros [= Hl]. destruct (Ascii.compare x x'); [apply IH, Hl|reflexivity..].
Qed.

Lemma compare_same_prefix a b c :
  String.compare (String.append a b) (String.append a c) = String.compare b c.
Proof.
  induction a as [|x a IH]; [reflexivity|].
  rewrite !append_cons. cbn [String.compare].
  unfold Ascii.compare. rewrite N.compare_refl. exact IH.
Qed.

Lemma digit_char_compare a b :
  0 <= a <= 9 -> 0 <= b <= 9 ->
  Ascii.compare (digit_char a) (digit_char b) = (a ?= b).
Proof.
  intros Ha Hb.
  destruct (digit_char_cases a Ha)
    as [->|[->|[->|[->|[->|[->|[->|[->|[->| ->]]]]]]]]];
  destruct (digit_char_cases b Hb)
    as [->|[->|[->|[->|[->|[->|[->|[->|[->| ->]]]]]]]]]; reflexivity.
Qed.

Lemma lex_compare a b x y K :
  0 <= x < K -> 0 <= y < K ->
  then_compare (a ?= b) (x ?= y) = (a * K + x ?= b * K + y).
Proof.
  intros Hx Hy. destruct (Z.compare_spec a b) as [->|Hlt|Hgt];
    cbn [then_compare].
  - symmetry. apply Z.add_compare_mono_l.
  - symmetry. apply Z.compare_lt_iff. nia.
  - symmetry. apply Z.compare_gt_iff. nia.
Qed.

Lemma compare_two_chars a1 a0 b1 b0 :
  String.compare (String a1 (String a0 EmptyString))
                 (String b1 (String b0 EmptyString))
  = then_compare (Ascii.compare a1 b1) (Ascii.compare a0 b0).
Proof.
  cbn [String.compare].
  destruct (Ascii.compare a1 b1), (Ascii.compare a0 b0); reflexivity.
Qed.

Lemma compare_four_chars a3 a2 a1 a0 b3 b2 b1 b0 :
  String.compare
    (String a3 (String a2 (String a1 (String a0 EmptyString))))
    (String b3 (String b2 (String b1 (String b0 EmptyString))))
  = then_compare (Ascii.compare a3 b3)
      (then_compare (Ascii.compare a2 b2)
         (then_compare (Ascii.compare a1 b1) (Ascii.compare a0 b0))).
Proof.
  cbn [String.compare].
  destruct (Ascii.compare a3 b3), (Ascii.compare a2 b2),
    (Ascii.compare a1 b1), (Ascii.compare a0 b0); reflexivity.
Qed.

Lemma compare_zero_padded_two n m :
  (n <= 99)%nat -> (m <= 99)%nat ->
  String.compare (zero_padded 2 n) (zero_padded 2 m) = Nat.compare n m.
Proof.
  intros Hn Hm. rewrite !zero_padded_two by assumption.
  rewrite compare_two_chars.
  rewrite !digit_char_compare by (Z.div_mod_to_equations; lia).
  rewrite (lex_compare _ _ _ _ 10) by (Z.div_mod_to_equations; lia).
  rewrite <- Nat2Z.inj_compare. f_equal; Z.div_mod_to_equations; lia.
Qed.

Lemma compare_zero_padded_four n m :
  1000 <= Z.of_nat n <= 9999 -> 1000 <= Z.of_nat m <= 9999 ->
  String.compare (zero_padded 4 n) (zero_padded 4 m) = Nat.compare n m.
Proof.
  intros Hn Hm. rewrite !zero_padded_four by assumption.
  rewrite compare_four_chars.
  rewrite !digit_char_compare by (Z.div_mod_to_equations; lia).
  rewrite (lex_compare _ _ _ _ 10) by (Z.div_mod_to_equations; lia).
  rewrite (lex_compare _ _ _ _ 100) by (Z.div_mod_to_equations; lia).
  rewrite (lex_compare _ _ _ _ 1000) by (Z.div_mod_to_equations; lia).
  rewrite <- Nat2Z.inj_compare. f_equal; Z.div_mod_to_equations; lia.
Qed.

(** The stamps of two clock values compare, as strings, the way the
    clock values do. *)
Lemma compare_file_stamp d1 d2 :
  valid_datetime d1 = true -> valid_datetime d2 = true ->
  String.compare (strftime d1 "%Y%m%d_%H%M%S") (strftime d2 "%Y%m%d_%H%M%S")
  = datetime_compare d1 d2.
Proof.
  intros H1 H2. rewrite !strftime_file_stamp.
  destruct (valid_datetime_bounds d1 H1) as (Hy1 & Hm1 & Hd1 & Hh1 & Hi1 & Hs1).
  destruct (valid_datetime_bounds d2 H2) as (Hy2 & Hm2 & Hd2 & Hh2 & Hi2 & Hs2).
  unfold datetime_compare.
  rewrite compare_app
    by (rewrite !length_zero_padded_four by assumption; reflexivity).
  rewrite compare_zero_padded_four by assumption. f_equal.
  rewrite compare_app
    by (rewrite !length_zero_padded_two by assumption; reflexivity).
  rewrite compare_zero_padded_two by assumption. f_equal.
  rewrite compare_app
    by (rewrite !length_zero_padded_two by assumption; reflexivity).
  rewrite compare_zero_padded_two by assumption. f_equal.
  change (String "_" ?s) with (String.append "_" s).
  rewrite (compare_same_prefix "_").
  rewrite compare_app
    by (rewrite !length_zero_padded_two by assumption; reflexivity).
  rewrite compare_zero_padded_two by assumption. f_equal.
  rewrite compare_app
    by (rewrite !length_zero_padded_two by assumption; reflexivity).
  rewrite compare_zero_padded_two by assumption. f_equal.
  rewrite compare_app
    by (rewrite !length_zero_padded_two by assumption; reflexivity).
  rewrite compare_zero_padded_two by assumption.
  destruct (second d1 ?= second d2)%nat; reflexivity.
Qed.

Lemma open_in_iteration_events fr o w :
  o_mkdir o = None -> In (EvOpen (filepath_of w)) (iteration_events fr o w).
Proof.
  intros Hmk. unfold iteration_events. rewrite Hmk.
  apply in_or_app; right. apply in_or_app; right.
  destruct (csv_write_answer o).
  - left. reflexivity.
  - apply in_or_app; left. left. reflexivity.
Qed.

(** X16: The names of the files that two iterations open compare, as strings,
    the way the clock values they were made from compare: sorted by
    name, the files are in the order of time. *)
Theorem file_names_sort_by_time fr o1 o2 w1 w2 :
  o_mkdir o1 = None -> o_mkdir o2 = None ->
  valid_datetime (clock w1 (ticks w1)) = true ->
  valid_datetime (clock w2 (ticks w2)) = true ->
  exists w1' w2' evs1 evs2 name1 name2,
    snd (generate_and_insert fr o1 w1) = w1' /\ calls w1 w1' evs1 /\
    snd (generate_and_insert fr o2 w2) = w2' /\ calls w2 w2' evs2 /\
    In (EvOpen (os_path_join (csv_out_dir_of w1) name1)) evs1 /\
    In (EvOpen (os_path_join (csv_out_dir_of w2) name2)) evs2 /\
    String.compare name1 name2
      = datetime_compare (clock w1 (ticks w1)) (clock w2 (ticks w2)).
Proof.
  intros Hmk1 Hmk2 Hv1 Hv2.
  destruct (generate_and_insert_run fr o1 w1) as (w1' & Hrun1 & Hc1 & _).
  destruct (generate_and_insert_run fr o2 w2) as (w2' & Hrun2 & Hc2 & _).
  exists w1', w2', (iteration_events fr o1 w1), (iteration_events fr o2 w2),
    (filename_of w1), (filename_of w2).
  split; [rewrite Hrun1; reflexivity|]. split; [exact Hc1|].
  split; [rewrite Hrun2; reflexivity|]. split; [exact Hc2|].
  split; [exact (open_in_iteration_events fr o1 w1 Hmk1)|].
  split; [exact (open_in_iteration_events fr o2 w2 Hmk2)|].
  unfold filename_of, first_now.
  rewrite (compare_same_prefix "telemetry_").
  rewrite compare_app by (rewrite !length_file_stamp by assumption; reflexivity).
  rewrite compare_file_stamp by assumption.
  destruct (datetime_compare _ _); reflexivity.
Qed.

(** *** The theorems at concrete inputs *)

Lemma csv_write_error_skips_database_witness :
  o_mkdir no_file = None /\
  csv_write_answer no_file
    = Some (Exn OSError "[Errno 13] Permission denied") /\
  exists w',
    generate_and_insert fixed2 no_file sample_world = (Ok tt, w') /\
    committed w' = [] /\ next_conn w' = O.
Proof.
  split; [reflexivity|]. split; [reflexivity|].
  destruct (csv_write_error_skips_database fixed2 no_file sample_world
              (Exn OSError "[Errno 13] Permission denied")
              eq_refl eq_refl eq_refl)
    as (w' & evs & Hrun & _ & _ & Hc & _ & Hn).
  exists w'. split; [exact Hrun|]. split; [exact Hc|exact Hn].
Defined.

Lemma database_error_keeps_csv_and_loop_witness :
  o_mkdir refused = None /\ csv_write_answer refused = None /\
  db_answer refused = Some (Exn Psycopg2Error "connection refused") /\
  exists w2,
    loop_body fixed2 300 refused sample_world = (Ok tt, w2) /\
    files w2 !! filepath_of sample_world
      = Some (String.append header_line (row_line fixed2 sample_world)).
Proof.
  split; [reflexivity|]. split; [reflexivity|]. split; [reflexivity|].
  destruct (database_error_keeps_csv_and_loop fixed2 300 refused sample_world
              (Exn Psycopg2Error "connection refused")
              eq_refl eq_refl eq_refl eq_refl)
    as (w1 & w2 & evs & _ & _ & _ & Hloop & _ & Hfile & _).
  exists w2. split; [exact Hloop|exact Hfile].
Defined.


Lemma main_loop_never_exits_witness :
  period_of sample_world = Some 300 /\
  sleep_argument_error 300 = None /\
  exists w' evs,
    main fixed2 3 (fun _ => all_fine) sample_world = (Ok tt, w') /\
    calls sample_world w' evs /\ length (filter is_sleep evs) = 3%nat.
Proof.
  split; [reflexivity|]. split; [reflexivity|].
  apply (proj1 (proj2 (main_loop_never_exits fixed2))
           3%nat (fun _ => all_fine) sample_world 300);
    [reflexivity|reflexivity|].
  intros i. split; reflexivity.
Defined.

Lemma config_read_each_turn_period_once_witness :
  In "PGHOST"%string call_config_names /\
  existsb (is_getenv "PGHOST")
    (events_since sample_world
       (snd (loop_body fixed2 300 all_fine sample_world))) = true.
Proof.
  assert (Hin : In "PGHOST"%string call_config_names)
    by (right; left; reflexivity).
  split; [exact Hin|].
  exact (proj1 (config_read_each_turn_period_once fixed2)
           "PGHOST"%string Hin 300 all_fine sample_world).
Defined.

Lemma database_step_when_calls_succeed_witness :
  o_mkdir all_fine = None /\ csv_write_answer all_fine = None /\
  db_answer all_fine = None /\
  exists w',
    generate_and_insert fixed2 all_fine sample_world = (Ok tt, w') /\
    committed w' = [(insert_query, insert_args sample_world)] /\
    conns w' = delete O ∅.
Proof.
  split; [reflexivity|]. split; [reflexivity|]. split; [reflexivity|].
  destruct (database_step_when_calls_succeed fixed2 all_fine sample_world
              eq_refl eq_refl)
    as (w' & evs & Hrun & _ & _ & _ & _ & _ & Hok).
  destruct (Hok eq_refl) as (_ & _ & _ & Hc & Hcs).
  exists w'. split; [exact Hrun|]. split; [exact Hc|exact Hcs].
Defined.

Lemma close_only_on_success_witness :
  o_mkdir insert_rejected = None /\
  csv_write_answer insert_rejected = None /\
  o_connect insert_rejected = None /\
  exists w' evs,
    generate_and_insert fixed2 insert_rejected sample_world = (Ok tt, w') /\
    calls sample_world w' evs /\
    existsb is_close_event evs = false /\
    is_Some (conns w' !! O).
Proof.
  split; [reflexivity|]. split; [reflexivity|]. split; [reflexivity|].
  destruct (close_only_on_success fixed2 insert_rejected sample_world
              eq_refl eq_refl eq_refl)
    as (w' & evs & Hrun & Hcalls & Hfail & _).
  destruct (Hfail (Exn Psycopg2Error "relation does not exist")
              eq_refl (or_introl eq_refl) eq_refl)
    as (_ & Hnone & _ & Hopen).
  exists w', evs. split; [exact Hrun|]. split; [exact Hcalls|].
  split; [exact Hnone|exact Hopen].
Defined.

Lemma filename_and_recorded_at_from_two_clock_reads_witness :
  o_mkdir all_fine = None /\ csv_write_answer all_fine = None /\
  exists w' evs,
    snd (generate_and_insert fixed2 all_fine sample_world) = w' /\
    calls sample_world w' evs /\
    filter is_now_event evs
      = [EvNow (sample_clock 1); EvNow (sample_clock 2)].
Proof.
  split; [reflexivity|]. split; [reflexivity|].
  destruct (proj1 (filename_and_recorded_at_from_two_clock_reads fixed2)
              all_fine sample_world eq_refl eq_refl)
    as (w' & evs & Hrun & Hcalls & Hnow & _).
  exists w', evs. split; [exact Hrun|]. split; [exact Hcalls|exact Hnow].
Defined.

Lemma mkdir_error_reaches_main_handler_witness :
  o_mkdir no_directory
    = Some (Exn OSError "[Errno 13] Permission denied") /\
  exists w1 w2,
    generate_and_insert fixed2 no_directory sample_world
      = (Raise (Exn OSError "[Errno 13] Permission denied"), w1) /\
    loop_body fixed2 300 no_directory sample_world = (Ok tt, w2) /\
    files w2 = ∅.
Proof.
  split; [reflexivity|].
  destruct (mkdir_error_reaches_main_handler fixed2 300 no_directory
              sample_world (Exn OSError "[Errno 13] Permission denied")
              eq_refl eq_refl)
    as (w1 & w2 & Hrun & Hloop & _ & _ & Hf & _).
  exists w1, w2. split; [exact Hrun|]. split; [exact Hloop|exact Hf].
Defined.

Lemma reading_in_range_two_decimals_witness :
  exists row w' v t,
    generate_csv_row sample_world = (Ok row, w') /\
    row !! "voltage"%string = Some (PyFloat v) /\
    row !! "temp"%string = Some (PyFloat t) /\
    Binary64.leb Binary64.f3_2 v = true /\
    Binary64.leb v Binary64.f12_6 = true /\
    Binary64.leb (SFopp Binary64.f50_0) t = true /\
    Binary64.leb t Binary64.f80_0 = true /\
    Binary64.two_decimals v /\ Binary64.two_decimals t /\
    Binary64.round2 v = v /\ Binary64.round2 t = t.
Proof.
  apply (reading_in_range_two_decimals sample_world); vm_compute; reflexivity.
Defined.

Lemma only_mkdir_exception_escapes_witness :
  o_mkdir no_directory = Some (Exn OSError "[Errno 13] Permission denied") /\
  calls sample_world
    (snd (generate_and_insert fixed2 no_directory sample_world))
    (prelude_events sample_world).
Proof.
  destruct (only_mkdir_exception_escapes fixed2 no_directory sample_world
              (Exn OSError "[Errno 13] Permission denied")
              (snd (generate_and_insert fixed2 no_directory sample_world)))
    as (Hmk & Hcalls & _).
  - vm_compute. reflexivity.
  - reflexivity.
  - split; [exact Hmk|exact Hcalls].
Defined.

Lemma loop_ends_only_by_sleep_or_interrupt_witness :
  exists k, (0 <= k < 2)%nat /\
    (sleep_result 300 ((fun _ => interrupted) k)
       = Raise (Exn KeyboardInterrupt EmptyString) \/
     (isinstance_Exception (Exn KeyboardInterrupt EmptyString) = false /\
      iteration_result ((fun _ => interrupted) k)
        = Raise (Exn KeyboardInterrupt EmptyString))).
Proof.
  apply (loop_ends_only_by_sleep_or_interrupt fixed2 300 (fun _ => interrupted)
           2 0 sample_world (Exn KeyboardInterrupt EmptyString)
           (snd (while_true fixed2 2 300 (fun _ => interrupted) 0 sample_world))).
  vm_compute. reflexivity.
Defined.

Lemma unsleepable_period_stops_after_first_turn_witness :
  exists w0 w',
    main fixed2 3 (fun _ => all_fine) negative_period_world
      = (Raise (Exn ValueError "sleep length must be non-negative"), w') /\
    calls negative_period_world w0 (startup_events (-5) negative_period_world) /\
    calls w0 w' (iteration_events fixed2 all_fine w0 ++ turn_tail (-5) all_fine).
Proof.
  destruct (unsleepable_period_stops_after_first_turn fixed2 2
              (fun _ => all_fine) negative_period_world (-5)
              (Exn ValueError "sleep length must be non-negative"))
    as (w0 & w' & Hrun & Hstart & Hturn & _).
  - vm_compute. reflexivity.
  - reflexivity.
  - reflexivity.
  - exists w0, w'. split; [exact Hrun|]. split; [exact Hstart|exact Hturn].
Defined.

Lemma blank_period_is_not_defaulted_witness :
  exists e w',
    main fixed2 1 (fun _ => all_fine) empty_period_world = (Raise e, w') /\
    exn_cls e = ValueError /\
    calls empty_period_world w' [EvGetenv "GEN_PERIOD_SEC"].
Proof.
  destruct (proj2 (blank_period_is_not_defaulted fixed2 1 (fun _ => all_fine))
              empty_period_world EmptyString)
    as (e & w' & Hrun & He & Hcalls & _).
  - vm_compute. reflexivity.
  - reflexivity.
  - exists e, w'. split; [exact Hrun|]. split; [exact He|exact Hcalls].
Defined.

Lemma row_stored_exactly_when_commit_succeeds_witness :
  exists w' evs,
    generate_and_insert fixed2 close_fails sample_world = (Ok tt, w') /\
    calls sample_world w' evs /\
    committed w' = [(insert_query, insert_args sample_world)] /\
    printed Stdout evs
      = ["✓ CSV file created: /data/csv/telemetry_20240309_070059.csv"%string] /\
    printed Stderr evs
      = ["✗ Database error: connection already closed"%string].
Proof.
  destruct (row_stored_exactly_when_commit_succeeds fixed2 close_fails
              sample_world eq_refl eq_refl)
    as (w' & evs & Hrun & Hcalls & Hc & Hout & Herr).
  exists w', evs. split; [exact Hrun|]. split; [exact Hcalls|].
  split; [exact Hc|]. split; [exact Hout|exact Herr].
Defined.

Lemma one_error_line_per_failed_turn_witness :
  exists w' evs,
    loop_body fixed2 300 no_file sample_world = (Ok tt, w') /\
    calls sample_world w' evs /\
    printed Stderr evs
      = ["✗ Error writing CSV: [Errno 13] Permission denied"%string].
Proof.
  apply (one_error_line_per_failed_turn fixed2 300 no_file sample_world).
  reflexivity.
Defined.

Lemma failed_write_leaves_partial_file_witness :
  exists w',
    generate_and_insert fixed2 disk_full sample_world = (Ok tt, w') /\
    files w' !! filepath_of sample_world = Some EmptyString /\
    committed w' = [] /\ conns w' = ∅.
Proof.
  destruct (failed_write_leaves_partial_file fixed2 disk_full sample_world
              (Exn OSError "[Errno 28] No space left on device")
              eq_refl eq_refl eq_refl)
    as (w' & handed & Hrun & -> & Hfile & Hc & Hcs).
  exists w'. split; [exact Hrun|]. split; [exact Hfile|].
  split; [exact Hc|exact Hcs].
Defined.

Lemma same_second_overwrites_file_witness :
  exists w1 w2,
    generate_and_insert fixed2 all_fine frozen_world = (Ok tt, w1) /\
    generate_and_insert fixed2 all_fine w1 = (Ok tt, w2) /\
    filepath_of w1 = filepath_of frozen_world /\
    files w2 =
      <[ filepath_of frozen_world :=
           String.append header_line (row_line fixed2 w1) ]> ∅ /\
    committed w2 =
      [(insert_query, insert_args frozen_world);
       (insert_query, insert_args w1)].
Proof.
  apply (same_second_overwrites_file fixed2 all_fine all_fine frozen_world);
    reflexivity.
Defined.

Lemma distinct_seconds_keep_both_files_witness :
  exists w1 w2,
    snd (generate_and_insert fixed2 all_fine sample_world) = w1 /\
    snd (generate_and_insert fixed2 refused w1) = w2 /\
    filepath_of w1 <> filepath_of sample_world /\
    files w2 !! filepath_of sample_world
      = Some (String.append header_line (row_line fixed2 sample_world)) /\
    files w2 !! filepath_of w1
      = Some (String.append header_line (row_line fixed2 w1)).
Proof.
  apply (distinct_seconds_keep_both_files fixed2 all_fine refused sample_world);
    try reflexivity.
  discriminate.
Defined.

Lemma csv_row_and_inserted_row_agree_witness :
  exists w' evs args name,
    snd (generate_and_insert fixed2 insert_rejected sample_world) = w' /\
    calls sample_world w' evs /\
    In (EvOpen (os_path_join (csv_out_dir_of sample_world) name)) evs /\
    In (EvWrite (os_path_join (csv_out_dir_of sample_world) name)
          (csv_line (map (str fixed2) args))) evs /\
    In (EvExecute (next_conn sample_world) insert_query args) evs /\
    length args = 4%nat /\ args !! 3%nat = Some (PyStr name).
Proof.
  apply (csv_row_and_inserted_row_agree fixed2 insert_rejected sample_world);
    reflexivity.
Defined.

Lemma recorded_at_has_fixed_shape_witness :
  exists row w' s,
    generate_csv_row sample_world = (Ok row, w') /\
    row !! "recorded_at"%string = Some (PyStr s) /\
    s = strftime (clock sample_world (ticks sample_world)) "%Y-%m-%d %H:%M:%S" /\
    matches recorded_at_pattern s = true /\
    String.length s = 19%nat /\ csv_field s = s /\
    ticks w' = S (ticks sample_world).
Proof.
  apply (recorded_at_has_fixed_shape sample_world). reflexivity.
Defined.

Lemma failed_inserts_never_call_close_witness :
  exists w' evs,
    while_true fixed2 2 300 (fun _ => insert_rejected) 0 sample_world
      = (Ok tt, w') /\
    calls sample_world w' evs /\
    length (filter is_connect_event evs) = 2%nat /\
    existsb is_close_event evs = false /\
    next_conn w' = 2%nat.
Proof.
  apply (failed_inserts_never_call_close fixed2 300
           (fun _ => insert_rejected) 2 eq_refl).
  intros i. repeat split; try reflexivity.
  exists (Exn Psycopg2Error "relation does not exist").
  split; [reflexivity|]. right; left. split; reflexivity.
Defined.

Lemma main_startup_lines_witness :
  exists w0,
    calls spelled_period_world w0 (startup_events 300 spelled_period_world) /\
    main fixed2 1 (fun _ => all_fine) spelled_period_world
      = while_true fixed2 1 300 (fun _ => all_fine) O w0 /\
    printed Stdout (startup_events 300 spelled_period_world) =
      ["Starting telemetry generator (period: 300s)";
       "Output directory: /data/csv";
       "Database: db:5432/monolith"]%string.
Proof.
  destruct (main_startup_lines fixed2 1 (fun _ => all_fine)
              spelled_period_world 300)
    as (w0 & Hcalls & Hrun & Hout & _).
  - vm_compute. reflexivity.
  - exists w0. split; [exact Hcalls|]. split; [exact Hrun|exact Hout].
Defined.

Lemma file_names_sort_by_time_witness :
  exists w1' w2' evs1 evs2 name1 name2,
    snd (generate_and_insert fixed2 all_fine frozen_world) = w1' /\
    calls frozen_world w1' evs1 /\
    snd (generate_and_insert fixed2 no_file sample_world) = w2' /\
    calls sample_world w2' evs2 /\
    In (EvOpen (os_path_join (csv_out_dir_of frozen_world) name1)) evs1 /\
    In (EvOpen (os_path_join (csv_out_dir_of sample_world) name2)) evs2 /\
    String.compare name1 name2 = Lt.
Proof.
  apply (file_names_sort_by_time fixed2 all_fine no_file frozen_world
           sample_world); reflexivity.
Defined.
